(** * voidlight-markdown-mcp-server: a shallow embedding and its properties

    The development follows the Python sources of the repository:

    - [Py]           the fragment of Python's [str] the sources rely on;
    - [Re]           the fragment of Python's [re] module the sources rely
                     on (pattern syntax, backtracking matcher, [search],
                     [finditer], [sub]);
    - [FormatUtils]  utils/format_utils.py;
    - [Stream]       core/stream_info.py;
    - [Detector]     utils/file_detector.py;
    - [Exn]          exceptions and the results of calls;
    - [Base]         core/base_converter.py;
    - [Text]         utils/stream_utils.py and converters/text_converter.py;
    - [Engine]       core/markitdown.py;
    - [Audio]        converters/audio_converter.py;
    - [Config]       config/settings.py;
    - [Examples]     the inputs of the examples;
    - [Props]        the notions used in the statements;
    - [Notions]      further notions used in the statements;
    - [ConfigUpdate] config/settings.py: [update_config];
    - [StreamUtils]  utils/stream_utils.py: seekable copies and
                     [copy_stream]; [is_text_file] of
                     utils/file_detector.py;
    - [Formatting]   utils/format_utils.py: escaping, tables, file names
                     and [extract_text_from_markdown];
    - [FormatNotions], [MatchNotions]
                     notions used in the statements about them;
    - [Uri]          core/markitdown.py: [convert_uri] and
                     [_convert_data_uri];
    - [AudioTitle]   converters/audio_converter.py:
                     [_extract_audio_title];
    - [LoopExamples] converters for the examples of the attempt loop.

    The theorems follow the definitions, one section for each part of
    the program.

    Python strings are sequences of code points; a code point is a number
    of type [N].  Pattern strings and string constants are copied from the
    sources character by character: a Rocq string has no escape
    sequences, so the raw Python literal [r'\\s'] (backslash, backslash,
    s) is written with the same three characters here, and the non-raw
    Python literal ['\\n'] (backslash, n) is written with a single
    backslash followed by n. *)

From Stdlib Require Import NArith ZArith QArith List String Ascii Lia Bool.
From Stdlib Require PrimFloat.
From Stdlib Require Import Sorting.Sorted.
From stdpp Require Import base gmap sets list strings sorting.
Import ListNotations.

Set Default Proof Using "Type".
Set Warnings "-register-all,-clear-no-such-hyp".

(* ================================================================== *)
(** * Python strings *)
(* ================================================================== *)

Module Py.

Definition char := N.
Definition str := list char.

(** A string constant of the sources, one code point per character. *)
Definition lit (s : string) : str :=
  List.map N_of_ascii (list_ascii_of_string s).

Definition NL : char := 10%N.
Definition TAB : char := 9%N.
Definition SP : char := 32%N.
Definition BSL : char := 92%N.

Definition in_range (lo hi c : char) : bool := (lo <=? c)%N && (c <=? hi)%N.

(** [str.isspace] on one code point, which is also what [\s] tests on a
    [str] pattern and what [str.strip()] removes. *)
Definition isspace (c : char) : bool :=
  (in_range 9 13 c || in_range 28 32 c || (c =? 133) || (c =? 160)
   || (c =? 5760) || in_range 8192 8202 c || (c =? 8232)
   || (c =? 8233) || (c =? 8239) || (c =? 8287) || (c =? 12288))%N.

(** The digits [0] to [9], which the syntax of patterns and of
    replacement templates asks for. *)
Definition isdigit (c : char) : bool := (in_range 48 57 c)%N.

(** The code points for which [str.isalnum] holds, as ranges with both
    ends included and in increasing order: the letters and the digits of
    Unicode 14.0, the data of Python 3.11. *)
Definition alnum_ranges : list (N * N) :=
  [ (48, 57); (65, 90); (97, 122); (170, 170);
    (178, 179); (181, 181); (185, 186); (188, 190);
    (192, 214); (216, 246); (248, 705); (710, 721);
    (736, 740); (748, 748); (750, 750); (880, 884);
    (886, 887); (890, 893); (895, 895); (902, 902);
    (904, 906); (908, 908); (910, 929); (931, 1013);
    (1015, 1153); (1162, 1327); (1329, 1366); (1369, 1369);
    (1376, 1416); (1488, 1514); (1519, 1522); (1568, 1610);
    (1632, 1641); (1646, 1647); (1649, 1747); (1749, 1749);
    (1765, 1766); (1774, 1788); (1791, 1791); (1808, 1808);
    (1810, 1839); (1869, 1957); (1969, 1969); (1984, 2026);
    (2036, 2037); (2042, 2042); (2048, 2069); (2074, 2074);
    (2084, 2084); (2088, 2088); (2112, 2136); (2144, 2154);
    (2160, 2183); (2185, 2190); (2208, 2249); (2308, 2361);
    (2365, 2365); (2384, 2384); (2392, 2401); (2406, 2415);
    (2417, 2432); (2437, 2444); (2447, 2448); (2451, 2472);
    (2474, 2480); (2482, 2482); (2486, 2489); (2493, 2493);
    (2510, 2510); (2524, 2525); (2527, 2529); (2534, 2545);
    (2548, 2553); (2556, 2556); (2565, 2570); (2575, 2576);
    (2579, 2600); (2602, 2608); (2610, 2611); (2613, 2614);
    (2616, 2617); (2649, 2652); (2654, 2654); (2662, 2671);
    (2674, 2676); (2693, 2701); (2703, 2705); (2707, 2728);
    (2730, 2736); (2738, 2739); (2741, 2745); (2749, 2749);
    (2768, 2768); (2784, 2785); (2790, 2799); (2809, 2809);
    (2821, 2828); (2831, 2832); (2835, 2856); (2858, 2864);
    (2866, 2867); (2869, 2873); (2877, 2877); (2908, 2909);
    (2911, 2913); (2918, 2927); (2929, 2935); (2947, 2947);
    (2949, 2954); (2958, 2960); (2962, 2965); (2969, 2970);
    (2972, 2972); (2974, 2975); (2979, 2980); (2984, 2986);
    (2990, 3001); (3024, 3024); (3046, 3058); (3077, 3084);
    (3086, 3088); (3090, 3112); (3114, 3129); (3133, 3133);
    (3160, 3162); (3165, 3165); (3168, 3169); (3174, 3183);
    (3192, 3198); (3200, 3200); (3205, 3212); (3214, 3216);
    (3218, 3240); (3242, 3251); (3253, 3257); (3261, 3261);
    (3293, 3294); (3296, 3297); (3302, 3311); (3313, 3314);
    (3332, 3340); (3342, 3344); (3346, 3386); (3389, 3389);
    (3406, 3406); (3412, 3414); (3416, 3425); (3430, 3448);
    (3450, 3455); (3461, 3478); (3482, 3505); (3507, 3515);
    (3517, 3517); (3520, 3526); (3558, 3567); (3585, 3632);
    (3634, 3635); (3648, 3654); (3664, 3673); (3713, 3714);
    (3716, 3716); (3718, 3722); (3724, 3747); (3749, 3749);
    (3751, 3760); (3762, 3763); (3773, 3773); (3776, 3780);
    (3782, 3782); (3792, 3801); (3804, 3807); (3840, 3840);
    (3872, 3891); (3904, 3911); (3913, 3948); (3976, 3980);
    (4096, 4138); (4159, 4169); (4176, 4181); (4186, 4189);
    (4193, 4193); (4197, 4198); (4206, 4208); (4213, 4225);
    (4238, 4238); (4240, 4249); (4256, 4293); (4295, 4295);
    (4301, 4301); (4304, 4346); (4348, 4680); (4682, 4685);
    (4688, 4694); (4696, 4696); (4698, 4701); (4704, 4744);
    (4746, 4749); (4752, 4784); (4786, 4789); (4792, 4798);
    (4800, 4800); (4802, 4805); (4808, 4822); (4824, 4880);
    (4882, 4885); (4888, 4954); (4969, 4988); (4992, 5007);
    (5024, 5109); (5112, 5117); (5121, 5740); (5743, 5759);
    (5761, 5786); (5792, 5866); (5870, 5880); (5888, 5905);
    (5919, 5937); (5952, 5969); (5984, 5996); (5998, 6000);
    (6016, 6067); (6103, 6103); (6108, 6108); (6112, 6121);
    (6128, 6137); (6160, 6169); (6176, 6264); (6272, 6276);
    (6279, 6312); (6314, 6314); (6320, 6389); (6400, 6430);
    (6470, 6509); (6512, 6516); (6528, 6571); (6576, 6601);
    (6608, 6618); (6656, 6678); (6688, 6740); (6784, 6793);
    (6800, 6809); (6823, 6823); (6917, 6963); (6981, 6988);
    (6992, 7001); (7043, 7072); (7086, 7141); (7168, 7203);
    (7232, 7241); (7245, 7293); (7296, 7304); (7312, 7354);
    (7357, 7359); (7401, 7404); (7406, 7411); (7413, 7414);
    (7418, 7418); (7424, 7615); (7680, 7957); (7960, 7965);
    (7968, 8005); (8008, 8013); (8016, 8023); (8025, 8025);
    (8027, 8027); (8029, 8029); (8031, 8061); (8064, 8116);
    (8118, 8124); (8126, 8126); (8130, 8132); (8134, 8140);
    (8144, 8147); (8150, 8155); (8160, 8172); (8178, 8180);
    (8182, 8188); (8304, 8305); (8308, 8313); (8319, 8329);
    (8336, 8348); (8450, 8450); (8455, 8455); (8458, 8467);
    (8469, 8469); (8473, 8477); (8484, 8484); (8486, 8486);
    (8488, 8488); (8490, 8493); (8495, 8505); (8508, 8511);
    (8517, 8521); (8526, 8526); (8528, 8585); (9312, 9371);
    (9450, 9471); (10102, 10131); (11264, 11492); (11499, 11502);
    (11506, 11507); (11517, 11517); (11520, 11557); (11559, 11559);
    (11565, 11565); (11568, 11623); (11631, 11631); (11648, 11670);
    (11680, 11686); (11688, 11694); (11696, 11702); (11704, 11710);
    (11712, 11718); (11720, 11726); (11728, 11734); (11736, 11742);
    (11823, 11823); (12293, 12295); (12321, 12329); (12337, 12341);
    (12344, 12348); (12353, 12438); (12445, 12447); (12449, 12538);
    (12540, 12543); (12549, 12591); (12593, 12686); (12690, 12693);
    (12704, 12735); (12784, 12799); (12832, 12841); (12872, 12879);
    (12881, 12895); (12928, 12937); (12977, 12991); (13312, 19903);
    (19968, 42124); (42192, 42237); (42240, 42508); (42512, 42539);
    (42560, 42606); (42623, 42653); (42656, 42735); (42775, 42783);
    (42786, 42888); (42891, 42954); (42960, 42961); (42963, 42963);
    (42965, 42969); (42994, 43009); (43011, 43013); (43015, 43018);
    (43020, 43042); (43056, 43061); (43072, 43123); (43138, 43187);
    (43216, 43225); (43250, 43255); (43259, 43259); (43261, 43262);
    (43264, 43301); (43312, 43334); (43360, 43388); (43396, 43442);
    (43471, 43481); (43488, 43492); (43494, 43518); (43520, 43560);
    (43584, 43586); (43588, 43595); (43600, 43609); (43616, 43638);
    (43642, 43642); (43646, 43695); (43697, 43697); (43701, 43702);
    (43705, 43709); (43712, 43712); (43714, 43714); (43739, 43741);
    (43744, 43754); (43762, 43764); (43777, 43782); (43785, 43790);
    (43793, 43798); (43808, 43814); (43816, 43822); (43824, 43866);
    (43868, 43881); (43888, 44002); (44016, 44025); (44032, 55203);
    (55216, 55238); (55243, 55291); (63744, 64109); (64112, 64217);
    (64256, 64262); (64275, 64279); (64285, 64285); (64287, 64296);
    (64298, 64310); (64312, 64316); (64318, 64318); (64320, 64321);
    (64323, 64324); (64326, 64433); (64467, 64829); (64848, 64911);
    (64914, 64967); (65008, 65019); (65136, 65140); (65142, 65276);
    (65296, 65305); (65313, 65338); (65345, 65370); (65382, 65470);
    (65474, 65479); (65482, 65487); (65490, 65495); (65498, 65500);
    (65536, 65547); (65549, 65574); (65576, 65594); (65596, 65597);
    (65599, 65613); (65616, 65629); (65664, 65786); (65799, 65843);
    (65856, 65912); (65930, 65931); (66176, 66204); (66208, 66256);
    (66273, 66299); (66304, 66339); (66349, 66378); (66384, 66421);
    (66432, 66461); (66464, 66499); (66504, 66511); (66513, 66517);
    (66560, 66717); (66720, 66729); (66736, 66771); (66776, 66811);
    (66816, 66855); (66864, 66915); (66928, 66938); (66940, 66954);
    (66956, 66962); (66964, 66965); (66967, 66977); (66979, 66993);
    (66995, 67001); (67003, 67004); (67072, 67382); (67392, 67413);
    (67424, 67431); (67456, 67461); (67463, 67504); (67506, 67514);
    (67584, 67589); (67592, 67592); (67594, 67637); (67639, 67640);
    (67644, 67644); (67647, 67669); (67672, 67702); (67705, 67742);
    (67751, 67759); (67808, 67826); (67828, 67829); (67835, 67867);
    (67872, 67897); (67968, 68023); (68028, 68047); (68050, 68096);
    (68112, 68115); (68117, 68119); (68121, 68149); (68160, 68168);
    (68192, 68222); (68224, 68255); (68288, 68295); (68297, 68324);
    (68331, 68335); (68352, 68405); (68416, 68437); (68440, 68466);
    (68472, 68497); (68521, 68527); (68608, 68680); (68736, 68786);
    (68800, 68850); (68858, 68899); (68912, 68921); (69216, 69246);
    (69248, 69289); (69296, 69297); (69376, 69415); (69424, 69445);
    (69457, 69460); (69488, 69505); (69552, 69579); (69600, 69622);
    (69635, 69687); (69714, 69743); (69745, 69746); (69749, 69749);
    (69763, 69807); (69840, 69864); (69872, 69881); (69891, 69926);
    (69942, 69951); (69956, 69956); (69959, 69959); (69968, 70002);
    (70006, 70006); (70019, 70066); (70081, 70084); (70096, 70106);
    (70108, 70108); (70113, 70132); (70144, 70161); (70163, 70187);
    (70272, 70278); (70280, 70280); (70282, 70285); (70287, 70301);
    (70303, 70312); (70320, 70366); (70384, 70393); (70405, 70412);
    (70415, 70416); (70419, 70440); (70442, 70448); (70450, 70451);
    (70453, 70457); (70461, 70461); (70480, 70480); (70493, 70497);
    (70656, 70708); (70727, 70730); (70736, 70745); (70751, 70753);
    (70784, 70831); (70852, 70853); (70855, 70855); (70864, 70873);
    (71040, 71086); (71128, 71131); (71168, 71215); (71236, 71236);
    (71248, 71257); (71296, 71338); (71352, 71352); (71360, 71369);
    (71424, 71450); (71472, 71483); (71488, 71494); (71680, 71723);
    (71840, 71922); (71935, 71942); (71945, 71945); (71948, 71955);
    (71957, 71958); (71960, 71983); (71999, 71999); (72001, 72001);
    (72016, 72025); (72096, 72103); (72106, 72144); (72161, 72161);
    (72163, 72163); (72192, 72192); (72203, 72242); (72250, 72250);
    (72272, 72272); (72284, 72329); (72349, 72349); (72368, 72440);
    (72704, 72712); (72714, 72750); (72768, 72768); (72784, 72812);
    (72818, 72847); (72960, 72966); (72968, 72969); (72971, 73008);
    (73030, 73030); (73040, 73049); (73056, 73061); (73063, 73064);
    (73066, 73097); (73112, 73112); (73120, 73129); (73440, 73458);
    (73648, 73648); (73664, 73684); (73728, 74649); (74752, 74862);
    (74880, 75075); (77712, 77808); (77824, 78894); (82944, 83526);
    (92160, 92728); (92736, 92766); (92768, 92777); (92784, 92862);
    (92864, 92873); (92880, 92909); (92928, 92975); (92992, 92995);
    (93008, 93017); (93019, 93025); (93027, 93047); (93053, 93071);
    (93760, 93846); (93952, 94026); (94032, 94032); (94099, 94111);
    (94176, 94177); (94179, 94179); (94208, 100343); (100352, 101589);
    (101632, 101640); (110576, 110579); (110581, 110587); (110589, 110590);
    (110592, 110882); (110928, 110930); (110948, 110951); (110960, 111355);
    (113664, 113770); (113776, 113788); (113792, 113800); (113808, 113817);
    (119520, 119539); (119648, 119672); (119808, 119892); (119894, 119964);
    (119966, 119967); (119970, 119970); (119973, 119974); (119977, 119980);
    (119982, 119993); (119995, 119995); (119997, 120003); (120005, 120069);
    (120071, 120074); (120077, 120084); (120086, 120092); (120094, 120121);
    (120123, 120126); (120128, 120132); (120134, 120134); (120138, 120144);
    (120146, 120485); (120488, 120512); (120514, 120538); (120540, 120570);
    (120572, 120596); (120598, 120628); (120630, 120654); (120656, 120686);
    (120688, 120712); (120714, 120744); (120746, 120770); (120772, 120779);
    (120782, 120831); (122624, 122654); (123136, 123180); (123191, 123197);
    (123200, 123209); (123214, 123214); (123536, 123565); (123584, 123627);
    (123632, 123641); (124896, 124902); (124904, 124907); (124909, 124910);
    (124912, 124926); (124928, 125124); (125127, 125135); (125184, 125251);
    (125259, 125259); (125264, 125273); (126065, 126123); (126125, 126127);
    (126129, 126132); (126209, 126253); (126255, 126269); (126464, 126467);
    (126469, 126495); (126497, 126498); (126500, 126500); (126503, 126503);
    (126505, 126514); (126516, 126519); (126521, 126521); (126523, 126523);
    (126530, 126530); (126535, 126535); (126537, 126537); (126539, 126539);
    (126541, 126543); (126545, 126546); (126548, 126548); (126551, 126551);
    (126553, 126553); (126555, 126555); (126557, 126557); (126559, 126559);
    (126561, 126562); (126564, 126564); (126567, 126570); (126572, 126578);
    (126580, 126583); (126585, 126588); (126590, 126590); (126592, 126601);
    (126603, 126619); (126625, 126627); (126629, 126633); (126635, 126651);
    (127232, 127244); (130032, 130041); (131072, 173791); (173824, 177976);
    (177984, 178205); (178208, 183969); (183984, 191456); (194560, 195101);
    (196608, 201546) ]%N.

(** The first code point of every run of the ten decimal digits of a
    script, in increasing order (Unicode 14.0). *)
Definition decimal_starts : list N :=
  [ 48; 1632; 1776; 1984; 2406; 2534; 2662; 2790; 2918; 3046;
    3174; 3302; 3430; 3558; 3664; 3792; 3872; 4160; 4240; 6112;
    6160; 6470; 6608; 6784; 6800; 6992; 7088; 7232; 7248; 42528;
    43216; 43264; 43472; 43504; 43600; 44016; 65296; 66720; 68912; 69734;
    69872; 69942; 70096; 70384; 70736; 70864; 71248; 71360; 71472; 71904;
    72016; 72784; 73040; 73120; 92768; 92864; 93008; 120782; 120792; 120802;
    120812; 120822; 123200; 123632; 125264; 130032 ]%N.

Definition in_ranges (ranges : list (N * N)) (c : char) : bool :=
  existsb (fun r => in_range (fst r) (snd r) c) ranges.

(** [str.isalnum] on one code point. *)
Definition isalnum (c : char) : bool := in_ranges alnum_ranges c.

(** The value of a decimal digit of any script, which is what [int]
    reads; [None] for every other code point. *)
Definition decimal_value (c : char) : option N :=
  match List.find (fun s => in_range s (s + 9)%N c) decimal_starts with
  | Some s => Some (c - s)%N
  | None => None
  end.

(** [str.isdecimal] on one code point, which is what [\d] tests on a
    [str] pattern. *)
Definition isdecimal (c : char) : bool :=
  match decimal_value c with
  | Some _ => true
  | None => false
  end.

(** What [\w] tests on a [str] pattern: a letter or a digit of any
    script, or the underscore. *)
Definition isword (c : char) : bool := isalnum c || (c =? 95)%N.

(** [str.lower], on the ASCII letters. *)
Definition lower_char (c : char) : char :=
  if (in_range 65 90 c)%N then (c + 32)%N else c.
Definition lower (s : str) : str := List.map lower_char s.

Fixpoint eqb (a b : str) : bool :=
  match a, b with
  | [], [] => true
  | x :: a', y :: b' => (x =? y)%N && eqb a' b'
  | _, _ => false
  end.

(** [s.startswith(p)] *)
Fixpoint startswith (p s : str) : bool :=
  match p, s with
  | [], _ => true
  | x :: p', y :: s' => (x =? y)%N && startswith p' s'
  | _ :: _, [] => false
  end.

Fixpoint dropwhile (f : char -> bool) (s : str) : str :=
  match s with
  | [] => []
  | c :: s' => if f c then dropwhile f s' else s
  end.

(** [s.lstrip()], [s.rstrip()], [s.strip()] *)
Definition lstrip (s : str) : str := dropwhile isspace s.
Definition rstrip (s : str) : str := rev (dropwhile isspace (rev s)).
Definition strip (s : str) : str := rstrip (lstrip s).

(** [s.split(sep)] for a non-empty separator: the occurrences of [sep]
    are found from left to right and do not overlap.  [skip] counts the
    characters of an occurrence still to be passed over. *)
Fixpoint split_aux (sep : str) (skip : nat) (acc : str) (s : str) : list str :=
  match s with
  | [] => [rev acc]
  | c :: s' =>
      match skip with
      | S k => split_aux sep k acc s'
      | O =>
          if startswith sep s
          then rev acc :: split_aux sep (length sep - 1) [] s'
          else split_aux sep 0 (c :: acc) s'
      end
  end.
Definition split (sep s : str) : list str := split_aux sep 0 [] s.

(** [s.split()]: the maximal runs of non-whitespace characters. *)
Fixpoint split_ws_aux (acc : str) (s : str) : list str :=
  match s with
  | [] => match acc with [] => [] | _ => [rev acc] end
  | c :: s' =>
      if isspace c
      then match acc with
           | [] => split_ws_aux [] s'
           | _ => rev acc :: split_ws_aux [] s'
           end
      else split_ws_aux (c :: acc) s'
  end.
Definition split_ws (s : str) : list str := split_ws_aux [] s.

(** [s.count(sub)] for a non-empty [sub]: occurrences that do not
    overlap, from left to right. *)
Fixpoint count_aux (sub : str) (skip : nat) (s : str) : nat :=
  match s with
  | [] => 0
  | _ :: s' =>
      match skip with
      | S k => count_aux sub k s'
      | O =>
          if startswith sub s
          then S (count_aux sub (length sub - 1) s')
          else count_aux sub 0 s'
      end
  end.
Definition count (sub s : str) : nat :=
  match sub with
  | [] => S (length s)
  | _ => count_aux sub 0 s
  end.

(** [s.replace(old, new)] for a non-empty [old]. *)
Fixpoint replace_aux (old new : str) (skip : nat) (s : str) : str :=
  match s with
  | [] => []
  | c :: s' =>
      match skip with
      | S k => replace_aux old new k s'
      | O =>
          if startswith old s
          then new ++ replace_aux old new (length old - 1) s'
          else c :: replace_aux old new 0 s'
      end
  end.
Definition replace (old new s : str) : str := replace_aux old new 0 s.

(** [sep.join(parts)] *)
Fixpoint join (sep : str) (parts : list str) : str :=
  match parts with
  | [] => []
  | [p] => p
  | p :: ps => p ++ sep ++ join sep ps
  end.

(** [s[a:b]] for [0 <= a <= b]. *)
Definition slice (a b : nat) (s : str) : str := firstn (b - a) (skipn a s).

(** Truthiness of an [Optional[str]]: [None] and the empty string are
    both false. *)
Definition truthy (o : option str) : bool :=
  match o with
  | Some (_ :: _) => true
  | _ => false
  end.

End Py.

(* ================================================================== *)
(** * Regular expressions: the fragment of Python's [re] in use *)
(* ================================================================== *)

Module Re.
Import Py.

(** ** Patterns *)

Inductive category := CatSpace | CatDigit | CatWord.

Inductive set_item :=
| SLit (c : char)
| SRange (lo hi : char)
| SCat (negated : bool) (k : category).

(** The parsed form of a pattern.  [Group None r] is [(?:r)],
    [Group (Some n) r] is the n-th capturing group; [Repeat lo hi r] is
    the greedy repetition, [hi = None] standing for no upper bound. *)
Inductive regex :=
| Lit (c : char)
| AnyChar
| InSet (negated : bool) (items : list set_item)
| Bol
| Eol
| Empty
| Seq (r1 r2 : regex)
| Alt (r1 r2 : regex)
| Repeat (lo : nat) (hi : option nat) (r : regex)
| Group (n : option nat) (r : regex).

(** What compiling a pattern can answer besides a pattern: [ReError] is
    the exception [re.error] that Python raises; [Unsupported] marks
    syntax of [re] that this development does not cover. *)
Inductive perr :=
| ReError (msg : string)
| Unsupported (what : string).

Inductive res (A : Type) :=
| Ok (a : A)
| Err (e : perr).
Arguments Ok {A} a.
Arguments Err {A} e.

Definition ch (s : string) : char :=
  match lit s with
  | c :: _ => c
  | [] => 0%N
  end.

Definition is_ch (s : string) (c : char) : bool := (c =? ch s)%N.

Fixpoint mem_char (c : char) (l : str) : bool :=
  match l with
  | [] => false
  | x :: l' => (c =? x)%N || mem_char c l'
  end.

Definition SPECIAL_CHARS : str := lit ".\[{()*+?^$|".
Definition REPEAT_CHARS : str := lit "*+?{".
Definition ASCIILETTERS (c : char) : bool :=
  (in_range 65 90 c || in_range 97 122 c)%N.

(** The escapes shared by patterns and character sets
    ([ESCAPES] of the parser). *)
Definition simple_escape (c : char) : option char :=
  if is_ch "a" c then Some 7%N
  else if is_ch "f" c then Some 12%N
  else if is_ch "n" c then Some 10%N
  else if is_ch "r" c then Some 13%N
  else if is_ch "t" c then Some 9%N
  else if is_ch "v" c then Some 11%N
  else if is_ch "\" c then Some 92%N
  else None.

Definition category_escape (c : char) : option set_item :=
  if is_ch "d" c then Some (SCat false CatDigit)
  else if is_ch "D" c then Some (SCat true CatDigit)
  else if is_ch "s" c then Some (SCat false CatSpace)
  else if is_ch "S" c then Some (SCat true CatSpace)
  else if is_ch "w" c then Some (SCat false CatWord)
  else if is_ch "W" c then Some (SCat true CatWord)
  else None.

(** [\c] inside a character set. *)
Definition class_escape (c : char) : res set_item :=
  match simple_escape c with
  | Some x => Ok (SLit x)
  | None =>
      if is_ch "b" c then Ok (SLit 8%N)
      else match category_escape c with
           | Some it => Ok it
           | None =>
               if isdigit c || is_ch "x" c || is_ch "u" c || is_ch "U" c
                  || is_ch "N" c
               then Err (Unsupported "numeric or named escape")
               else if ASCIILETTERS c then Err (ReError "bad escape")
               else Ok (SLit c)
           end
  end.

(** [\c] outside a character set. *)
Definition escape (c : char) : res regex :=
  match category_escape c with
  | Some it => Ok (InSet false [it])
  | None =>
      if is_ch "A" c || is_ch "b" c || is_ch "B" c || is_ch "Z" c
      then Err (Unsupported "position escape")
      else match simple_escape c with
           | Some x => Ok (Lit x)
           | None =>
               if isdigit c || is_ch "x" c || is_ch "u" c || is_ch "U" c
                  || is_ch "N" c
               then Err (Unsupported "numeric or named escape")
               else if ASCIILETTERS c then Err (ReError "bad escape")
               else Ok (Lit c)
           end
  end.

(** One member of a set: a character or an escape. *)
Definition set_atom (s : str) : res (set_item * str) :=
  match s with
  | [] => Err (ReError "unterminated character set")
  | c :: s1 =>
      if is_ch "\" c
      then match s1 with
           | [] => Err (ReError "bad escape (end of pattern)")
           | e :: s2 =>
               match class_escape e with
               | Ok it => Ok (it, s2)
               | Err x => Err x
               end
           end
      else Ok (SLit c, s1)
  end.

(** The members of a set up to the closing bracket; [acc] holds the
    members read so far, last first.  A closing bracket that comes first
    is a member. *)
Fixpoint parse_set_items (fuel : nat) (acc : list set_item) (s : str)
  : res (list set_item * str) :=
  match fuel with
  | O => Err (Unsupported "pattern too long")
  | S fuel' =>
      match s with
      | [] => Err (ReError "unterminated character set")
      | c :: s1 =>
          if is_ch "]" c && negb (match acc with [] => true | _ => false end)
          then Ok (rev acc, s1)
          else
            match set_atom s with
            | Err x => Err x
            | Ok (code1, s2) =>
                match s2 with
                | d :: s3 =>
                    if is_ch "-" d
                    then match s3 with
                         | [] => Err (ReError "unterminated character set")
                         | t :: s4 =>
                             if is_ch "]" t
                             then Ok (rev (SLit (ch "-") :: code1 :: acc), s4)
                             else
                               match set_atom s3 with
                               | Err x => Err x
                               | Ok (code2, s5) =>
                                   match code1, code2 with
                                   | SLit lo, SLit hi =>
                                       if (hi <? lo)%N
                                       then Err (ReError "bad character range")
                                       else parse_set_items fuel'
                                              (SRange lo hi :: acc) s5
                                   | _, _ => Err (ReError "bad character range")
                                   end
                               end
                         end
                    else parse_set_items fuel' (code1 :: acc) s2
                | [] => parse_set_items fuel' (code1 :: acc) s2
                end
            end
      end
  end.

(** A set, the opening bracket already read. *)
Definition parse_set (s : str) : res (regex * str) :=
  let '(neg, s1) :=
    match s with
    | c :: s' => if is_ch "^" c then (true, s') else (false, s)
    | [] => (false, s)
    end in
  match parse_set_items (S (length s1)) [] s1 with
  | Ok (items, rest) => Ok (InSet neg items, rest)
  | Err x => Err x
  end.

Fixpoint take_digits (s : str) : str * str :=
  match s with
  | c :: s' =>
      if isdigit c
      then let '(d, r) := take_digits s' in (c :: d, r)
      else ([], s)
  | [] => ([], [])
  end.

Definition int_of_digits (d : str) : nat :=
  fold_left (fun a c => 10 * a + N.to_nat (c - 48)%N) d 0.

(** The bounds of a repetition, the repetition character [c] already
    read.  [None] means that the brace is an ordinary character. *)
Definition parse_bounds (c : char) (s : str)
  : res (option (nat * option nat * str)) :=
  if is_ch "?" c then Ok (Some (0, Some 1, s))
  else if is_ch "*" c then Ok (Some (0, None, s))
  else if is_ch "+" c then Ok (Some (1, None, s))
  else
    match s with
    | c1 :: _ =>
        if is_ch "}" c1 then Ok None
        else
          let '(lo, s1) := take_digits s in
          let '(hi, s2) :=
            match s1 with
            | c2 :: s1' =>
                if is_ch "," c2 then take_digits s1' else (lo, s1)
            | [] => (lo, s1)
            end in
          match s2 with
          | c3 :: s3 =>
              if is_ch "}" c3
              then
                let mn := match lo with [] => 0 | _ => int_of_digits lo end in
                match hi with
                | [] => Ok (Some (mn, None, s3))
                | _ =>
                    let mx := int_of_digits hi in
                    if mx <? mn
                    then Err (ReError "min repeat greater than max repeat")
                    else Ok (Some (mn, Some mx, s3))
                end
              else Ok None
          | [] => Ok None
          end
    | [] => Ok None
    end.

Fixpoint seq_of (items : list regex) : regex :=
  match items with
  | [] => Empty
  | [r] => r
  | r :: rs => Seq r (seq_of rs)
  end.

(** The parser proper.  [parse_alt] reads alternatives separated by
    [|] up to a closing parenthesis or the end of the pattern
    ([_parse_sub] of the parser); [parse_seq] reads the items of one
    alternative ([_parse]); [acc] holds the items read so far, last
    first, and [gc] is the number of the next capturing group. *)
Fixpoint parse_alt (fuel : nat) (s : str) (gc : nat) {struct fuel}
  : res (regex * str * nat) :=
  match fuel with
  | O => Err (Unsupported "pattern too long")
  | S fuel' =>
      match parse_seq fuel' [] s gc with
      | Err x => Err x
      | Ok (items, s1, gc1) =>
          match s1 with
          | c :: s2 =>
              if is_ch "|" c
              then match parse_alt fuel' s2 gc1 with
                   | Err x => Err x
                   | Ok (r2, s3, gc2) => Ok (Alt (seq_of (rev items)) r2, s3, gc2)
                   end
              else Ok (seq_of (rev items), s1, gc1)
          | [] => Ok (seq_of (rev items), s1, gc1)
          end
      end
  end
with parse_seq (fuel : nat) (acc : list regex) (s : str) (gc : nat)
  {struct fuel} : res (list regex * str * nat) :=
  match fuel with
  | O => Err (Unsupported "pattern too long")
  | S fuel' =>
      match s with
      | [] => Ok (acc, s, gc)
      | c :: s1 =>
          if is_ch "|" c || is_ch ")" c then Ok (acc, s, gc)
          else if is_ch "\" c then
            match s1 with
            | [] => Err (ReError "bad escape (end of pattern)")
            | e :: s2 =>
                match escape e with
                | Ok r => parse_seq fuel' (r :: acc) s2 gc
                | Err x => Err x
                end
            end
          else if negb (mem_char c SPECIAL_CHARS)
          then parse_seq fuel' (Lit c :: acc) s1 gc
          else if is_ch "[" c then
            match parse_set s1 with
            | Ok (r, s2) => parse_seq fuel' (r :: acc) s2 gc
            | Err x => Err x
            end
          else if mem_char c REPEAT_CHARS then
            match parse_bounds c s1 with
            | Err x => Err x
            | Ok None => parse_seq fuel' (Lit c :: acc) s1 gc
            | Ok (Some (lo, hi, s2)) =>
                match acc with
                | [] => Err (ReError "nothing to repeat")
                | Bol :: _ | Eol :: _ => Err (ReError "nothing to repeat")
                | Repeat _ _ _ :: _ => Err (ReError "multiple repeat")
                | item :: acc' =>
                    match s2 with
                    | q :: _ =>
                        if is_ch "?" q || is_ch "+" q
                        then Err (Unsupported "lazy or possessive repeat")
                        else parse_seq fuel' (Repeat lo hi item :: acc') s2 gc
                    | [] => parse_seq fuel' (Repeat lo hi item :: acc') s2 gc
                    end
                end
            end
          else if is_ch "." c then parse_seq fuel' (AnyChar :: acc) s1 gc
          else if is_ch "(" c then
            match s1 with
            | q :: s2 =>
                if is_ch "?" q
                then match s2 with
                     | k :: s3 =>
                         if is_ch ":" k
                         then match parse_alt fuel' s3 gc with
                              | Err x => Err x
                              | Ok (r, s4, gc1) =>
                                  match s4 with
                                  | p :: s5 =>
                                      if is_ch ")" p
                                      then parse_seq fuel' (Group None r :: acc) s5 gc1
                                      else Err (ReError "missing ), unterminated subpattern")
                                  | [] => Err (ReError "missing ), unterminated subpattern")
                                  end
                              end
                         else Err (Unsupported "group extension")
                     | [] => Err (ReError "unexpected end of pattern")
                     end
                else match parse_alt fuel' s1 (S gc) with
                     | Err x => Err x
                     | Ok (r, s4, gc1) =>
                         match s4 with
                         | p :: s5 =>
                             if is_ch ")" p
                             then parse_seq fuel' (Group (Some gc) r :: acc) s5 gc1
                             else Err (ReError "missing ), unterminated subpattern")
                         | [] => Err (ReError "missing ), unterminated subpattern")
                         end
                     end
            | [] => Err (ReError "missing ), unterminated subpattern")
            end
          else if is_ch "^" c then parse_seq fuel' (Bol :: acc) s1 gc
          else if is_ch "$" c then parse_seq fuel' (Eol :: acc) s1 gc
          else Err (Unsupported "pattern character")
      end
  end.

(** [re.compile(pattern)]: what is left after the last alternative can
    only be a closing parenthesis that nothing opened. *)
Definition compile (pattern : str) : res regex :=
  match parse_alt (2 * length pattern + 2) pattern 1 with
  | Err x => Err x
  | Ok (r, [], _) => Ok r
  | Ok (_, _ :: _, _) => Err (ReError "unbalanced parenthesis")
  end.

(** ** Matching *)

(** The flags in use: only [re.MULTILINE] occurs in the sources. *)
Record flags := { multiline : bool }.
Definition NOFLAGS : flags := {| multiline := false |}.
Definition MULTILINE : flags := {| multiline := true |}.

(** A point of the subject string during a match: the number of
    characters already passed, the last of them, the characters still to
    come, and the spans of the capturing groups closed so far. *)
Record mstate := {
  pos : nat;
  prev : option char;
  rest : str;
  caps : list (nat * (nat * nat))
}.

Definition start_state (s : str) : mstate :=
  {| pos := 0; prev := None; rest := s; caps := [] |}.

Definition advance (c : char) (s' : str) (st : mstate) : mstate :=
  {| pos := S (pos st); prev := Some c; rest := s'; caps := caps st |}.

Definition set_cap (n : nat) (a b : nat) (st : mstate) : mstate :=
  {| pos := pos st; prev := prev st; rest := rest st;
     caps := (n, (a, b)) :: caps st |}.

Definition clear_caps (st : mstate) : mstate :=
  {| pos := pos st; prev := prev st; rest := rest st; caps := [] |}.

Definition in_category (k : category) (c : char) : bool :=
  match k with
  | CatSpace => isspace c
  | CatDigit => isdecimal c
  | CatWord => isword c
  end.

Definition item_mem (c : char) (it : set_item) : bool :=
  match it with
  | SLit x => (c =? x)%N
  | SRange lo hi => in_range lo hi c
  | SCat neg k => xorb neg (in_category k c)
  end.

Definition set_mem (neg : bool) (items : list set_item) (c : char) : bool :=
  xorb neg (existsb (item_mem c) items).

(** One character that satisfies [f]. *)
Definition step (f : char -> bool) (st : mstate)
  (k : mstate -> option mstate) : option mstate :=
  match rest st with
  | c :: s' => if f c then k (advance c s' st) else None
  | [] => None
  end.

Definition at_bol (fl : flags) (st : mstate) : bool :=
  match prev st with
  | None => true
  | Some c => multiline fl && (c =? NL)%N
  end.

Definition at_eol (fl : flags) (st : mstate) : bool :=
  match rest st with
  | [] => true
  | c :: s' =>
      (c =? NL)%N && (multiline fl || match s' with [] => true | _ => false end)
  end.

Definition below (cnt : nat) (hi : option nat) : bool :=
  match hi with
  | None => true
  | Some h => cnt <? h
  end.

Definition same_pos (last : option nat) (st : mstate) : bool :=
  match last with
  | Some p => p =? pos st
  | None => false
  end.

Definition orelse (a : option mstate) (b : unit -> option mstate)
  : option mstate :=
  match a with
  | Some x => Some x
  | None => b tt
  end.

(** The rounds of a greedy repetition whose body is matched by [body]:
    [cnt] counts the completed rounds and [last] is where the previous
    round started once the lower bound is reached; a round that matched
    the empty string is not followed by another one.  [k] is what remains
    to be matched after the repetition. *)
Fixpoint rep_loop (body : mstate -> (mstate -> option mstate) -> option mstate)
  (lo : nat) (hi : option nat) (k : mstate -> option mstate)
  (fuel cnt : nat) (last : option nat) (st : mstate) {struct fuel}
  : option mstate :=
  match fuel with
  | O => None
  | S fuel' =>
      if cnt <? lo
      then body st (fun st' => rep_loop body lo hi k fuel' (S cnt) last st')
      else
        orelse
          (if below cnt hi && negb (same_pos last st)
           then body st
                  (fun st' =>
                     rep_loop body lo hi k fuel' (S cnt) (Some (pos st)) st')
           else None)
          (fun _ => k st)
  end.

(** The backtracking matcher, in continuation-passing style: [k] is
    what remains to be matched after [r].  Alternatives are tried in
    order and a repetition is greedy. *)
Fixpoint mt (fl : flags) (r : regex) (st : mstate)
  (k : mstate -> option mstate) {struct r} : option mstate :=
  match r with
  | Lit c => step (fun x => (x =? c)%N) st k
  | AnyChar => step (fun x => negb (x =? NL)%N) st k
  | InSet neg items => step (set_mem neg items) st k
  | Bol => if at_bol fl st then k st else None
  | Eol => if at_eol fl st then k st else None
  | Empty => k st
  | Seq r1 r2 => mt fl r1 st (fun st' => mt fl r2 st' k)
  | Alt r1 r2 => orelse (mt fl r1 st k) (fun _ => mt fl r2 st k)
  | Group None r1 => mt fl r1 st k
  | Group (Some n) r1 =>
      mt fl r1 st (fun st' => k (set_cap n (pos st) (pos st') st'))
  | Repeat lo hi r1 =>
      rep_loop (mt fl r1) lo hi k (lo + length (rest st) + 2) 0 None st
  end.

(** A match object: where the match starts and ends, and its groups. *)
Record match_obj := {
  m_start : nat;
  m_end : nat;
  m_groups : list (nat * (nat * nat))
}.

(** A match that starts exactly at [st].  With [must_advance], an empty
    match is not accepted; this is how a scan resumes after an empty
    match. *)
Definition match_at (fl : flags) (r : regex) (must_advance : bool)
  (st : mstate) : option match_obj :=
  match mt fl r (clear_caps st)
          (fun st' => if must_advance && (pos st' =? pos st) then None
                      else Some st') with
  | Some st' =>
      Some {| m_start := pos st; m_end := pos st'; m_groups := caps st' |}
  | None => None
  end.

(** The leftmost match at or after [st]; [must_advance] only concerns the
    first position tried. *)
Fixpoint search_from (fl : flags) (r : regex) (must_advance : bool)
  (p : nat) (pv : option char) (s : str) {struct s} : option match_obj :=
  match match_at fl r must_advance
          {| pos := p; prev := pv; rest := s; caps := [] |} with
  | Some m => Some m
  | None =>
      match s with
      | [] => None
      | c :: s' => search_from fl r false (S p) (Some c) s'
      end
  end.

(** [re.search(pattern, s, flags)] on a compiled pattern. *)
Definition search (fl : flags) (r : regex) (s : str) : option match_obj :=
  search_from fl r false 0 None s.

Definition last_char (pv : option char) (s : str) : option char :=
  match rev s with
  | c :: _ => Some c
  | [] => pv
  end.

(** The successive matches of a scan over the subject: each search
    resumes where the previous match ended, and after an empty match the
    next one must not be empty at the same place. *)
Fixpoint scan (fuel : nat) (fl : flags) (r : regex) (must_advance : bool)
  (p : nat) (pv : option char) (s : str) : list match_obj :=
  match fuel with
  | O => []
  | S fuel' =>
      match search_from fl r must_advance p pv s with
      | None => []
      | Some m =>
          let n := m_end m - p in
          m :: scan fuel' fl r (m_end m =? m_start m) (m_end m)
                 (last_char pv (firstn n s)) (skipn n s)
      end
  end.

(** [re.finditer(pattern, s, flags)] on a compiled pattern. *)
Definition finditer (fl : flags) (r : regex) (s : str) : list match_obj :=
  scan (2 * length s + 2) fl r false 0 None s.

(** [m.group(n)], the empty string standing for a group that did not
    take part in the match. *)
Fixpoint lookup_cap (n : nat) (cs : list (nat * (nat * nat)))
  : option (nat * nat) :=
  match cs with
  | [] => None
  | (i, sp) :: cs' => if i =? n then Some sp else lookup_cap n cs'
  end.

Definition group (s : str) (m : match_obj) (n : nat) : str :=
  match n with
  | O => slice (m_start m) (m_end m) s
  | _ => match lookup_cap n (m_groups m) with
         | Some (a, b) => slice a b s
         | None => []
         end
  end.

(** A replacement template: ordinary characters, [\1] to [\9] for a
    group, and the escapes of [simple_escape]. *)
Inductive titem :=
| TChar (c : char)
| TGroup (n : nat).

Fixpoint parse_template (fuel : nat) (t : str) : res (list titem) :=
  match fuel with
  | O => Err (Unsupported "template too long")
  | S fuel' =>
      match t with
      | [] => Ok []
      | c :: t1 =>
          if is_ch "\" c
          then match t1 with
               | [] => Err (ReError "bad escape (end of pattern)")
               | e :: t2 =>
                   if (in_range 49 57 e)%N
                   then match t2 with
                        | d :: _ =>
                            if isdigit d
                            then Err (Unsupported "two-digit group reference")
                            else match parse_template fuel' t2 with
                                 | Ok l => Ok (TGroup (N.to_nat (e - 48)%N) :: l)
                                 | Err x => Err x
                                 end
                        | [] => Ok [TGroup (N.to_nat (e - 48)%N)]
                        end
                   else match simple_escape e with
                        | Some x =>
                            match parse_template fuel' t2 with
                            | Ok l => Ok (TChar x :: l)
                            | Err y => Err y
                            end
                        | None =>
                            if ASCIILETTERS e || isdigit e
                            then Err (Unsupported "template escape")
                            else match parse_template fuel' t2 with
                                 | Ok l => Ok (TChar c :: TChar e :: l)
                                 | Err y => Err y
                                 end
                        end
               end
          else match parse_template fuel' t1 with
               | Ok l => Ok (TChar c :: l)
               | Err y => Err y
               end
      end
  end.

Definition expand (s : str) (m : match_obj) (t : list titem) : str :=
  flat_map (fun it => match it with
                      | TChar c => [c]
                      | TGroup n => group s m n
                      end) t.

(** The text of [s] between the matches, each match replaced by the
    expanded template; [i] is where the text not yet copied starts. *)
Fixpoint substitute (s : str) (t : list titem) (i : nat)
  (ms : list match_obj) : str :=
  match ms with
  | [] => skipn i s
  | m :: ms' =>
      slice i (m_start m) s ++ expand s m t ++ substitute s t (m_end m) ms'
  end.

(** [re.sub(pattern, repl, s, flags=...)] *)
Definition sub (fl : flags) (pattern repl s : str) : res str :=
  match compile pattern with
  | Err x => Err x
  | Ok r =>
      match parse_template (S (length repl)) repl with
      | Err x => Err x
      | Ok t => Ok (substitute s t 0 (finditer fl r s))
      end
  end.

(** [re.search(pattern, s, flags)] and [re.finditer(pattern, s, flags)]
    on pattern strings. *)
Definition search_str (fl : flags) (pattern s : str) : res (option match_obj) :=
  match compile pattern with
  | Err x => Err x
  | Ok r => Ok (search fl r s)
  end.

Definition finditer_str (fl : flags) (pattern s : str) : res (list match_obj) :=
  match compile pattern with
  | Err x => Err x
  | Ok r => Ok (finditer fl r s)
  end.

End Re.

Notation "'try' x '<-' e 'in' k" :=
  (match e with
   | Re.Ok x => k
   | Re.Err err => Re.Err err
   end)
  (at level 10, x name, e at level 100, k at level 200, only parsing).

(* ================================================================== *)
(** * utils/format_utils.py *)
(* ================================================================== *)

Module FormatUtils.
Import Py Re.

(** [normalize_whitespace(text)] *)
Definition normalize_whitespace (text : str) : res str :=
  match text with
  | [] => Ok []
  | _ =>
      try text1 <- sub NOFLAGS (lit "[ \t]+") [SP] text in
      try text2 <- sub NOFLAGS (lit "\n\s*\n\s*\n+") [NL; NL] text1 in
      Ok (strip text2)
  end.

(** The pattern [r'[^\w\s가-힣]'] of [extract_title_from_content]; the
    two Hangul end points are U+AC00 and U+D7A3. *)
Definition title_junk_pattern : str :=
  lit "[^\w\s" ++ [44032%N] ++ lit "-" ++ [55203%N] ++ lit "]".

(** The loop of [extract_title_from_content] over the lines. *)
Fixpoint first_title (max_length : nat) (lines : list str) : res (option str) :=
  match lines with
  | [] => Ok None
  | line :: lines' =>
      let line := strip line in
      match line with
      | _ :: _ =>
          if length line <=? max_length
          then
            try line1 <- sub NOFLAGS (lit "^#+\s*") [] line in
            try line2 <- sub NOFLAGS title_junk_pattern [] line1 in
            match line2 with
            | _ :: _ => Ok (Some line2)
            | [] => first_title max_length lines'
            end
          else first_title max_length lines'
      | [] => first_title max_length lines'
      end
  end.

(** [extract_title_from_content(content, max_length=100)] *)
Definition extract_title_from_content (content : str) : res (option str) :=
  match content with
  | [] => Ok None
  | _ => first_title 100 (split [NL] content)
  end.

(** [len(re.findall(pattern, text))] for a pattern without groups. *)
Definition count_matches (pattern text : str) : res nat :=
  try ms <- finditer_str NOFLAGS pattern text in
  Ok (length ms).

Definition hangul_class : str := lit "[" ++ [44032%N] ++ lit "-" ++ [55203%N] ++ lit "]".
Definition hangul_latin_class : str :=
  lit "[" ++ [44032%N] ++ lit "-" ++ [55203%N] ++ lit "a-zA-Z]".
Definition latin_hangul_class : str :=
  lit "[a-zA-Z" ++ [44032%N] ++ lit "-" ++ [55203%N] ++ lit "]".

(** [is_korean_text(text, threshold=0.3)].  The quotient of the two
    counts is compared with 0.3 as a rational number. *)
Definition is_korean_text (text : str) : res bool :=
  match text with
  | [] => Ok false
  | _ =>
      try korean_chars <- count_matches hangul_class text in
      try total_chars <- count_matches hangul_latin_class text in
      match total_chars with
      | O => Ok false
      | _ => Ok (3 * total_chars <=? 10 * korean_chars)
      end
  end.

End FormatUtils.

(* ================================================================== *)
(** * core/stream_info.py *)
(* ================================================================== *)

Module Stream.
Import Py.

Record StreamInfo := {
  mimetype : option str;
  extension : option str;
  charset : option str;
  filename : option str;
  local_path : option str;
  url : option str
}.

(** [Path(p).name]: the last component of a POSIX path. *)
Definition path_name (p : str) : str :=
  let parts :=
    List.filter (fun c => negb (Py.eqb c [] || Py.eqb c (lit ".")))
      (split (lit "/") p) in
  List.last parts [].

Fixpoint rfind_dot (s : str) (i : nat) (found : option nat) : option nat :=
  match s with
  | [] => found
  | c :: s' => rfind_dot s' (S i) (if (c =? 46)%N then Some i else found)
  end.

(** [Path(p).suffix]: from the last dot of the name, unless that dot is
    the first or the last character of the name. *)
Definition path_suffix (p : str) : str :=
  let name := path_name p in
  match rfind_dot name 0 None with
  | Some i =>
      if (0 <? i) && (i <? length name - 1) then skipn i name else []
  | None => []
  end.

(** [__post_init__] *)
Definition __post_init__ (si : StreamInfo) : StreamInfo :=
  let ext1 :=
    match extension si with
    | Some ((_ :: _) as e) =>
        if startswith (lit ".") e then Some e else Some (lit "." ++ e)
    | other => other
    end in
  let ext2 :=
    match filename si with
    | Some ((_ :: _) as f) =>
        if truthy ext1 then ext1 else Some (lower (path_suffix f))
    | _ => ext1
    end in
  {| mimetype := mimetype si; extension := ext2; charset := charset si;
     filename := filename si; local_path := local_path si; url := url si |}.

(** [StreamInfo(mimetype=..., extension=..., ...)]: the fields that a
    call does not give are [None]. *)
Definition make (mt ext cs fn lp u : option str) : StreamInfo :=
  __post_init__ {| mimetype := mt; extension := ext; charset := cs;
               filename := fn; local_path := lp; url := u |}.

Definition empty_info : StreamInfo := make None None None None None None.

(** [Optional[str]] values compared with [==]. *)
Definition opt_eqb (a b : option str) : bool :=
  match a, b with
  | None, None => true
  | Some x, Some y => Py.eqb x y
  | _, _ => false
  end.

(** [__eq__], on two [StreamInfo] values. *)
Definition __eq__ (self other : StreamInfo) : bool :=
  opt_eqb (mimetype self) (mimetype other)
  && opt_eqb (extension self) (extension other)
  && opt_eqb (filename self) (filename other).

(** [__str__] *)
Definition __str__ (self : StreamInfo) : str :=
  let part (label : string) (o : option str) : list str :=
    match o with
    | Some ((_ :: _) as v) => [lit label ++ v]
    | _ => []
    end in
  lit "StreamInfo("
  ++ join (lit ", ")
       (part "mimetype=" (mimetype self) ++ part "ext=" (extension self)
        ++ part "filename=" (filename self))
  ++ lit ")".

(** [matches_extension(extensions)] *)
Definition matches_extension (self : StreamInfo) (extensions : list str) : bool :=
  match extension self with
  | Some ((_ :: _) as e) =>
      existsb (Py.eqb (lower e)) (List.map lower extensions)
  | _ => false
  end.

(** [matches_mimetype(mimetypes)] *)
Definition matches_mimetype (self : StreamInfo) (mimetypes : list str) : bool :=
  match mimetype self with
  | Some ((_ :: _) as m) => existsb (fun mt => startswith mt m) mimetypes
  | _ => false
  end.

(** [is_empty()] *)
Definition is_empty (self : StreamInfo) : bool :=
  negb (existsb truthy
          [mimetype self; extension self; filename self;
           local_path self; url self]).

End Stream.

(* ================================================================== *)
(** * utils/file_detector.py *)
(* ================================================================== *)

Module Detector.
Import Py Stream.

(** A Python [dict] with string keys: the entries in insertion order.
    Assigning to a key that is present replaces its value in place. *)
Definition dict := list (str * str).

Fixpoint dict_get (k : str) (d : dict) : option str :=
  match d with
  | [] => None
  | (k', v) :: d' => if Py.eqb k k' then Some v else dict_get k d'
  end.

Fixpoint dict_set (k v : str) (d : dict) : dict :=
  match d with
  | [] => [(k, v)]
  | (k', v') :: d' =>
      if Py.eqb k k' then (k', v) :: d' else (k', v') :: dict_set k v d'
  end.

Definition dict_has (k : str) (d : dict) : bool :=
  match dict_get k d with
  | Some _ => true
  | None => false
  end.

Definition entry (e m : string) : str * str := (lit e, lit m).

(** [self.extension_mapping] *)
Definition extension_mapping : dict :=
  [ entry ".pdf" "application/pdf";
    entry ".docx" "application/vnd.openxmlformats-officedocument.wordprocessingml.document";
    entry ".doc" "application/msword";
    entry ".pptx" "application/vnd.openxmlformats-officedocument.presentationml.presentation";
    entry ".ppt" "application/vnd.ms-powerpoint";
    entry ".xlsx" "application/vnd.openxmlformats-officedocument.spreadsheetml.sheet";
    entry ".xls" "application/vnd.ms-excel";
    entry ".jpg" "image/jpeg";
    entry ".jpeg" "image/jpeg";
    entry ".png" "image/png";
    entry ".gif" "image/gif";
    entry ".bmp" "image/bmp";
    entry ".tiff" "image/tiff";
    entry ".webp" "image/webp";
    entry ".mp3" "audio/mpeg";
    entry ".wav" "audio/wav";
    entry ".m4a" "audio/mp4";
    entry ".flac" "audio/flac";
    entry ".ogg" "audio/ogg";
    entry ".html" "text/html";
    entry ".htm" "text/html";
    entry ".xml" "application/xml";
    entry ".json" "application/json";
    entry ".csv" "text/csv";
    entry ".txt" "text/plain";
    entry ".md" "text/markdown";
    entry ".rtf" "application/rtf";
    entry ".epub" "application/epub+zip";
    entry ".zip" "application/zip";
    entry ".tar" "application/x-tar";
    entry ".gz" "application/gzip";
    entry ".7z" "application/x-7z-compressed";
    entry ".rar" "application/x-rar-compressed";
    entry ".msg" "application/vnd.ms-outlook";
    entry ".eml" "message/rfc822";
    entry ".ipynb" "application/x-ipynb+json";
    entry ".hwp" "application/haansofthwp";
    entry ".hwpx" "application/haansofthwp" ].

(** [{v: k for k, v in self.extension_mapping.items()}] *)
Definition mimetype_mapping : dict :=
  fold_left (fun d kv => dict_set (snd kv) (fst kv) d) extension_mapping [].

(** [detect_from_extension(extension)] *)
Definition detect_from_extension (extension : str) : option StreamInfo :=
  let extension :=
    if startswith (lit ".") extension then extension else lit "." ++ extension in
  let extension := lower extension in
  match dict_get extension extension_mapping with
  | Some mimetype => Some (make (Some mimetype) (Some extension) None None None None)
  | None => None
  end.

(** [detect_from_filename(filename)] *)
Definition detect_from_filename (filename : str) : option StreamInfo :=
  let extension := lower (path_suffix filename) in
  match dict_get extension extension_mapping with
  | Some mimetype =>
      Some (make (Some mimetype) (Some extension) None (Some filename) None None)
  | None => None
  end.

(** The loop of [detect_from_mimetype] over the reverse table. *)
Fixpoint partial_match (mimetype : str) (items : dict) : option str :=
  match items with
  | [] => None
  | (mime, ext) :: items' =>
      if startswith (hd [] (split (lit "/") mime)) mimetype
      then Some ext
      else partial_match mimetype items'
  end.

(** [detect_from_mimetype(mimetype)] *)
Definition detect_from_mimetype (mimetype : str) : option StreamInfo :=
  match dict_get mimetype mimetype_mapping with
  | Some ((_ :: _) as extension) =>
      Some (make (Some mimetype) (Some extension) None None None None)
  | _ =>
      match partial_match mimetype mimetype_mapping with
      | Some ext => Some (make (Some mimetype) (Some ext) None None None None)
      | None => Some (make (Some mimetype) None None None None None)
      end
  end.

End Detector.

(* ================================================================== *)
(** * Exceptions and results of calls *)
(* ================================================================== *)

Module Exn.

(** The exceptions that the modelled code raises or lets through. *)
Inductive exn :=
| ReErrorExn (msg : string)
| ValueError (msg : string)
| UnicodeDecodeError
| UnicodeEncodeError
| UnicodeError
| LookupError
| FileConversionException (cause : exn)
| MissingDependencyException
| UnsupportedFormatException (msg : Py.str).

(** The result of a call: a value, an exception, or a construct that the
    development does not cover. *)
Inductive outcome (A : Type) :=
| Return (a : A)
| Raise (e : exn)
| Gap (what : string).
Arguments Return {A} a.
Arguments Raise {A} e.
Arguments Gap {A} what.

Definition of_res {A : Type} (r : Re.res A) : outcome A :=
  match r with
  | Re.Ok a => Return a
  | Re.Err (Re.ReError msg) => Raise (ReErrorExn msg)
  | Re.Err (Re.Unsupported what) => Gap what
  end.

End Exn.

Notation "'do' x '<-' e 'in' k" :=
  (match e with
   | Exn.Return x => k
   | Exn.Raise err => Exn.Raise err
   | Exn.Gap what => Exn.Gap what
   end)
  (at level 10, x name, e at level 100, k at level 200, only parsing).

(* ================================================================== *)
(** * core/base_converter.py

    The sources hold this module in the enhanced tree; the converters of
    the other tree import a module of the same name and use the same
    helpers. *)
(* ================================================================== *)

Module Base.
Import Py Re Exn Stream.

(** A metadata value: text, an integer, or a time stamp. *)
Inductive mvalue :=
| MStr (s : str)
| MInt (z : Z)
| MTime (q : Q).

Definition metadata := list (string * mvalue).

(** [dict.update] on one key. *)
Fixpoint md_set (k : string) (v : mvalue) (d : metadata) : metadata :=
  match d with
  | [] => [(k, v)]
  | (k', v') :: d' =>
      if String.eqb k k' then (k', v) :: d' else (k', v') :: md_set k v d'
  end.

Record DocumentConverterResult := {
  markdown : str;
  title : option str;
  result_metadata : option metadata
}.

(** [korean_punctuation], in the order of the dictionary. *)
Definition korean_punctuation : list (char * str) :=
  [ (8228%N, lit "."); (65292%N, lit ","); (65306%N, lit ":");
    (65307%N, lit ";"); (65311%N, lit "?"); (65281%N, lit "!");
    (65288%N, lit "("); (65289%N, lit ")"); (12300%N, [34%N]);
    (12301%N, [34%N]); (12302%N, [34%N]); (12303%N, [34%N]) ].

(** [_normalize_korean_text(text)] *)
Definition _normalize_korean_text (korean_support : bool) (text : str) : res str :=
  if negb korean_support || match text with [] => true | _ => false end
  then Ok text
  else
    try text1 <- sub NOFLAGS (lit "(\S)\s+(\S)") (lit "\1 \2") text in
    Ok (fold_left (fun t kv => replace [fst kv] (snd kv) t)
          korean_punctuation text1).

(** What [_extract_metadata] reads of the file system: the size and the
    modification time of an existing path. *)
Definition stat_fn := str -> option (Z * Q).

(** [_extract_metadata(stream, stream_info)] *)
Definition _extract_metadata (stat : stat_fn) (si : StreamInfo) : metadata :=
  let m0 : metadata := [] in
  let m1 := match filename si with
            | Some ((_ :: _) as f) => md_set "filename" (MStr f) m0
            | _ => m0
            end in
  let m2 := match mimetype si with
            | Some ((_ :: _) as m) => md_set "mimetype" (MStr m) m1
            | _ => m1
            end in
  let m3 := match url si with
            | Some ((_ :: _) as u) => md_set "source_url" (MStr u) m2
            | _ => m2
            end in
  match local_path si with
  | Some ((_ :: _) as p) =>
      match stat p with
      | Some (size, mtime) =>
          md_set "modification_time" (MTime mtime)
            (md_set "file_size" (MInt size) m3)
      | None => m3
      end
  | _ => m3
  end.

(** [_format_title(title)] *)
Definition _format_title (korean_support : bool) (title : str) : res str :=
  match title with
  | [] => Ok []
  | _ =>
      let title := strip title in
      try title <- (if korean_support
                    then _normalize_korean_text korean_support title
                    else Ok title) in
      if 100 <? length title
      then Ok (firstn 97 title ++ lit "...")
      else Ok title
  end.

(** [_clean_markdown(markdown)] *)
Definition _clean_markdown (korean_support : bool) (markdown : str) : res str :=
  match markdown with
  | [] => Ok []
  | _ =>
      try markdown <- sub NOFLAGS (lit "\n\s*\n\s*\n") [NL; NL] markdown in
      let markdown := strip markdown in
      if korean_support
      then _normalize_korean_text korean_support markdown
      else Ok markdown
  end.

End Base.

(* ================================================================== *)
(** * utils/stream_utils.py and converters/text_converter.py *)
(* ================================================================== *)

Module Text.
Import Py Re Exn Stream Base.

(** An in-memory binary stream.  Every function below that reads the
    stream restores the position it found, so the position is not part of
    the model; the operations of a closed stream raise [ValueError]. *)
Record bstream := {
  data : list N;
  closed : bool
}.

Definition cont (b : N) : bool := (in_range 128 191 b)%N.

(** The code point of a sequence of two, three or four bytes. *)
Definition cp2 (a b : N) : N := ((a - 192) * 64 + (b - 128))%N.
Definition cp3 (a b c : N) : N :=
  ((a - 224) * 4096 + (b - 128) * 64 + (c - 128))%N.
Definition cp4 (a b c d : N) : N :=
  ((a - 240) * 262144 + (b - 128) * 4096 + (c - 128) * 64 + (d - 128))%N.

(** [bytes.decode('utf-8')]: [None] stands for [UnicodeDecodeError]. *)
Fixpoint decode_utf8 (fuel : nat) (bs : list N) : option str :=
  match fuel with
  | O => None
  | S fuel' =>
      match bs with
      | [] => Some []
      | a :: r1 =>
          if (a <? 128)%N then option_map (cons a) (decode_utf8 fuel' r1)
          else if (in_range 194 223 a)%N then
            match r1 with
            | b :: r2 =>
                if cont b
                then option_map (cons (cp2 a b)) (decode_utf8 fuel' r2)
                else None
            | _ => None
            end
          else if (in_range 224 239 a)%N then
            match r1 with
            | b :: c :: r3 =>
                if cont b && cont c
                   && negb ((a =? 224)%N && (b <? 160)%N)
                   && negb ((a =? 237)%N && (159 <? b)%N)
                then option_map (cons (cp3 a b c)) (decode_utf8 fuel' r3)
                else None
            | _ => None
            end
          else if (in_range 240 244 a)%N then
            match r1 with
            | b :: c :: d :: r4 =>
                if cont b && cont c && cont d
                   && negb ((a =? 240)%N && (b <? 144)%N)
                   && negb ((a =? 244)%N && (143 <? b)%N)
                then option_map (cons (cp4 a b c d)) (decode_utf8 fuel' r4)
                else None
            | _ => None
            end
          else None
      end
  end.

(** How [content.decode(encoding)] ends: with a text, with
    [UnicodeDecodeError], or with another exception, which no [except]
    clause of the sources names: [LookupError] for an encoding that is
    not known, [UnicodeError] from codecs such as [undefined], [punycode]
    and [idna]. *)
Inductive decoded :=
| Text (s : str)
| DecodeError
| CodecError (err : exn).

(** What the conversion takes from its environment: the optional
    [chardet] package ([None] when it is not installed; otherwise its
    guess of the encoding and whether its confidence exceeds 0.8), the
    codecs other than UTF-8 and Latin-1, and the file system. *)
Record env := {
  chardet : option (list N -> option str * bool);
  other_codec : str -> list N -> decoded;
  stat : stat_fn
}.

(** [content.decode(encoding)] *)
Definition decode (e : env) (encoding : str) (content : list N) : decoded :=
  if Py.eqb encoding (lit "utf-8")
  then match decode_utf8 (S (length content)) content with
       | Some s => Text s
       | None => DecodeError
       end
  else if Py.eqb encoding (lit "latin-1") then Text content
  else other_codec e encoding content.

(** The loop of [read_stream_with_encoding] over the fallback encodings.
    The statement after the loop decodes with the errors ignored; it is
    not reached with the default list, which ends in Latin-1. *)
Fixpoint try_fallbacks (e : env) (encs : list str) (content : list N)
  : outcome str :=
  match encs with
  | [] => Gap "utf-8 with errors ignored"
  | enc :: encs' =>
      match decode e enc content with
      | Text s => Return s
      | DecodeError => try_fallbacks e encs' content
      | CodecError err => Raise err
      end
  end.

Definition fallback_encodings : list str :=
  [lit "utf-8"; lit "cp949"; lit "euc-kr"; lit "latin-1"].

(** [read_stream_with_encoding(stream, encoding)] *)
Definition read_stream_with_encoding (e : env) (stream : bstream)
  (encoding : option str) : outcome str :=
  if closed stream then Raise (ValueError "I/O operation on closed file")
  else
    let content := data stream in
    let first :=
      match encoding with
      | Some ((_ :: _) as enc) =>
          match decode e enc content with
          | Text s => Return (Some s)
          | DecodeError => Return None
          | CodecError err => Raise err
          end
      | _ => Return None
      end in
    do r1 <- first in
    match r1 with
    | Some s => Return s
    | None =>
        let second :=
          match chardet e with
          | Some detect =>
              match detect content with
              | (Some ((_ :: _) as enc), true) =>
                  match decode e enc content with
                  | Text s => Return (Some s)
                  | DecodeError => Raise UnicodeDecodeError
                  | CodecError err => Raise err
                  end
              | _ => Return None
              end
          | None => Return None
          end in
        do r2 <- second in
        match r2 with
        | Some s => Return s
        | None => try_fallbacks e fallback_encodings content
        end
    end.

Record TextConverter := { korean_support : bool }.

Definition supported_extensions : list str :=
  [lit ".txt"; lit ".text"; lit ".log"; lit ".md"; lit ".rst"].
Definition supported_mimetypes : list str :=
  [lit "text/plain"; lit "text/markdown"; lit "text/x-rst"].

(** [accepts(file_stream, stream_info)].  The sample of the stream is
    decoded with UTF-8 and then with three more codecs, the last of which
    is Latin-1 and decodes every sample; the two before it, [cp949] and
    [euc-kr], are taken to raise nothing but [UnicodeDecodeError], as
    those of CPython do, so that only an exception of the stream itself
    makes the answer [False]. *)
Definition accepts (self : TextConverter) (stream : bstream)
  (si : StreamInfo) : bool :=
  if matches_extension si supported_extensions then true
  else if matches_mimetype si supported_mimetypes then true
  else negb (closed stream).

(** The patterns of [_looks_like_markdown], as the source has them. *)
Definition markdown_patterns : list str :=
  [ lit "^#+\\s";
    lit "^\\*\\s";
    lit "^\\d+\\.\\s";
    lit "\\*\\*[^*]+\\*\\*";
    lit "\\*[^*]+\\*";
    lit "\\[[^\\]]+\\]\\([^\\)]+\\)";
    lit "```" ].

(** The loop of [_looks_like_markdown]: each pattern is compiled when
    its turn comes. *)
Fixpoint any_pattern (patterns : list str) (text : str) : res bool :=
  match patterns with
  | [] => Ok false
  | p :: ps =>
      try m <- search_str MULTILINE p text in
      match m with
      | Some _ => Ok true
      | None => any_pattern ps text
      end
  end.

(** [_looks_like_markdown(text)] *)
Definition _looks_like_markdown (text : str) : res bool :=
  any_pattern markdown_patterns text.

Definition endswith_any (cs : list char) (line : str) : bool :=
  match rev line with
  | c :: _ => existsb (N.eqb c) cs
  | [] => false
  end.

Definition startswith_any (cs : list char) (line : str) : bool :=
  match line with
  | c :: _ => existsb (N.eqb c) cs
  | [] => false
  end.

(** [_looks_like_heading(line)] *)
Definition _looks_like_heading (line : str) : bool :=
  if (length line <? 100) && negb (endswith_any (lit ".!?:") line) then true
  else if startswith_any (lit "0123456789") line then true
  else false.

(** [_get_heading_level(line)] *)
Definition _get_heading_level (line : str) : nat :=
  if startswith_any (lit "0123456789") line
  then Nat.min (count (lit ".") (hd [] (split_ws line)) + 1) 6
  else 2.

(** [_looks_like_list_item(line)]; the first two bullets are U+2022 and
    U+00B7. *)
Definition _looks_like_list_item (line : str) : res bool :=
  if startswith_any [8226%N; 183%N; ch "-"; ch "*"] line then Ok true
  else
    try r <- compile (lit "^\\d+\\)\\s") in
    match match_at NOFLAGS r false (start_state line) with
    | Some _ => Ok true
    | None => Ok false
    end.

(** The loop of [_plain_text_to_markdown] over the lines. *)
Fixpoint convert_lines (lines : list str) : res (list str) :=
  match lines with
  | [] => Ok []
  | line :: lines' =>
      let line := strip line in
      try this <-
        (match line with
         | [] => Ok []
         | _ =>
             if _looks_like_heading line
             then Ok (repeat (ch "#") (_get_heading_level line) ++ lit " " ++ line)
             else
               try li <- _looks_like_list_item line in
               if li then Ok (lit "- " ++ line) else Ok line
         end) in
      try others <- convert_lines lines' in
      Ok (this :: others)
  end.

(** [_plain_text_to_markdown(text)] *)
Definition _plain_text_to_markdown (text : str) : res str :=
  try markdown_lines <- convert_lines (split (lit "\n") text) in
  Ok (join (lit "\n") markdown_lines).

(** [_text_to_markdown(text, title)] *)
Definition _text_to_markdown (text : str) (title : option str) : res str :=
  let markdown :=
    match title with
    | Some ((_ :: _) as t) => lit "# " ++ t ++ lit "\n\n"
    | _ => []
    end in
  try looks <- _looks_like_markdown text in
  if looks then Ok (markdown ++ text)
  else
    try plain <- _plain_text_to_markdown text in
    Ok (markdown ++ plain).

Definition rsplit_dot (s : str) : str :=
  match Stream.rfind_dot s 0 None with
  | Some i => firstn i s
  | None => s
  end.

Definition upper_char (c : char) : char :=
  if (in_range 97 122 c)%N then (c - 32)%N else c.

(** [s.capitalize()], on the ASCII letters. *)
Definition capitalize (s : str) : str :=
  match s with
  | [] => []
  | c :: s' => upper_char c :: lower s'
  end.

(** [_extract_title_from_filename(filename)] *)
Definition _extract_title_from_filename (filename : option str) : option str :=
  match filename with
  | Some ((_ :: _) as f) =>
      let title := rsplit_dot f in
      let title := replace (lit "-") (lit " ") (replace (lit "_") (lit " ") title) in
      match capitalize (strip title) with
      | [] => None
      | t => Some t
      end
  | _ => None
  end.

(** The body of the [try] statement of [convert]. *)
Definition convert_body (self : TextConverter) (e : env) (stream : bstream)
  (si : StreamInfo) : outcome DocumentConverterResult :=
  do text_content <- read_stream_with_encoding e stream (charset si) in
  do text_content <- of_res (FormatUtils.normalize_whitespace text_content) in
  do t0 <- of_res (FormatUtils.extract_title_from_content text_content) in
  let title :=
    match t0 with
    | Some (_ :: _) => t0
    | _ => _extract_title_from_filename (filename si)
    end in
  do markdown <- of_res (_text_to_markdown text_content title) in
  let metadata :=
    md_set "line_count"
      (MInt (Z.of_nat (length (split (lit "\n") text_content))))
      (md_set "character_count" (MInt (Z.of_nat (length text_content)))
         (md_set "word_count" (MInt (Z.of_nat (length (split_ws text_content))))
            (_extract_metadata (stat e) si))) in
  do cleaned <- of_res (_clean_markdown (korean_support self) markdown) in
  do formatted <-
    (match title with
     | Some ((_ :: _) as t) =>
         do ft <- of_res (_format_title (korean_support self) t) in
         Return (Some ft)
     | _ => Return None
     end) in
  Return {| markdown := cleaned; title := formatted;
            result_metadata := Some metadata |}.

(** [convert(file_stream, stream_info)]: every exception of the body is
    raised again as [FileConversionException]. *)
Definition convert (self : TextConverter) (e : env) (stream : bstream)
  (si : StreamInfo) : outcome DocumentConverterResult :=
  match convert_body self e stream si with
  | Raise err => Raise (FileConversionException err)
  | other => other
  end.

End Text.

(* ================================================================== *)
(** * core/markitdown.py *)
(* ================================================================== *)

Module Engine.
Import Py Re Exn Stream Base.

(** ** The converter registry *)

(** Priorities are floating-point numbers in the source; they are taken
    here as rational numbers, which order the finite values the same
    way. *)
Record ConverterRegistration (C : Type) := {
  converter : C;
  priority : Q
}.
Arguments converter {C} _.
Arguments priority {C} _.

(** [a > b] on priorities. *)
Definition gt (a b : Q) : bool := negb (Qle_bool a b).

(** The loop of [register_converter]: [i] is the index of the entry
    under inspection and [insert_pos] the value of the variable of that
    name. *)
Fixpoint find_insert_pos {C : Type} (priority0 : Q) (i insert_pos : nat)
  (regs : list (ConverterRegistration C)) : nat :=
  match regs with
  | [] => insert_pos
  | reg :: regs' =>
      if gt (priority reg) priority0 then i
      else find_insert_pos priority0 (S i) (S i) regs'
  end.

(** [list.insert(i, x)] *)
Definition list_insert {A : Type} (i : nat) (x : A) (l : list A) : list A :=
  firstn i l ++ x :: skipn i l.

(** [register_converter(converter, priority=...)] *)
Definition register_converter {C : Type} (c : C) (priority0 : Q)
  (regs : list (ConverterRegistration C)) : list (ConverterRegistration C) :=
  let registration := {| converter := c; priority := priority0 |} in
  let insert_pos := find_insert_pos priority0 0 0 regs in
  list_insert insert_pos registration regs.

(** The built-in converters, and which of their modules can be
    imported. *)
Inductive builtin := TextConverter | PdfConverter | DocxConverter
                   | ImageConverter | HtmlConverter | AudioConverter.

Definition startup_sequence : list (builtin * Q) :=
  [ (TextConverter, 10 # 1); (PdfConverter, 0 # 1); (DocxConverter, 1 # 10);
    (ImageConverter, 1 # 1); (HtmlConverter, 2 # 1); (AudioConverter, 3 # 1) ]%Q.

(** [_register_converters()]: a converter whose import fails is passed
    over. *)
Definition _register_converters (enable_builtins : bool)
  (importable : builtin -> bool) : list (ConverterRegistration builtin) :=
  if negb enable_builtins then []
  else
    fold_left
      (fun regs bp =>
         if importable (fst bp)
         then register_converter (fst bp) (snd bp) regs
         else regs)
      startup_sequence [].

(** ** The stream-type guesses *)

(** [x not in guesses], with the equality of [StreamInfo]. *)
Definition not_in (x : StreamInfo) (guesses : list StreamInfo) : bool :=
  negb (existsb (fun g => Stream.__eq__ g x) guesses).

Definition add_guess (g : option StreamInfo) (guesses : list StreamInfo)
  : list StreamInfo :=
  match g with
  | Some x => if not_in x guesses then guesses ++ [x] else guesses
  | None => guesses
  end.

(** [_get_stream_info_guesses(stream, base_info)]; [content_guess] is
    the answer of [detect_from_stream], which rests on the [magic]
    library. *)
Definition _get_stream_info_guesses (content_guess : option StreamInfo)
  (base_info : StreamInfo) : list StreamInfo :=
  let g0 := if truthy (mimetype base_info) || truthy (extension base_info)
            then [base_info] else [] in
  let g1 := add_guess content_guess g0 in
  let g2 := match filename base_info with
            | Some ((_ :: _) as f) => add_guess (Detector.detect_from_filename f) g1
            | _ => g1
            end in
  let g3 := match extension base_info with
            | Some ((_ :: _) as e) => add_guess (Detector.detect_from_extension e) g2
            | _ => g2
            end in
  let g4 := match mimetype base_info with
            | Some ((_ :: _) as m) => add_guess (Detector.detect_from_mimetype m) g3
            | _ => g3
            end in
  match g4 with
  | [] => [empty_info]
  | _ => g4
  end.

(** ** The conversion attempt loop *)

Section Loop.

(** The stream, which a converter may read and move. *)
Variable S : Type.

(** What a call of a converter does: it answers, or it raises an
    exception of which the loop keeps the text [str(e)]. *)
Inductive attempt (A : Type) :=
| Done (a : A)
| Failed (error : str).
Arguments Done {A} a.
Arguments Failed {A} error.

Record Converter := {
  class_name : str;
  accepts : S -> StreamInfo -> S * attempt bool;
  convert : S -> StreamInfo -> S * attempt DocumentConverterResult
}.

(** One entry of [failed_attempts]. *)
Record failure := {
  f_converter : str;
  f_stream_info : StreamInfo;
  f_error : str
}.

(** [normalize_korean_spacing] of utils/format_utils.py, whose patterns
    are outside the fragment of [Re]. *)
Variable normalize_korean_spacing : str -> attempt str.

(** [repr] of a list of strings and of the list of failed attempts, as
    an f-string renders them. *)
Variable repr_strs : list str -> str.
Variable repr_failures : list failure -> str.

(** [_apply_korean_optimization(result)] *)
Definition _apply_korean_optimization (enable_korean_support : bool)
  (result : DocumentConverterResult) : attempt DocumentConverterResult :=
  if negb enable_korean_support then Done result
  else
    match normalize_korean_spacing (markdown result) with
    | Done optimized_markdown =>
        Done {| markdown := optimized_markdown; title := title result;
                result_metadata := result_metadata result |}
    | Failed err => Failed err
    end.

(** The body of the [try] statement for one converter and one guess. *)
Definition try_one (enable_korean_support korean_optimization : bool)
  (c : Converter) (si : StreamInfo) (s : S)
  : S * attempt (option DocumentConverterResult) :=
  match accepts c s si with
  | (s1, Failed err) => (s1, Failed err)
  | (s1, Done false) => (s1, Done None)
  | (s1, Done true) =>
      match convert c s1 si with
      | (s2, Failed err) => (s2, Failed err)
      | (s2, Done result) =>
          if korean_optimization
          then match _apply_korean_optimization enable_korean_support result with
               | Done r => (s2, Done (Some r))
               | Failed err => (s2, Failed err)
               end
          else (s2, Done (Some result))
      end
  end.

(** The inner loop, over the registered converters. *)
Fixpoint try_converters (eks ko : bool)
  (regs : list (ConverterRegistration Converter)) (si : StreamInfo) (s : S)
  (failed_attempts : list failure)
  : S * list failure * option DocumentConverterResult :=
  match regs with
  | [] => (s, failed_attempts, None)
  | converter_reg :: regs' =>
      let c := converter converter_reg in
      match try_one eks ko c si s with
      | (s1, Done (Some result)) => (s1, failed_attempts, Some result)
      | (s1, Done None) => try_converters eks ko regs' si s1 failed_attempts
      | (s1, Failed err) =>
          try_converters eks ko regs' si s1
            (failed_attempts
             ++ [{| f_converter := class_name c; f_stream_info := si;
                    f_error := err |}])
      end
  end.

(** The outer loop, over the guesses. *)
Fixpoint try_guesses (eks ko : bool)
  (regs : list (ConverterRegistration Converter))
  (guesses : list StreamInfo) (s : S) (failed_attempts : list failure)
  : S * list failure * option DocumentConverterResult :=
  match guesses with
  | [] => (s, failed_attempts, None)
  | si :: guesses' =>
      match try_converters eks ko regs si s failed_attempts with
      | (s1, fa, Some result) => (s1, fa, Some result)
      | (s1, fa, None) => try_guesses eks ko regs guesses' s1 fa
      end
  end.

(** The message of the final exception. *)
Definition error_message (guesses : list StreamInfo)
  (failed_attempts : list failure) : str :=
  let m0 := lit "No suitable converter found for stream" in
  let m1 := match guesses with
            | [] => m0
            | _ => m0 ++ lit " (guessed types: "
                      ++ repr_strs (List.map __str__ guesses) ++ lit ")"
            end in
  match failed_attempts with
  | [] => m1
  | _ => m1 ++ lit "\nFailed attempts: " ++ repr_failures failed_attempts
  end.

(** [_convert_with_guesses(stream, stream_info_guesses)] *)
Definition _convert_with_guesses (eks ko : bool)
  (regs : list (ConverterRegistration Converter))
  (guesses : list StreamInfo) (s : S)
  : S * outcome DocumentConverterResult :=
  match try_guesses eks ko regs guesses s [] with
  | (s1, _, Some result) => (s1, Return result)
  | (s1, fa, None) =>
      (s1, Raise (UnsupportedFormatException (error_message guesses fa)))
  end.

End Loop.

Arguments Done {A} a.
Arguments Failed {A} error.
Arguments class_name {S} _.
Arguments accepts {S} _ _ _.
Arguments convert {S} _ _ _.
Arguments Build_Converter {S} _ _ _.
Arguments try_one {S} _ _ _ _ _ _.
Arguments try_converters {S} _ _ _ _ _ _ _.
Arguments try_guesses {S} _ _ _ _ _ _ _.
Arguments _convert_with_guesses {S} _ _ _ _ _ _ _ _.

(** ** The structural report *)

Record heading := { h_level : nat; h_text : str; h_line : nat }.
Record image := { i_alt_text : str; i_url : str; i_line : nat }.
Record table := { t_columns : Z; t_rows : nat; t_header : str; t_line : nat }.
Record link := { l_text : str; l_url : str; l_line : nat }.

(** [markdown[:start].count('\\n') + 1]: the separator counted is the
    one the source writes, a backslash followed by the letter n. *)
Definition line_of (markdown : str) (start : nat) : nat :=
  count (lit "\n") (firstn start markdown) + 1.

(** [_extract_headings(markdown)] *)
Definition _extract_headings (markdown : str) : res (list heading) :=
  try ms <- finditer_str MULTILINE (lit "^(#{1,6})\\s+(.+)$") markdown in
  Ok (List.map
        (fun m => {| h_level := length (group markdown m 1);
                     h_text := strip (group markdown m 2);
                     h_line := line_of markdown (m_start m) |}) ms).

(** [_extract_images(markdown)] *)
Definition _extract_images (markdown : str) : res (list image) :=
  try ms <- finditer_str NOFLAGS (lit "!\\[([^\\]]*)\\]\\(([^\\)]+)\\)") markdown in
  Ok (List.map
        (fun m => {| i_alt_text := group markdown m 1;
                     i_url := group markdown m 2;
                     i_line := line_of markdown (m_start m) |}) ms).

(** [_extract_tables(markdown)] *)
Definition _extract_tables (markdown : str) : res (list table) :=
  let table_pattern := lit "(\\|[^\\n]+\\|(?:\\n\\|[^\\n]+\\|)+)" in
  try ms <- finditer_str MULTILINE table_pattern markdown in
  Ok (List.map
        (fun m =>
           let table_text := group markdown m 1 in
           let lines := split (lit "\n") table_text in
           let header_line := hd [] lines in
           let data_lines := if 2 <? length lines then skipn 2 lines else [] in
           {| t_columns := (Z.of_nat (length (split (lit "|") header_line)) - 2)%Z;
              t_rows := length data_lines;
              t_header := strip header_line;
              t_line := line_of markdown (m_start m) |}) ms).

(** [_extract_links(markdown)] *)
Definition _extract_links (markdown : str) : res (list link) :=
  try ms <- finditer_str NOFLAGS (lit "\\[([^\\]]+)\\]\\(([^\\)]+)\\)") markdown in
  Ok (List.map
        (fun m => {| l_text := group markdown m 1;
                     l_url := group markdown m 2;
                     l_line := line_of markdown (m_start m) |}) ms).

(** [_detect_document_type(result)] *)
Definition _detect_document_type (markdown : str) : string :=
  if 20 <? count (lit "|") markdown then "spreadsheet"
  else if 5 <? count (lit "```") markdown then "technical"
  else if 5 <? count (lit "![") markdown then "presentation"
  else if 10 <? count (lit "](") markdown then "webpage"
  else "document".

(** [_detect_language(text)]; the quotient is compared with 0.7 as a
    rational number. *)
Definition _detect_language (text : str) : res string :=
  try korean <- FormatUtils.is_korean_text text in
  if korean then Ok "korean"%string
  else
    try english_chars <- FormatUtils.count_matches (lit "[a-zA-Z]") text in
    try total_chars <-
      FormatUtils.count_matches FormatUtils.latin_hangul_class text in
    if (0 <? total_chars) && (7 * total_chars <? 10 * english_chars)
    then Ok "english"%string
    else Ok "unknown"%string.

Record report := {
  document_type : string;
  word_count : nat;
  character_count : nat;
  headings : list heading;
  images : list image;
  tables : list table;
  links : list link;
  language : string;
  report_metadata : option metadata
}.

(** [analyze_structure(source)], from the result of the conversion on:
    the entries of the report are computed in the order of the
    dictionary display, and the first exception ends the call. *)
Definition analyze_structure (result : DocumentConverterResult) : res report :=
  let md := markdown result in
  let dt := _detect_document_type md in
  let wc := length (split_ws md) in
  let cc := length md in
  try hs <- _extract_headings md in
  try imgs <- _extract_images md in
  try tbls <- _extract_tables md in
  try lnks <- _extract_links md in
  try lang <- _detect_language md in
  Ok {| document_type := dt; word_count := wc; character_count := cc;
        headings := hs; images := imgs; tables := tbls; links := lnks;
        language := lang; report_metadata := result_metadata result |}.

End Engine.

(* ================================================================== *)
(** * converters/audio_converter.py *)
(* ================================================================== *)

Module Audio.
Import Py Exn Stream Base.

Definition path := list N.

(** The files that exist. *)
Definition fs := gset (list N).

(** [os.unlink(p)]: [None] stands for [OSError]. *)
Definition unlink (p : path) (files : fs) : option fs :=
  if bool_decide (p ∈ files) then Some (files ∖ {[p]}) else None.

(** How [audio.export(wav_path, format="wav")] ends: the file is
    written, or the call raises, with or without a file left behind. *)
Inductive export_result := Exported | ExportFailed (file_left : bool).

(** The converter and what surrounds it: which packages can be
    imported, the name that [NamedTemporaryFile] picks, whether reading
    the input stream succeeds, the answers of [pydub], and the helper
    methods of the converter that [convert] calls after [_prepare_audio],
    each of which returns or raises. *)
Record env := {
  whisper_available : bool;
  openai_available : bool;
  pydub_available : bool;
  tmp_name : fs -> str -> path;
  stream_read : outcome (list N);
  pydub_load : path -> bool;
  pydub_export : path -> export_result;
  _transcribe_audio : path -> outcome str;
  _extract_audio_metadata : path -> StreamInfo -> outcome metadata;
  render : str -> metadata -> StreamInfo -> outcome DocumentConverterResult
}.

Definition ext_or_mp3 (si : StreamInfo) : str :=
  match extension si with
  | Some ((_ :: _) as e) => e
  | _ => lit ".mp3"
  end.

(** [file_path.rsplit('.', 1)[0]] *)
Definition before_last_dot (p : path) : path :=
  match Stream.rfind_dot p 0 None with
  | Some i => firstn i p
  | None => p
  end.

(** [_prepare_audio(file_path, stream_info)]: the files afterwards and
    the path returned. *)
Definition _prepare_audio (e : env) (file_path : path) (si : StreamInfo)
  (files : fs) : fs * path :=
  let extension := ext_or_mp3 si in
  if (Py.eqb extension (lit ".mp3") || Py.eqb extension (lit ".wav"))
     && whisper_available e
  then (files, file_path)
  else if negb (pydub_available e) then (files, file_path)
  else if negb (pydub_load e file_path) then (files, file_path)
  else
    let wav_path := before_last_dot file_path ++ lit "_converted.wav" in
    match pydub_export e wav_path with
    | Exported => (files ∪ {[wav_path]}, wav_path)
    | ExportFailed true => (files ∪ {[wav_path]}, file_path)
    | ExportFailed false => (files, file_path)
    end.

(** The [finally] clause of [convert]: an [OSError] of either call ends
    the clean-up silently. *)
Definition cleanup (tmp_file_path audio_path : path) (files : fs) : fs :=
  match unlink tmp_file_path files with
  | None => files
  | Some files1 =>
      if negb (Py.eqb audio_path tmp_file_path)
      then match unlink audio_path files1 with
           | None => files1
           | Some files2 => files2
           end
      else files1
  end.

(** The inner [try] statement of [convert], without its [finally]
    clause. *)
Definition convert_inner (e : env) (audio_path tmp_file_path : path)
  (si : StreamInfo) : outcome DocumentConverterResult :=
  do transcription <- _transcribe_audio e audio_path in
  do metadata <- _extract_audio_metadata e tmp_file_path si in
  render e transcription metadata si.

(** [convert(file_stream, stream_info)]: the files afterwards and the
    result. *)
Definition convert (e : env) (si : StreamInfo) (files : fs)
  : fs * outcome DocumentConverterResult :=
  if negb (whisper_available e || openai_available e)
  then (files, Raise MissingDependencyException)
  else
    let tmp_file_path := tmp_name e files (ext_or_mp3 si) in
    let files1 := files ∪ {[tmp_file_path]} in
    match stream_read e with
    | Raise err => (files1, Raise (FileConversionException err))
    | Gap what => (files1, Gap what)
    | Return _ =>
        let '(files2, audio_path) := _prepare_audio e tmp_file_path si files1 in
        let result := convert_inner e audio_path tmp_file_path si in
        let files3 := cleanup tmp_file_path audio_path files2 in
        match result with
        | Raise err => (files3, Raise (FileConversionException err))
        | other => (files3, other)
        end
    end.

End Audio.

(* ================================================================== *)
(** * config/settings.py *)
(* ================================================================== *)

Module Config.
Import Py Exn.
Import PrimFloat.

Record ConverterSettings := {
  enable_builtins : bool;
  enable_plugins : bool;
  korean_support : bool;
  max_workers : Z
}.

Record LLMSettings := {
  openai_api_key : option str;
  llm_model : str;
  max_tokens : Z;
  temperature : PrimFloat.float
}.

Record AzureSettings := {
  endpoint : option str;
  key : option str;
  enabled : bool
}.

Record OCRSettings := {
  tesseract_path : option str;
  easyocr_enabled : bool;
  tesseract_enabled : bool;
  languages : list str
}.

Record AudioSettings := {
  whisper_model : str;
  local_whisper_enabled : bool;
  openai_whisper_enabled : bool
}.

Record ServerSettings := {
  log_level : str;
  log_file : option str;
  enable_cors : bool;
  max_file_size_mb : Z
}.

Record ConversionOptions := {
  include_metadata : bool;
  extract_images : bool;
  korean_optimization : bool;
  preserve_formatting : bool
}.

Record MarkItDownConfig := {
  converters : ConverterSettings;
  llm : LLMSettings;
  azure : AzureSettings;
  ocr : OCRSettings;
  audio : AudioSettings;
  server : ServerSettings;
  conversion : ConversionOptions
}.

(** The default values of the dataclasses. *)
Definition default_converters : ConverterSettings :=
  {| enable_builtins := true; enable_plugins := true; korean_support := true;
     max_workers := 4 |}.
Definition default_llm : LLMSettings :=
  {| openai_api_key := None; llm_model := lit "gpt-4o"; max_tokens := 300;
     temperature := 0x1.999999999999ap-4%float |}.
Definition default_azure : AzureSettings :=
  {| endpoint := None; key := None; enabled := false |}.
Definition default_ocr : OCRSettings :=
  {| tesseract_path := None; easyocr_enabled := true;
     tesseract_enabled := true; languages := [lit "ko"; lit "en"] |}.
Definition default_audio : AudioSettings :=
  {| whisper_model := lit "base"; local_whisper_enabled := true;
     openai_whisper_enabled := false |}.
Definition default_server : ServerSettings :=
  {| log_level := lit "INFO"; log_file := None; enable_cors := false;
     max_file_size_mb := 100 |}.
Definition default_conversion : ConversionOptions :=
  {| include_metadata := false; extract_images := false;
     korean_optimization := false; preserve_formatting := true |}.

(** [MarkItDownConfig()] *)
Definition default_config : MarkItDownConfig :=
  {| converters := default_converters; llm := default_llm;
     azure := default_azure; ocr := default_ocr; audio := default_audio;
     server := default_server; conversion := default_conversion |}.

(** ** JSON values: what [json.dump] writes and [json.load] reads *)

Inductive json :=
| JNull
| JBool (b : bool)
| JInt (z : Z)
| JFloat (f : PrimFloat.float)
| JStr (s : str)
| JList (l : list json)
| JObj (members : list (string * json)).

Definition j_opt (o : option str) : json :=
  match o with
  | Some s => JStr s
  | None => JNull
  end.

(** [asdict(config)] *)
Definition asdict (c : MarkItDownConfig) : json :=
  JObj
    [ ("converters",
       JObj [ ("enable_builtins", JBool (enable_builtins (converters c)));
              ("enable_plugins", JBool (enable_plugins (converters c)));
              ("korean_support", JBool (korean_support (converters c)));
              ("max_workers", JInt (max_workers (converters c))) ]);
      ("llm",
       JObj [ ("openai_api_key", j_opt (openai_api_key (llm c)));
              ("llm_model", JStr (llm_model (llm c)));
              ("max_tokens", JInt (max_tokens (llm c)));
              ("temperature", JFloat (temperature (llm c))) ]);
      ("azure",
       JObj [ ("endpoint", j_opt (endpoint (azure c)));
              ("key", j_opt (key (azure c)));
              ("enabled", JBool (enabled (azure c))) ]);
      ("ocr",
       JObj [ ("tesseract_path", j_opt (tesseract_path (ocr c)));
              ("easyocr_enabled", JBool (easyocr_enabled (ocr c)));
              ("tesseract_enabled", JBool (tesseract_enabled (ocr c)));
              ("languages", JList (List.map JStr (languages (ocr c)))) ]);
      ("audio",
       JObj [ ("whisper_model", JStr (whisper_model (audio c)));
              ("local_whisper_enabled", JBool (local_whisper_enabled (audio c)));
              ("openai_whisper_enabled", JBool (openai_whisper_enabled (audio c))) ]);
      ("server",
       JObj [ ("log_level", JStr (log_level (server c)));
              ("log_file", j_opt (log_file (server c)));
              ("enable_cors", JBool (enable_cors (server c)));
              ("max_file_size_mb", JInt (max_file_size_mb (server c))) ]);
      ("conversion",
       JObj [ ("include_metadata", JBool (include_metadata (conversion c)));
              ("extract_images", JBool (extract_images (conversion c)));
              ("korean_optimization", JBool (korean_optimization (conversion c)));
              ("preserve_formatting", JBool (preserve_formatting (conversion c))) ])
    ]%string.

(** ** From a dictionary to the configuration *)

(** The result of building a section from keyword arguments: the
    section, a [TypeError] (a key that is not a field, or a value that is
    not a dictionary), or a value of a type that the field does not
    declare, which the records of this development cannot hold. *)
Inductive built (A : Type) :=
| Built (a : A)
| TypeError
| IllTyped.
Arguments Built {A} a.
Arguments TypeError {A}.
Arguments IllTyped {A}.

Definition as_bool (j : json) : option bool :=
  match j with JBool b => Some b | _ => None end.
Definition as_int (j : json) : option Z :=
  match j with JInt z => Some z | _ => None end.
Definition as_float (j : json) : option PrimFloat.float :=
  match j with JFloat f => Some f | _ => None end.
Definition as_str (j : json) : option str :=
  match j with JStr s => Some s | _ => None end.
Definition as_opt_str (j : json) : option (option str) :=
  match j with JStr s => Some (Some s) | JNull => Some None | _ => None end.
Fixpoint as_strs (l : list json) : option (list str) :=
  match l with
  | [] => Some []
  | JStr s :: l' => option_map (cons s) (as_strs l')
  | _ => None
  end.
Definition as_str_list (j : json) : option (list str) :=
  match j with JList l => as_strs l | _ => None end.

(** The keyword arguments applied one by one to the default values:
    [set k v a] is [None] when [k] is not a field and [Some None] when
    [v] has another type than the field. *)
Fixpoint apply_kwargs {A : Type} (set : string -> json -> A -> option (option A))
  (kw : list (string * json)) (a : A) : built A :=
  match kw with
  | [] => Built a
  | (k, v) :: kw' =>
      match set k v a with
      | None => TypeError
      | Some None => IllTyped
      | Some (Some a') => apply_kwargs set kw' a'
      end
  end.

Definition construct {A : Type} (set : string -> json -> A -> option (option A))
  (default : A) (j : json) : built A :=
  match j with
  | JObj kw => apply_kwargs set kw default
  | _ => TypeError
  end.

Definition field {A B : Type} (get : json -> option B) (upd : B -> A)
  (v : json) : option (option A) :=
  Some (option_map upd (get v)).

Definition set_converters (k : string) (v : json) (a : ConverterSettings)
  : option (option ConverterSettings) :=
  if String.eqb k "enable_builtins" then
    field as_bool (fun x => {| enable_builtins := x; enable_plugins := enable_plugins a;
      korean_support := korean_support a; max_workers := max_workers a |}) v
  else if String.eqb k "enable_plugins" then
    field as_bool (fun x => {| enable_builtins := enable_builtins a; enable_plugins := x;
      korean_support := korean_support a; max_workers := max_workers a |}) v
  else if String.eqb k "korean_support" then
    field as_bool (fun x => {| enable_builtins := enable_builtins a;
      enable_plugins := enable_plugins a; korean_support := x;
      max_workers := max_workers a |}) v
  else if String.eqb k "max_workers" then
    field as_int (fun x => {| enable_builtins := enable_builtins a;
      enable_plugins := enable_plugins a; korean_support := korean_support a;
      max_workers := x |}) v
  else None.

Definition set_llm (k : string) (v : json) (a : LLMSettings)
  : option (option LLMSettings) :=
  if String.eqb k "openai_api_key" then
    field as_opt_str (fun x => {| openai_api_key := x; llm_model := llm_model a;
      max_tokens := max_tokens a; temperature := temperature a |}) v
  else if String.eqb k "llm_model" then
    field as_str (fun x => {| openai_api_key := openai_api_key a; llm_model := x;
      max_tokens := max_tokens a; temperature := temperature a |}) v
  else if String.eqb k "max_tokens" then
    field as_int (fun x => {| openai_api_key := openai_api_key a;
      llm_model := llm_model a; max_tokens := x; temperature := temperature a |}) v
  else if String.eqb k "temperature" then
    field as_float (fun x => {| openai_api_key := openai_api_key a;
      llm_model := llm_model a; max_tokens := max_tokens a; temperature := x |}) v
  else None.

Definition set_azure (k : string) (v : json) (a : AzureSettings)
  : option (option AzureSettings) :=
  if String.eqb k "endpoint" then
    field as_opt_str (fun x => {| endpoint := x; key := key a; enabled := enabled a |}) v
  else if String.eqb k "key" then
    field as_opt_str (fun x => {| endpoint := endpoint a; key := x; enabled := enabled a |}) v
  else if String.eqb k "enabled" then
    field as_bool (fun x => {| endpoint := endpoint a; key := key a; enabled := x |}) v
  else None.

Definition set_ocr (k : string) (v : json) (a : OCRSettings)
  : option (option OCRSettings) :=
  if String.eqb k "tesseract_path" then
    field as_opt_str (fun x => {| tesseract_path := x;
      easyocr_enabled := easyocr_enabled a;
      tesseract_enabled := tesseract_enabled a; languages := languages a |}) v
  else if String.eqb k "easyocr_enabled" then
    field as_bool (fun x => {| tesseract_path := tesseract_path a;
      easyocr_enabled := x; tesseract_enabled := tesseract_enabled a;
      languages := languages a |}) v
  else if String.eqb k "tesseract_enabled" then
    field as_bool (fun x => {| tesseract_path := tesseract_path a;
      easyocr_enabled := easyocr_enabled a; tesseract_enabled := x;
      languages := languages a |}) v
  else if String.eqb k "languages" then
    field as_str_list (fun x => {| tesseract_path := tesseract_path a;
      easyocr_enabled := easyocr_enabled a;
      tesseract_enabled := tesseract_enabled a; languages := x |}) v
  else None.

Definition set_audio (k : string) (v : json) (a : AudioSettings)
  : option (option AudioSettings) :=
  if String.eqb k "whisper_model" then
    field as_str (fun x => {| whisper_model := x;
      local_whisper_enabled := local_whisper_enabled a;
      openai_whisper_enabled := openai_whisper_enabled a |}) v
  else if String.eqb k "local_whisper_enabled" then
    field as_bool (fun x => {| whisper_model := whisper_model a;
      local_whisper_enabled := x;
      openai_whisper_enabled := openai_whisper_enabled a |}) v
  else if String.eqb k "openai_whisper_enabled" then
    field as_bool (fun x => {| whisper_model := whisper_model a;
      local_whisper_enabled := local_whisper_enabled a;
      openai_whisper_enabled := x |}) v
  else None.

Definition set_server (k : string) (v : json) (a : ServerSettings)
  : option (option ServerSettings) :=
  if String.eqb k "log_level" then
    field as_str (fun x => {| log_level := x; log_file := log_file a;
      enable_cors := enable_cors a; max_file_size_mb := max_file_size_mb a |}) v
  else if String.eqb k "log_file" then
    field as_opt_str (fun x => {| log_level := log_level a; log_file := x;
      enable_cors := enable_cors a; max_file_size_mb := max_file_size_mb a |}) v
  else if String.eqb k "enable_cors" then
    field as_bool (fun x => {| log_level := log_level a; log_file := log_file a;
      enable_cors := x; max_file_size_mb := max_file_size_mb a |}) v
  else if String.eqb k "max_file_size_mb" then
    field as_int (fun x => {| log_level := log_level a; log_file := log_file a;
      enable_cors := enable_cors a; max_file_size_mb := x |}) v
  else None.

Definition set_conversion (k : string) (v : json) (a : ConversionOptions)
  : option (option ConversionOptions) :=
  if String.eqb k "include_metadata" then
    field as_bool (fun x => {| include_metadata := x;
      extract_images := extract_images a;
      korean_optimization := korean_optimization a;
      preserve_formatting := preserve_formatting a |}) v
  else if String.eqb k "extract_images" then
    field as_bool (fun x => {| include_metadata := include_metadata a;
      extract_images := x; korean_optimization := korean_optimization a;
      preserve_formatting := preserve_formatting a |}) v
  else if String.eqb k "korean_optimization" then
    field as_bool (fun x => {| include_metadata := include_metadata a;
      extract_images := extract_images a; korean_optimization := x;
      preserve_formatting := preserve_formatting a |}) v
  else if String.eqb k "preserve_formatting" then
    field as_bool (fun x => {| include_metadata := include_metadata a;
      extract_images := extract_images a;
      korean_optimization := korean_optimization a;
      preserve_formatting := x |}) v
  else None.

Fixpoint obj_get (k : string) (members : list (string * json)) : option json :=
  match members with
  | [] => None
  | (k', v) :: ms => if String.eqb k k' then Some v else obj_get k ms
  end.

(** One statement of [_dict_to_config]: when the name of the section is
    a key of [data], the section is built from the keyword arguments
    found there. *)
Definition section {A : Type} (data : list (string * json)) (name : string)
  (set : string -> json -> A -> option (option A)) (default : A)
  : built A :=
  match obj_get name data with
  | Some j => construct set default j
  | None => Built default
  end.

Notation "'sec' x '<-' e 'in' k" :=
  (match e with
   | Built x => k
   | TypeError => TypeError
   | IllTyped => IllTyped
   end)
  (at level 10, x name, e at level 100, k at level 200, only parsing).

(** [_dict_to_config(data)], for [data] a dictionary. *)
Definition _dict_to_config (data : list (string * json)) : built MarkItDownConfig :=
  sec c1 <- section data "converters" set_converters default_converters in
  sec c2 <- section data "llm" set_llm default_llm in
  sec c3 <- section data "azure" set_azure default_azure in
  sec c4 <- section data "ocr" set_ocr default_ocr in
  sec c5 <- section data "audio" set_audio default_audio in
  sec c6 <- section data "server" set_server default_server in
  sec c7 <- section data "conversion" set_conversion default_conversion in
  Built {| converters := c1; llm := c2; azure := c3; ocr := c4; audio := c5;
           server := c6; conversion := c7 |}.

(** ** The environment variables *)

(** [os.getenv] *)
Definition environ := string -> option str.

(** The most decimal digits that an integer may have when it is read
    from a text or written as one: [sys.get_int_max_str_digits()], at
    its default value. *)
Definition int_max_str_digits : nat := 4300.

(** The first step of [int(value)]: every white-space character above
    the ASCII range becomes a space and every decimal digit of another
    script the ASCII digit of its value; at any other character above
    the ASCII range the text ends with a question mark. *)
Fixpoint to_ascii_numeral (s : str) : str :=
  match s with
  | [] => []
  | c :: s' =>
      if (c <? 127)%N then c :: to_ascii_numeral s'
      else if isspace c then 32%N :: to_ascii_numeral s'
      else match decimal_value c with
           | Some d => (48 + d)%N :: to_ascii_numeral s'
           | None => [63%N]
           end
  end.

(** The white space that [int] passes over at both ends of the
    numeral. *)
Definition ascii_space (c : char) : bool := (in_range 9 13 c || (c =? 32))%N.

(** The digits of the numeral, single underscores allowed between two
    of them: the value, the number of digits, and what follows them.
    [prev] is the kind of the character before: [None] at the start,
    [Some true] after a digit, [Some false] after an underscore. *)
Fixpoint int_digits (s : str) (acc : Z) (digits : nat) (prev : option bool)
  : option (Z * nat * str) :=
  let stop :=
    match prev with
    | Some true => Some (acc, digits, s)
    | _ => None
    end in
  match s with
  | [] => stop
  | c :: s' =>
      if isdigit c
      then int_digits s' (10 * acc + Z.of_N (c - 48)%N)%Z (S digits) (Some true)
      else if (c =? 95)%N
      then match prev with
           | Some true => int_digits s' acc digits (Some false)
           | _ => None
           end
      else stop
  end.

(** [int(value)]: [None] stands for [ValueError]. *)
Definition parse_int (value : str) : option Z :=
  let s := dropwhile ascii_space (to_ascii_numeral value) in
  let '(negative, s) :=
    match s with
    | c :: r =>
        if (c =? 43)%N then (false, r)
        else if (c =? 45)%N then (true, r)
        else (false, s)
    | [] => (false, s)
    end in
  match int_digits s 0%Z 0 None with
  | Some (z, digits, rest) =>
      if int_max_str_digits <? digits then None
      else match dropwhile ascii_space rest with
           | [] => Some (if negative then (- z)%Z else z)
           | _ => None
           end
  | None => None
  end.

(** [value.lower() in ("true", "1", "yes", "on")] *)
Definition parse_bool (value : str) : bool :=
  existsb (Py.eqb (lower value)) [lit "true"; lit "1"; lit "yes"; lit "on"].

Definition with_llm (f : LLMSettings -> LLMSettings) (c : MarkItDownConfig) :=
  {| converters := converters c; llm := f (llm c); azure := azure c;
     ocr := ocr c; audio := audio c; server := server c;
     conversion := conversion c |}.
Definition with_azure (f : AzureSettings -> AzureSettings) (c : MarkItDownConfig) :=
  {| converters := converters c; llm := llm c; azure := f (azure c);
     ocr := ocr c; audio := audio c; server := server c;
     conversion := conversion c |}.
Definition with_ocr (f : OCRSettings -> OCRSettings) (c : MarkItDownConfig) :=
  {| converters := converters c; llm := llm c; azure := azure c;
     ocr := f (ocr c); audio := audio c; server := server c;
     conversion := conversion c |}.
Definition with_audio (f : AudioSettings -> AudioSettings) (c : MarkItDownConfig) :=
  {| converters := converters c; llm := llm c; azure := azure c;
     ocr := ocr c; audio := f (audio c); server := server c;
     conversion := conversion c |}.
Definition with_server (f : ServerSettings -> ServerSettings) (c : MarkItDownConfig) :=
  {| converters := converters c; llm := llm c; azure := azure c;
     ocr := ocr c; audio := audio c; server := f (server c);
     conversion := conversion c |}.
Definition with_converters (f : ConverterSettings -> ConverterSettings)
  (c : MarkItDownConfig) :=
  {| converters := f (converters c); llm := llm c; azure := azure c;
     ocr := ocr c; audio := audio c; server := server c;
     conversion := conversion c |}.

(** One round of the loop of [_load_from_environment]: [set] stores the
    value read, converted to the type of the value that the field holds;
    [None] is the [continue] after a value that does not convert. *)
Definition from_env (env : environ) (env_var : string)
  (set : str -> MarkItDownConfig -> option MarkItDownConfig)
  (c : MarkItDownConfig) : MarkItDownConfig :=
  match env env_var with
  | Some value =>
      match set value c with
      | Some c' => c'
      | None => c
      end
  | None => c
  end.

(** [_load_from_environment(config)], in the order of [env_mappings]. *)
Definition _load_from_environment (env : environ) (c : MarkItDownConfig)
  : MarkItDownConfig :=
  let c := from_env env "OPENAI_API_KEY"
    (fun v => fun c => Some (with_llm (fun a =>
       {| openai_api_key := Some v; llm_model := llm_model a;
          max_tokens := max_tokens a; temperature := temperature a |}) c)) c in
  let c := from_env env "LLM_MODEL"
    (fun v => fun c => Some (with_llm (fun a =>
       {| openai_api_key := openai_api_key a; llm_model := v;
          max_tokens := max_tokens a; temperature := temperature a |}) c)) c in
  let c := from_env env "AZURE_DOCUMENT_INTELLIGENCE_ENDPOINT"
    (fun v => fun c => Some (with_azure (fun a =>
       {| endpoint := Some v; key := key a; enabled := enabled a |}) c)) c in
  let c := from_env env "AZURE_DOCUMENT_INTELLIGENCE_KEY"
    (fun v => fun c => Some (with_azure (fun a =>
       {| endpoint := endpoint a; key := Some v; enabled := enabled a |}) c)) c in
  let c := from_env env "TESSERACT_PATH"
    (fun v => fun c => Some (with_ocr (fun a =>
       {| tesseract_path := Some v; easyocr_enabled := easyocr_enabled a;
          tesseract_enabled := tesseract_enabled a;
          languages := languages a |}) c)) c in
  let c := from_env env "WHISPER_MODEL"
    (fun v => fun c => Some (with_audio (fun a =>
       {| whisper_model := v;
          local_whisper_enabled := local_whisper_enabled a;
          openai_whisper_enabled := openai_whisper_enabled a |}) c)) c in
  let c := from_env env "LOG_LEVEL"
    (fun v => fun c => Some (with_server (fun a =>
       {| log_level := v; log_file := log_file a;
          enable_cors := enable_cors a;
          max_file_size_mb := max_file_size_mb a |}) c)) c in
  let c := from_env env "LOG_FILE"
    (fun v => fun c => Some (with_server (fun a =>
       {| log_level := log_level a; log_file := Some v;
          enable_cors := enable_cors a;
          max_file_size_mb := max_file_size_mb a |}) c)) c in
  let c := from_env env "KOREAN_SUPPORT"
    (fun v => fun c => Some (with_converters (fun a =>
       {| enable_builtins := enable_builtins a;
          enable_plugins := enable_plugins a;
          korean_support := parse_bool v;
          max_workers := max_workers a |}) c)) c in
  let c := from_env env "MAX_WORKERS"
    (fun v => fun c =>
       match parse_int v with
       | Some n => Some (with_converters (fun a =>
           {| enable_builtins := enable_builtins a;
              enable_plugins := enable_plugins a;
              korean_support := korean_support a;
              max_workers := n |}) c)
       | None => None
       end) c in
  c.

(** The variables that [_load_from_environment] reads. *)
Definition override_variables : list string :=
  [ "OPENAI_API_KEY"; "LLM_MODEL"; "AZURE_DOCUMENT_INTELLIGENCE_ENDPOINT";
    "AZURE_DOCUMENT_INTELLIGENCE_KEY"; "TESSERACT_PATH"; "WHISPER_MODEL";
    "LOG_LEVEL"; "LOG_FILE"; "KOREAN_SUPPORT"; "MAX_WORKERS" ]%string.

(** ** Files *)

(** A file holds the text of a JSON value or something else. *)
Inductive file :=
| FJson (j : json)
| FOther.

Record world := {
  files : gmap (list N) file;
  env : environ;
  home : str
}.

Definition exists_ (p : str) (w : world) : bool :=
  match files w !! p with
  | Some _ => true
  | None => false
  end.

(** A code point that UTF-8 can encode: not a surrogate. *)
Definition encodable_char (c : char) : bool :=
  negb (in_range 55296 57343 c)%N && (c <=? 1114111)%N.

(** The number of decimal digits of an integer. *)
Definition decimal_digits (z : Z) : nat :=
  Decimal.nb_digits (N.to_uint (Z.abs_N z)).

(** The first of two results that is an exception. *)
Definition or_else (a b : option exn) : option exn :=
  match a with
  | Some err => Some err
  | None => b
  end.

(** The exception that ends [json.dump(j, f, ensure_ascii=False)] on a
    file opened with the UTF-8 encoding, if any: the values are written
    in their order; an integer of more digits than the limit cannot be
    written as a numeral, and a string with a surrogate cannot be
    encoded. *)
Fixpoint dump_error (j : json) : option exn :=
  match j with
  | JInt z =>
      if int_max_str_digits <? decimal_digits z
      then Some (ValueError "Exceeds the limit (4300 digits) for integer string conversion")
      else None
  | JStr s => if forallb encodable_char s then None else Some UnicodeEncodeError
  | JList l => fold_right (fun x rest => or_else (dump_error x) rest) None l
  | JObj ms =>
      fold_right (fun kv rest => or_else (dump_error (snd kv)) rest) None ms
  | _ => None
  end.

(** Whether [json.load] reads the numerals of [j]: a numeral of more
    digits than the limit makes it raise [ValueError]. *)
Fixpoint loadable (j : json) : bool :=
  match j with
  | JInt z => decimal_digits z <=? int_max_str_digits
  | JList l => forallb loadable l
  | JObj ms => forallb (fun kv => loadable (snd kv)) ms
  | _ => true
  end.

Record ConfigManager := {
  config_path : str;
  config : MarkItDownConfig
}.

(** [_resolve_config_path(config_path)] *)
Definition _resolve_config_path (config_path : option str) (w : world) : str :=
  match config_path with
  | Some ((_ :: _) as p) => p
  | _ =>
      match env w "MARKITDOWN_CONFIG" with
      | Some ((_ :: _) as p) => p
      | _ =>
          let current_config := lit "markitdown_config.json" in
          let home_config := home w ++ lit "/.markitdown/config.json" in
          if exists_ current_config w then current_config
          else if exists_ home_config w then home_config
          else current_config
      end
  end.

(** [_load_config()]: a file that [json.load] does not read, a file
    that does not hold a dictionary, or a dictionary from which
    [_dict_to_config] raises, leaves the default values in place. *)
Definition _load_config (path : str) (w : world) : outcome MarkItDownConfig :=
  do c <-
    (match files w !! path with
     | Some (FJson (JObj data)) =>
         if loadable (JObj data)
         then match _dict_to_config data with
              | Built c => Return c
              | TypeError => Return default_config
              | IllTyped => Gap "a value of another type than its field"
              end
         else Return default_config
     | _ => Return default_config
     end) in
  Return (_load_from_environment (env w) c).

(** [ConfigManager(config_path)] *)
Definition __init__ (config_path : option str) (w : world)
  : outcome ConfigManager :=
  let p := _resolve_config_path config_path w in
  do c <- _load_config p w in
  Return {| config_path := p; config := c |}.

Definition write_file (p : str) (f : file) (w : world) : world :=
  {| files := <[p := f]> (files w); env := env w; home := home w |}.

(** [save_config(path)]: the world afterwards, and whether the call
    returns. *)
Definition save_config (self : ConfigManager) (path : option str) (w : world)
  : world * outcome unit :=
  let save_path :=
    match path with
    | Some ((_ :: _) as p) => p
    | _ => config_path self
    end in
  let config_dict := asdict (config self) in
  match dump_error config_dict with
  | None => (write_file save_path (FJson config_dict) w, Return tt)
  | Some err => (write_file save_path FOther w, Raise err)
  end.

(** ** Equality of configurations *)

(** [==] on two floats: a NaN is equal to nothing, not even to a NaN.
    (When Python compares the fields of two dataclass objects it takes
    an object as equal to itself without asking [==].  The NaN that
    [json.load] gives is an object of its own, so that a NaN read back
    from a file is another object than the NaN that was saved, as long
    as the one saved did not come out of [json.load] itself.) *)
Definition float_eq (a b : PrimFloat.float) : bool := PrimFloat.eqb a b.

Definition opt_eq (a b : option str) : bool :=
  match a, b with
  | None, None => true
  | Some x, Some y => Py.eqb x y
  | _, _ => false
  end.

Fixpoint strs_eq (a b : list str) : bool :=
  match a, b with
  | [], [] => true
  | x :: a', y :: b' => Py.eqb x y && strs_eq a' b'
  | _, _ => false
  end.

(** The [__eq__] that [@dataclass] gives each class: the fields are
    compared in their order with [==]. *)
Definition ConverterSettings_eq (a b : ConverterSettings) : bool :=
  Bool.eqb (enable_builtins a) (enable_builtins b)
  && Bool.eqb (enable_plugins a) (enable_plugins b)
  && Bool.eqb (korean_support a) (korean_support b)
  && (max_workers a =? max_workers b)%Z.

Definition LLMSettings_eq (a b : LLMSettings) : bool :=
  opt_eq (openai_api_key a) (openai_api_key b)
  && Py.eqb (llm_model a) (llm_model b)
  && (max_tokens a =? max_tokens b)%Z
  && float_eq (temperature a) (temperature b).

Definition AzureSettings_eq (a b : AzureSettings) : bool :=
  opt_eq (endpoint a) (endpoint b)
  && opt_eq (key a) (key b)
  && Bool.eqb (enabled a) (enabled b).

Definition OCRSettings_eq (a b : OCRSettings) : bool :=
  opt_eq (tesseract_path a) (tesseract_path b)
  && Bool.eqb (easyocr_enabled a) (easyocr_enabled b)
  && Bool.eqb (tesseract_enabled a) (tesseract_enabled b)
  && strs_eq (languages a) (languages b).

Definition AudioSettings_eq (a b : AudioSettings) : bool :=
  Py.eqb (whisper_model a) (whisper_model b)
  && Bool.eqb (local_whisper_enabled a) (local_whisper_enabled b)
  && Bool.eqb (openai_whisper_enabled a) (openai_whisper_enabled b).

Definition ServerSettings_eq (a b : ServerSettings) : bool :=
  Py.eqb (log_level a) (log_level b)
  && opt_eq (log_file a) (log_file b)
  && Bool.eqb (enable_cors a) (enable_cors b)
  && (max_file_size_mb a =? max_file_size_mb b)%Z.

Definition ConversionOptions_eq (a b : ConversionOptions) : bool :=
  Bool.eqb (include_metadata a) (include_metadata b)
  && Bool.eqb (extract_images a) (extract_images b)
  && Bool.eqb (korean_optimization a) (korean_optimization b)
  && Bool.eqb (preserve_formatting a) (preserve_formatting b).

Definition MarkItDownConfig_eq (a b : MarkItDownConfig) : bool :=
  ConverterSettings_eq (converters a) (converters b)
  && LLMSettings_eq (llm a) (llm b)
  && AzureSettings_eq (azure a) (azure b)
  && OCRSettings_eq (ocr a) (ocr b)
  && AudioSettings_eq (audio a) (audio b)
  && ServerSettings_eq (server a) (server b)
  && ConversionOptions_eq (conversion a) (conversion b).

End Config.

(* ================================================================== *)
(** * Inputs of the examples *)
(* ================================================================== *)

Module Examples.
Import Py Stream.

(** Two descriptors that differ in the file name only. *)
Definition report_a : StreamInfo :=
  make (Some (lit "text/plain")) (Some (lit ".txt")) None
       (Some (lit "a.txt")) None None.
Definition report_b : StreamInfo :=
  make (Some (lit "text/plain")) (Some (lit ".txt")) None
       (Some (lit "b.txt")) None None.

(** A descriptor that carries a character encoding and nothing else. *)
Definition only_charset : StreamInfo :=
  make None None (Some (lit "utf-8")) None None None.

(** The extension that the reverse table gives back for the MIME type of
    an extension: the last extension of the table with that type. *)
Definition reverse_of (ext : str) : str :=
  if Py.eqb ext (lit ".jpg") then lit ".jpeg"
  else if Py.eqb ext (lit ".html") then lit ".htm"
  else if Py.eqb ext (lit ".hwp") then lit ".hwpx"
  else ext.

(** A Markdown text with six ATX headings, three image references and a
    pipe table of two columns with a header row, a separator row and two
    data rows. *)
Definition sample_lines : list str :=
  [ lit "# Title";
    lit "## Section";
    lit "### Subsection";
    lit "#### Detail";
    lit "##### Note";
    lit "###### Remark";
    lit "![one](a.png)";
    lit "![two](b.png)";
    lit "![three](c.png)";
    lit "| Name | Value |";
    lit "|------|-------|";
    lit "| a | 1 |";
    lit "| b | 2 |" ].

Definition sample_markdown : str := join [NL] sample_lines.

Definition sample_result : Base.DocumentConverterResult :=
  {| Base.markdown := sample_markdown; Base.title := None;
     Base.result_metadata := None |}.

(** The text ["# Test Document\n\nThis is a test."], its bytes, and a
    descriptor with the extension [.txt]. *)
Definition test_text : str :=
  lit "# Test Document" ++ [NL; NL] ++ lit "This is a test.".

Definition test_stream : Text.bstream :=
  {| Text.data := test_text; Text.closed := false |}.

Definition txt_info : StreamInfo :=
  make None (Some (lit ".txt")) None None None None.

(** Surroundings without [chardet]; no other codec is asked for and no
    file is looked up when the text above is converted. *)
Definition plain_env : Text.env :=
  {| Text.chardet := None;
     Text.other_codec := fun _ _ => Text.CodecError Exn.LookupError;
     Text.stat := fun _ => None |}.

Definition default_text_converter : Text.TextConverter :=
  {| Text.korean_support := true |}.

(** The heading that [_text_to_markdown] puts before the text; it ends
    with the four characters that the source writes after the title. *)
Definition title_heading : str := lit "# Test Document\n\n".

(** Two converters over a stream without content: one whose [accepts]
    raises, one that accepts and whose [convert] raises; and plain
    renderings of the lists of the message. *)
Definition raising_accepts : Engine.Converter unit :=
  {| Engine.class_name := lit "PdfConverter";
     Engine.accepts := fun s _ => (s, Engine.Failed (lit "boom"));
     Engine.convert := fun s _ => (s, Engine.Failed (lit "unused")) |}.

Definition raising_convert : Engine.Converter unit :=
  {| Engine.class_name := lit "TextConverter";
     Engine.accepts := fun s _ => (s, Engine.Done true);
     Engine.convert := fun s _ => (s, Engine.Failed (lit "no text")) |}.

Definition first_registration
  : Engine.ConverterRegistration (Engine.Converter unit) :=
  {| Engine.converter := raising_accepts; Engine.priority := 0 # 1 |}.
Definition second_registration
  : Engine.ConverterRegistration (Engine.Converter unit) :=
  {| Engine.converter := raising_convert; Engine.priority := 10 # 1 |}.

Definition two_converters
  : list (Engine.ConverterRegistration (Engine.Converter unit)) :=
  [first_registration; second_registration].

Definition plain_strs (l : list str) : str := join (lit ", ") l.
Definition plain_failures (l : list Engine.failure) : str :=
  join (lit ", ")
    (List.map (fun f => Engine.f_converter f ++ lit ": " ++ Engine.f_error f) l).
Definition no_spacing (s : str) : Engine.attempt str := Engine.Done s.

(** Surroundings of an audio conversion: local Whisper and [pydub] are
    installed, the input is a FLAC stream that is read without error and
    re-encoded, and the transcription raises. *)
Definition flac_info : StreamInfo :=
  make None (Some (lit ".flac")) None (Some (lit "talk.flac")) None None.

Definition audio_env : Audio.env :=
  {| Audio.whisper_available := true;
     Audio.openai_available := false;
     Audio.pydub_available := true;
     Audio.tmp_name := fun _ suffix => lit "/tmp/tmpq1w2e3" ++ suffix;
     Audio.stream_read := Exn.Return [1%N; 2%N; 3%N];
     Audio.pydub_load := fun _ => true;
     Audio.pydub_export := fun _ => Audio.Exported;
     Audio._transcribe_audio := fun _ => Exn.Raise (Exn.ValueError "model");
     Audio._extract_audio_metadata := fun _ _ => Exn.Return [];
     Audio.render := fun _ _ _ => Exn.Raise (Exn.ValueError "unused") |}.

Definition other_file : list N := lit "/home/user/notes.txt".

(** A configuration with a value other than the default in every
    section, and a world without files and without environment
    variables. *)
Definition custom_config : Config.MarkItDownConfig :=
  {| Config.converters :=
       {| Config.enable_builtins := true; Config.enable_plugins := false;
          Config.korean_support := false; Config.max_workers := 8 |};
     Config.llm :=
       {| Config.openai_api_key := Some (lit "sk-test");
          Config.llm_model := lit "gpt-4o-mini"; Config.max_tokens := 512;
          Config.temperature := Config.temperature Config.default_llm |};
     Config.azure :=
       {| Config.endpoint := Some (lit "https://example.invalid/");
          Config.key := None; Config.enabled := true |};
     Config.ocr :=
       {| Config.tesseract_path := None; Config.easyocr_enabled := false;
          Config.tesseract_enabled := true;
          Config.languages := [lit "en"] |};
     Config.audio :=
       {| Config.whisper_model := lit "small";
          Config.local_whisper_enabled := true;
          Config.openai_whisper_enabled := true |};
     Config.server :=
       {| Config.log_level := lit "DEBUG"; Config.log_file := Some (lit "run.log");
          Config.enable_cors := true; Config.max_file_size_mb := 10 |};
     Config.conversion :=
       {| Config.include_metadata := true; Config.extract_images := true;
          Config.korean_optimization := true;
          Config.preserve_formatting := false |} |}.

Definition bare_world : Config.world :=
  {| Config.files := ∅; Config.env := fun _ => None;
     Config.home := lit "/home/user" |}.

Definition config_file : str := lit "out/config.json".

(** The default configuration with a temperature that is not a number,
    as [float('nan')] gives it. *)
Definition nan_config : Config.MarkItDownConfig :=
  {| Config.converters := Config.default_converters;
     Config.llm :=
       {| Config.openai_api_key := None; Config.llm_model := lit "gpt-4o";
          Config.max_tokens := 300; Config.temperature := PrimFloat.nan |};
     Config.azure := Config.default_azure;
     Config.ocr := Config.default_ocr;
     Config.audio := Config.default_audio;
     Config.server := Config.default_server;
     Config.conversion := Config.default_conversion |}.

(** The surroundings of an audio conversion whose input stream is
    closed: [seek] raises. *)
Definition closed_stream_env : Audio.env :=
  {| Audio.whisper_available := true;
     Audio.openai_available := false;
     Audio.pydub_available := true;
     Audio.tmp_name := fun _ suffix => lit "/tmp/tmpq1w2e3" ++ suffix;
     Audio.stream_read :=
       Exn.Raise (Exn.ValueError "I/O operation on closed file.");
     Audio.pydub_load := fun _ => true;
     Audio.pydub_export := fun _ => Audio.Exported;
     Audio._transcribe_audio := fun _ => Exn.Return (lit "hello");
     Audio._extract_audio_metadata := fun _ _ => Exn.Return [];
     Audio.render := fun _ _ _ => Exn.Raise (Exn.ValueError "unused") |}.

End Examples.

(* ================================================================== *)
(** * Notions used in the statements *)
(* ================================================================== *)

Module Props.
Import Py.

(** A field is unset when it is [None] or the empty string: the two
    values that Python takes as false. *)
Definition unset (o : option str) : Prop := o = None \/ o = Some [].

(** [x] occurs in [s] as a run of consecutive characters. *)
Definition infix (x s : str) : Prop := exists pre post, s = pre ++ x ++ post.

(** What C2, as amended, asks of one line of the extension table. *)
Definition table_line_ok (kv : str * str) : bool :=
  match Detector.detect_from_extension (fst kv),
        Detector.detect_from_mimetype (snd kv) with
  | Some a, Some b =>
      Stream.opt_eqb (Stream.mimetype a) (Some (snd kv))
      && Stream.opt_eqb (Stream.extension a) (Some (fst kv))
      && Stream.opt_eqb (Stream.mimetype b) (Some (snd kv))
      && Stream.opt_eqb (Stream.extension b) (Some (Examples.reverse_of (fst kv)))
  | _, _ => false
  end.

(** The index of the first registration whose priority is strictly
    greater than [p], or the length of the list. *)
Fixpoint first_greater {C : Type} (p : Q)
  (regs : list (Engine.ConverterRegistration C)) : nat :=
  match regs with
  | [] => 0
  | r :: rs =>
      if Engine.gt (Engine.priority r) p then 0 else S (first_greater p rs)
  end.

(** The registry after a sequence of calls of [register_converter], the
    first call first. *)
Definition registered {C : Type} (calls : list (C * Q))
  : list (Engine.ConverterRegistration C) :=
  fold_left (fun regs cp => Engine.register_converter (fst cp) (snd cp) regs)
    calls [].

(** The order of the registry: by priority, ascending. *)
Definition by_priority {C : Type} : relation (Engine.ConverterRegistration C) :=
  fun a b => (Engine.priority a <= Engine.priority b)%Q.

(** The entry that the loop records for a failed attempt. *)
Definition recorded {S : Type} (c : Engine.Converter S) (si : Stream.StreamInfo)
  (err : str) : Engine.failure :=
  {| Engine.f_converter := Engine.class_name c;
     Engine.f_stream_info := si;
     Engine.f_error := err |}.

(** The combinations of a guess and a registered converter, in the order
    in which the two nested loops reach them. *)
Definition combinations {S : Type}
  (regs : list (Engine.ConverterRegistration (Engine.Converter S)))
  (guesses : list Stream.StreamInfo)
  : list (Stream.StreamInfo * Engine.ConverterRegistration (Engine.Converter S)) :=
  flat_map (fun si => List.map (fun reg => (si, reg)) regs) guesses.

(** The attempt loop in the words of the specification: the
    combinations are tried one after the other; the first success ends
    the loop; a failure is recorded and the next combination is tried. *)
Fixpoint run_combinations {S : Type} (nks : str -> Engine.attempt str)
  (eks ko : bool)
  (combos : list (Stream.StreamInfo
                  * Engine.ConverterRegistration (Engine.Converter S)))
  (s : S) (failed : list Engine.failure)
  : S * list Engine.failure * option Base.DocumentConverterResult :=
  match combos with
  | [] => (s, failed, None)
  | (si, reg) :: rest =>
      match Engine.try_one nks eks ko (Engine.converter reg) si s with
      | (s1, Engine.Done (Some result)) => (s1, failed, Some result)
      | (s1, Engine.Done None) => run_combinations nks eks ko rest s1 failed
      | (s1, Engine.Failed err) =>
          run_combinations nks eks ko rest s1
            (failed ++ [recorded (Engine.converter reg) si err])
      end
  end.

(** ** Notions for [normalize_whitespace] *)

(** The state of the matcher after [n] more characters. *)
Fixpoint adv (n : nat) (st : Re.mstate) : Re.mstate :=
  match n with
  | O => st
  | S n' =>
      match Re.rest st with
      | c :: s' => adv n' (Re.advance c s' st)
      | [] => st
      end
  end.

(** The length that a greedy repetition of the characters satisfying
    [f], at least [lo] of them, matches at the head of [rest] together
    with what follows it; [kl] gives the length matched by what follows,
    and the longest repetition is tried first. *)
Fixpoint glen (f : char -> bool) (lo : nat) (kl : str -> option nat)
  (cnt : nat) (rest : str) : option nat :=
  match rest with
  | c :: r =>
      if f c
      then match glen f lo kl (S cnt) r with
           | Some n => Some (S n)
           | None => if lo <=? cnt then kl rest else None
           end
      else if lo <=? cnt then kl rest else None
  | [] => if lo <=? cnt then kl rest else None
  end.

(** A newline character, and then what [kl] measures. *)
Definition after_nl (kl : str -> option nat) (v : str) : option nat :=
  match v with
  | c :: v' => if (c =? NL)%N then option_map S (kl v') else None
  | [] => None
  end.

Definition blank (c : char) : bool := (c =? SP)%N || (c =? TAB)%N.
Definition is_nl (c : char) : bool := (c =? NL)%N.
Definition no_more (_ : str) : option nat := Some 0.

(** The length of the match of [[ \t]+] at the head of [s]. *)
Definition blanks_len (s : str) : option nat := glen blank 1 no_more 0 s.

(** The length of the match of [\n\s*\n\s*\n+] at the head of [s]. *)
Definition blank_lines_len (s : str) : option nat :=
  after_nl (glen isspace 0 (after_nl (glen isspace 0 (glen is_nl 1 no_more 0) 0)) 0) s.

(** The first match in [s] under the length function [ml]: how many
    characters precede it, and its length. *)
Fixpoint find_first (ml : str -> option nat) (s : str) : option (nat * nat) :=
  match ml s with
  | Some n => Some (0, n)
  | None =>
      match s with
      | [] => None
      | _ :: s' =>
          match find_first ml s' with
          | Some (d, n) => Some (S d, n)
          | None => None
          end
      end
  end.

(** Every match under [ml] replaced by [repl], from left to right;
    [skip] counts the characters of a match still to be passed over. *)
Fixpoint gsub (ml : str -> option nat) (repl : str) (skip : nat) (s : str) : str :=
  match s with
  | [] => []
  | c :: s' =>
      match skip with
      | S k => gsub ml repl k s'
      | O =>
          match ml s with
          | Some n => repl ++ gsub ml repl (n - 1) s'
          | None => c :: gsub ml repl 0 s'
          end
      end
  end.

(** The number of newline characters in the white space at the head of
    [s]. *)
Fixpoint nlc (s : str) : nat :=
  match s with
  | c :: s' =>
      if isspace c then (if (c =? NL)%N then 1 else 0) + nlc s' else 0
  | [] => 0
  end.

(** No white space at the head of [s] holds more than two newline
    characters, wherever one starts to read. *)
Fixpoint calm (s : str) : Prop :=
  match s with
  | [] => True
  | _ :: s' => nlc s <= 2 /\ calm s'
  end.

(** Every blank of [s] is a space that no blank follows. *)
Fixpoint neat (s : str) : Prop :=
  match s with
  | [] => True
  | c :: s' =>
      (blank c = true ->
       c = SP /\ match s' with d :: _ => blank d = false | [] => True end)
      /\ neat s'
  end.

(** White space neither at the head nor at the end. *)
Definition trimmed (s : str) : Prop :=
  (forall c s', s = c :: s' -> isspace c = false)
  /\ (forall c s', s = s' ++ [c] -> isspace c = false).

(** The two substitutions of [normalize_whitespace], on lists. *)
Definition collapse_blanks (s : str) : str := gsub blanks_len [SP] 0 s.
Definition squeeze_blank_lines (s : str) : str :=
  gsub blank_lines_len [NL; NL] 0 s.

End Props.

(* ================================================================== *)
(** * Further notions used in the statements *)
(* ================================================================== *)

Module Notions.
Import Py Stream.

(** An extension in normal form: absent, empty, or with its leading
    dot. *)
Definition dotted (o : option str) : Prop :=
  match o with
  | Some (c :: _) => c = 46%N
  | _ => True
  end.

(** No entry of the list equals a later one under [__eq__]. *)
Fixpoint distinct (l : list StreamInfo) : Prop :=
  match l with
  | [] => True
  | x :: l' => Forall (fun y => Stream.__eq__ x y = false) l' /\ distinct l'
  end.

(** The extension that [detect_from_mimetype] picks for a MIME type that
    is not a key of the reverse table: that of the first row whose major
    type starts the MIME type. *)
Definition major_type_extension (m : str) : option str :=
  if startswith (lit "application") m then Some (lit ".pdf")
  else if startswith (lit "image") m then Some (lit ".jpeg")
  else if startswith (lit "audio") m then Some (lit ".mp3")
  else if startswith (lit "text") m then Some (lit ".htm")
  else if startswith (lit "message") m then Some (lit ".eml")
  else None.

End Notions.

(* ================================================================== *)
(** * config/settings.py: [update_config] *)
(* ================================================================== *)

Module ConfigUpdate.
Import Py Config.

(** How a call of [update_config] ends: it returns, it raises
    [AttributeError] (the data of a section has no method [items]), or it
    meets something that the development does not cover. *)
Inductive ending :=
| Finished
| AttributeError
| NotCovered (what : string).

(** The attributes of a dataclass instance that are not fields all have
    names that start with two underscores; what [hasattr] and [setattr]
    do with such a name is not covered. *)
Definition dunder (name : string) : bool := String.prefix "__" name.

(** The inner loop of [update_config], over the items of one section;
    [set] is the assignment to a field of the section ([None] when the
    name is not a field, [Some None] when the value has another type
    than the field declares). *)
Fixpoint update_fields {A : Type}
  (set : string -> json -> A -> option (option A))
  (items : list (string * json)) (section_obj : A) : A * ending :=
  match items with
  | [] => (section_obj, Finished)
  | (field_name, value) :: items' =>
      match set field_name value section_obj with
      | Some (Some updated) => update_fields set items' updated
      | Some None =>
          (section_obj, NotCovered "a value of another type than its field")
      | None =>
          if dunder field_name
          then (section_obj, NotCovered "an attribute that is not a field")
          else update_fields set items' section_obj
      end
  end.

(** [section_data.items()] and the loop over it. *)
Definition update_section {A : Type}
  (set : string -> json -> A -> option (option A))
  (section_data : json) (section_obj : A) : A * ending :=
  match section_data with
  | JObj items => update_fields set items section_obj
  | _ => (section_obj, AttributeError)
  end.

(** One round of the outer loop: the section named is updated in
    place; a name that is no attribute of the configuration is passed
    over, and its data is not looked at. *)
Definition update_one (section_name : string) (section_data : json)
  (c : MarkItDownConfig) : MarkItDownConfig * ending :=
  if String.eqb section_name "converters" then
    let '(a, e) := update_section set_converters section_data (converters c) in
    ({| converters := a; llm := llm c; azure := azure c; ocr := ocr c;
        audio := audio c; server := server c; conversion := conversion c |}, e)
  else if String.eqb section_name "llm" then
    let '(a, e) := update_section set_llm section_data (llm c) in
    ({| converters := converters c; llm := a; azure := azure c; ocr := ocr c;
        audio := audio c; server := server c; conversion := conversion c |}, e)
  else if String.eqb section_name "azure" then
    let '(a, e) := update_section set_azure section_data (azure c) in
    ({| converters := converters c; llm := llm c; azure := a; ocr := ocr c;
        audio := audio c; server := server c; conversion := conversion c |}, e)
  else if String.eqb section_name "ocr" then
    let '(a, e) := update_section set_ocr section_data (ocr c) in
    ({| converters := converters c; llm := llm c; azure := azure c; ocr := a;
        audio := audio c; server := server c; conversion := conversion c |}, e)
  else if String.eqb section_name "audio" then
    let '(a, e) := update_section set_audio section_data (audio c) in
    ({| converters := converters c; llm := llm c; azure := azure c; ocr := ocr c;
        audio := a; server := server c; conversion := conversion c |}, e)
  else if String.eqb section_name "server" then
    let '(a, e) := update_section set_server section_data (server c) in
    ({| converters := converters c; llm := llm c; azure := azure c; ocr := ocr c;
        audio := audio c; server := a; conversion := conversion c |}, e)
  else if String.eqb section_name "conversion" then
    let '(a, e) := update_section set_conversion section_data (conversion c) in
    ({| converters := converters c; llm := llm c; azure := azure c; ocr := ocr c;
        audio := audio c; server := server c; conversion := a |}, e)
  else if dunder section_name
  then (c, NotCovered "an attribute that is not a section")
  else (c, Finished).

(** [update_config(updates)]: the configuration afterwards, and how the
    call ends.  What was assigned before an exception stays assigned. *)
Fixpoint update_config (updates : list (string * json)) (c : MarkItDownConfig)
  : MarkItDownConfig * ending :=
  match updates with
  | [] => (c, Finished)
  | (section_name, section_data) :: updates' =>
      match update_one section_name section_data c with
      | (c', Finished) => update_config updates' c'
      | (c', e) => (c', e)
      end
  end.

(** The names of the sections. *)
Definition section_names : list string :=
  [ "converters"; "llm"; "azure"; "ocr"; "audio"; "server"; "conversion" ]%string.

(** Inputs of the examples: updates under names that are not sections,
    and a world whose file sets two values that the environment
    overrides. *)
Definition stray_updates : list (string * json) :=
  [ ("llmm", JObj [ ("llm_model", JStr (lit "gpt-4")) ]);
    ("logging", JInt 3) ]%string.

Definition settings_file : str := lit "settings.json".

Definition file_data : list (string * json) :=
  [ ("llm", JObj [ ("llm_model", JStr (lit "gpt-4o-mini"));
                   ("max_tokens", JInt 512) ]);
    ("converters", JObj [ ("max_workers", JInt 8) ]) ]%string.

Definition file_config : MarkItDownConfig :=
  {| converters :=
       {| enable_builtins := true; enable_plugins := true;
          korean_support := true; max_workers := 8 |};
     llm :=
       {| openai_api_key := None; llm_model := lit "gpt-4o-mini";
          max_tokens := 512; temperature := temperature default_llm |};
     azure := default_azure; ocr := default_ocr; audio := default_audio;
     server := default_server; conversion := default_conversion |}.

Definition overriding_world : world :=
  {| files := {[ settings_file := FJson (JObj file_data) ]};
     env := fun v =>
              if String.eqb v "LLM_MODEL" then Some (lit "gpt-4.1")
              else if String.eqb v "MAX_WORKERS" then Some (lit "many")
              else if String.eqb v "KOREAN_SUPPORT" then Some (lit "Off")
              else None;
     home := lit "/home/user" |}.

End ConfigUpdate.

(* ================================================================== *)
(** * utils/stream_utils.py: copying streams; and [is_text_file] of
      utils/file_detector.py *)
(* ================================================================== *)

Module StreamUtils.
Import Py Exn Text.

(** A stream that is read from front to back: the bytes still to come,
    and how many of them one call of [read] hands out.  A call
    [read(n)] with [n > 0] returns at least one byte while bytes remain
    and never more than [n]; within these bounds the number is the
    stream's own choice, which [short] stands for. *)
Record source := {
  pending : list N;
  short : N -> list N -> N
}.

(** [stream.read(n)] for [n >= 0]: the chunk and the stream afterwards. *)
Definition read (n : N) (s : source) : list N * source :=
  let k := N.min (N.max 1 (short s n (pending s)))
             (N.min n (N.of_nat (length (pending s)))) in
  (firstn (N.to_nat k) (pending s),
   {| pending := skipn (N.to_nat k) (pending s); short := short s |}).

(** The loop of [make_stream_seekable]: the buffer, the count of bytes
    copied, and the stream afterwards. *)
Fixpoint fill (fuel : nat) (max_size copied : N) (buffer : list N) (s : source)
  : list N * N * source :=
  match fuel with
  | O => (buffer, copied, s)
  | S fuel' =>
      if (copied <? max_size)%N
      then
        let '(chunk, s') := read (N.min 8192 (max_size - copied)) s in
        match chunk with
        | [] => (buffer, copied, s')
        | _ => fill fuel' max_size (copied + N.of_nat (length chunk))%N
                 (buffer ++ chunk) s'
        end
      else (buffer, copied, s)
  end.

(** What [make_stream_seekable] returns: the stream it was given, or a
    buffer in memory, positioned at its start. *)
Inductive seekable_stream :=
| Given
| Buffer (content : list N).

(** [make_stream_seekable(stream, max_size)]: the result, the stream
    afterwards, and whether the warning about truncation is logged. *)
Definition make_stream_seekable (seekable : bool) (stream : source)
  (max_size : N) : seekable_stream * source * bool :=
  if seekable then (Given, stream, false)
  else
    let '(buffer, copied, s') :=
      fill (S (length (pending stream))) max_size 0 [] stream in
    (Buffer buffer, s', (max_size <=? copied)%N).

(** The default value of [max_size]. *)
Definition default_max_size : N := (100 * 1024 * 1024)%N.

(** The loop of [copy_stream]: what the target has received, the count,
    and the source afterwards. *)
Fixpoint pump (fuel : nat) (chunk_size : N) (copied : N) (target : list N)
  (s : source) : list N * N * source :=
  match fuel with
  | O => (target, copied, s)
  | S fuel' =>
      let '(chunk, s') := read chunk_size s in
      match chunk with
      | [] => (target, copied, s')
      | _ => pump fuel' chunk_size (copied + N.of_nat (length chunk))%N
               (target ++ chunk) s'
      end
  end.

(** [copy_stream(source, target, chunk_size)] for [chunk_size >= 0]:
    the bytes written to the target, the number returned, and the source
    afterwards. *)
Definition copy_stream (source0 : source) (chunk_size : N)
  : list N * N * source :=
  pump (S (length (pending source0))) chunk_size 0 [] source0.

(** The codec of [encoding] ends on [content] with a text or with
    [UnicodeDecodeError]: the encoding is known and its codec raises
    nothing else. *)
Definition decodes_or_fails (e : env) (encoding : str) (content : list N)
  : Prop :=
  forall err, decode e encoding content <> CodecError err.

(** The two Korean codecs that the sources ask for by name are there and
    raise nothing but [UnicodeDecodeError], as those of CPython do. *)
Definition korean_codecs (e : env) : Prop :=
  forall content,
    decodes_or_fails e (lit "cp949") content
    /\ decodes_or_fails e (lit "euc-kr") content.

(** The loop of [is_text_file] over the three more encodings. *)
Fixpoint any_decodes (e : env) (encodings : list str) (sample : list N)
  : outcome bool :=
  match encodings with
  | [] => Return false
  | encoding :: encodings' =>
      match decode e encoding sample with
      | Text _ => Return true
      | DecodeError => any_decodes e encodings' sample
      | CodecError err => Raise err
      end
  end.

(** [is_text_file(stream)] of the detector: the first 8192 bytes are
    decoded; any exception other than a decoding error makes the answer
    [False]. *)
Definition is_text_file (e : env) (stream : bstream) : bool :=
  if closed stream then false
  else
    let sample := firstn (N.to_nat 8192) (data stream) in
    match decode e (lit "utf-8") sample with
    | Text _ => true
    | DecodeError =>
        match any_decodes e [lit "cp949"; lit "euc-kr"; lit "latin-1"] sample with
        | Return b => b
        | _ => false
        end
    | CodecError _ => false
    end.

(** Inputs of the examples: a stream that hands out three bytes at a
    time, bytes that are not UTF-8, and an environment whose Korean
    codecs reject them. *)
Definition by_threes : source :=
  {| pending := [1; 2; 3; 4; 5; 6; 7; 8]%N; short := fun _ _ => 3%N |}.

Definition binary_stream : bstream :=
  {| data := [255; 254; 0; 1]%N; closed := false |}.

Definition strict_env : env :=
  {| chardet := None;
     other_codec := fun _ _ => DecodeError;
     stat := fun _ => None |}.

Definition misled_env : env :=
  {| chardet := Some (fun _ => (Some (lit "utf-8"), true));
     other_codec := fun _ _ => DecodeError;
     stat := fun _ => None |}.

End StreamUtils.

(* ================================================================== *)
(** * utils/format_utils.py: escaping, tables and file names *)
(* ================================================================== *)

Module Formatting.
Import Py Re.

(** [special_chars] of [escape_markdown_special_chars], in the order of
    the list. *)
Definition special_chars : list str :=
  [ lit "\"; lit "`"; lit "*"; lit "_"; lit "{"; lit "}"; lit "["; lit "]";
    lit "("; lit ")"; lit "#"; lit "+"; lit "-"; lit "."; lit "!"; lit "|" ].

(** [escape_markdown_special_chars(text)] *)
Definition escape_markdown_special_chars (text : str) : str :=
  fold_left (fun text char => replace char (lit "\" ++ char) text)
    special_chars text.

(** One line of a table: ["| " + " | ".join(cells) + " |\n"]. *)
Definition table_line (cells : list str) : str :=
  lit "| " ++ join (lit " | ") cells ++ lit " |" ++ [NL].

(** [row_data] of [create_markdown_table]: the row cut to the number
    of headers and then filled up with empty cells. *)
Definition row_data (n : nat) (row : list str) : list str :=
  let cut := firstn n row in
  cut ++ repeat [] (n - length cut).

(** [create_markdown_table(headers, rows)], the cells being strings. *)
Definition create_markdown_table (headers : list str) (rows : list (list str))
  : str :=
  match headers, rows with
  | [], _ => []
  | _, [] => []
  | _, _ =>
      table_line headers
      ++ table_line (repeat (lit "---") (length headers))
      ++ flat_map (fun row => table_line (row_data (length headers) row)) rows
  end.

(** [s.strip(chars)] for a set of characters. *)
Definition strip_chars (chars : str) (s : str) : str :=
  rev (dropwhile (fun c => mem_char c chars)
         (rev (dropwhile (fun c => mem_char c chars) s))).

(** The first pattern of [sanitize_filename], a set of nine characters;
    the fourth of them, the quotation mark, is U+0022. *)
Definition unsafe_pattern : str := lit "[<>:" ++ [34%N] ++ lit "/\\|?*]".

(** [sanitize_filename(filename)] *)
Definition sanitize_filename (filename : str) : res str :=
  try filename1 <- sub NOFLAGS unsafe_pattern (lit "_") filename in
  try filename2 <- sub NOFLAGS (lit "_+") (lit "_") filename1 in
  Ok (strip_chars (lit "_") filename2).

(** [extract_text_from_markdown(markdown)].  [re.DOTALL], which the
    first substitution passes, only changes what a dot matches, and its
    pattern has no dot. *)
Definition extract_text_from_markdown (markdown : str) : res str :=
  match markdown with
  | [] => Ok []
  | _ =>
      try m <- sub NOFLAGS (lit "```[^`]*```") [] markdown in
      try m <- sub NOFLAGS (lit "`[^`]*`") [] m in
      try m <- sub NOFLAGS (lit "\[([^\]]*)\]\([^\)]*\)") (lit "\1") m in
      try m <- sub NOFLAGS (lit "!\[([^\]]*)\]\([^\)]*\)") (lit "\1") m in
      try m <- sub MULTILINE (lit "^#+\s*") [] m in
      try m <- sub NOFLAGS (lit "\*\*([^\*]*)\*\*") (lit "\1") m in
      try m <- sub NOFLAGS (lit "\*([^\*]*)\*") (lit "\1") m in
      try m <- sub NOFLAGS (lit "__([^_]*)__") (lit "\1") m in
      try m <- sub NOFLAGS (lit "_([^_]*)_") (lit "\1") m in
      try m <- sub MULTILINE (lit "^\s*[*+-]\s*") [] m in
      try m <- sub MULTILINE (lit "^\s*\d+\.\s*") [] m in
      try m <- sub MULTILINE (lit "^\s*>\s*") [] m in
      FormatUtils.normalize_whitespace m
  end.

(** Inputs of the examples. *)
Definition sample_headers : list str := [lit "Name"; lit "Value"].
Definition sample_rows : list (list str) :=
  [ [lit "a"; lit "1"; lit "extra"]; [lit "b"]; [] ].
Definition sample_filename : option str := Some (lit "my_report-final.txt").

End Formatting.

Module FormatNotions.
Import Py Re Formatting.

(** A character of [special_chars]. *)
Definition is_special (c : char) : bool := mem_char c (concat special_chars).

(** A character with a backslash before it when it is special. *)
Definition escape_char (c : char) : str :=
  if is_special c then [BSL; c] else [c].

(** The number of vertical bars in a string. *)
Definition bars (s : str) : nat := count (lit "|") s.

(** A string without a newline character. *)
Definition one_line (s : str) : Prop := ~ In NL s.

(** A cell that keeps to its place in a table: it holds neither a
    vertical bar nor a newline character. *)
Definition plain_cell (cell : str) : Prop := bars cell = 0 /\ one_line cell.

(** A character that [sanitize_filename] replaces. *)
Definition unsafe (c : char) : bool :=
  mem_char c (lit "<>:" ++ [34%N] ++ lit "/\|?*").

End FormatNotions.

(* ================================================================== *)
(** * Notions for the substitutions of [sanitize_filename],
      [_clean_markdown] and the language probe *)
(* ================================================================== *)

Module MatchNotions.
Import Py Re Props Formatting FormatNotions.

(** The length of the match of a set of characters at the head of [s]:
    one character, when it belongs to the set. *)
Definition char_len (f : char -> bool) (s : str) : option nat :=
  match s with
  | c :: _ => if f c then Some 1 else None
  | [] => None
  end.

(** The length of the match of [c+], for the characters [c] that
    satisfy [f], at the head of [s]. *)
Definition runs_len (f : char -> bool) (s : str) : option nat :=
  glen f 1 no_more 0 s.

(** Every character that satisfies [f] replaced by [d]; and every run
    of such characters replaced by one [d]. *)
Definition swap (f : char -> bool) (d : char) (s : str) : str :=
  List.map (fun c => if f c then d else c) s.
Definition squash (f : char -> bool) (d : char) (s : str) : str :=
  gsub (runs_len f) [d] 0 s.

(** No two characters that satisfy [f] stand next to each other. *)
Fixpoint sparse (f : char -> bool) (s : str) : Prop :=
  match s with
  | [] => True
  | c :: s' =>
      (f c = true -> match s' with d :: _ => f d = false | [] => True end)
      /\ sparse f s'
  end.

(** No character that satisfies [f] at the head or at the end. *)
Definition bare (f : char -> bool) (s : str) : Prop :=
  (forall c s', s = c :: s' -> f c = false)
  /\ (forall c s', s = s' ++ [c] -> f c = false).

Definition is_underscore (c : char) : bool := (c =? 95)%N.

(** The length of the match of [\n\s*\n\s*\n] at the head of [s]. *)
Definition blank_lines3_len (s : str) : option nat :=
  after_nl (glen isspace 0 (after_nl (glen isspace 0 (after_nl no_more) 0)) 0) s.

(** How many characters of [s] satisfy [f]. *)
Definition count_if (f : char -> bool) (s : str) : nat :=
  length (List.filter f s).

(** A Hangul syllable; a Latin letter. *)
Definition hangul (c : char) : bool := (in_range 44032 55203 c)%N.
Definition latin (c : char) : bool :=
  (in_range 97 122 c || in_range 65 90 c)%N.

(** The length of the match of the fourth pattern of
    [_looks_like_markdown] at the head of [s]: backslashes, backslashes,
    at least one character that is no asterisk, backslashes,
    backslashes. *)
Definition is_backslash (c : char) : bool := (c =? 92)%N.
Definition not_star (c : char) : bool := negb (c =? 42)%N.
Definition bold_len (s : str) : option nat :=
  glen is_backslash 0
    (glen is_backslash 0
       (glen not_star 1
          (glen is_backslash 0 (glen is_backslash 0 no_more 0) 0) 0) 0) 0 s.

End MatchNotions.

(* ================================================================== *)
(** * URIs (core/markitdown.py) *)
(* ================================================================== *)

Module Uri.
Import Py Exn Stream.

(** [s.split(sep, 1)] for a separator of one character: the text before
    the first separator and the text after it, or [None] when [s] does
    not hold the separator and the list has [s] alone. *)
Fixpoint break_at (sep : char) (s : str) : option (str * str) :=
  match s with
  | [] => None
  | c :: s' =>
      if (c =? sep)%N then Some ([], s')
      else match break_at sep s' with
           | Some (before, after) => Some (c :: before, after)
           | None => None
           end
  end.

(** [sub in s] *)
Fixpoint contains (sub s : str) : bool :=
  startswith sub s
  || match s with
     | [] => false
     | _ :: s' => contains sub s'
     end.

(** What [convert_uri] hands on: a path to [convert_local], a URI to
    [_convert_http_uri], or a stream of bytes with its descriptor to
    [convert_stream]. *)
Inductive request :=
| Local (file_path : str)
| Http (uri : str)
| FromStream (binary_data : list N) (stream_info : StreamInfo).

Section DataUri.

(** [base64.b64decode(data)] and [unquote(data).encode('utf-8')], each
    of which returns bytes or raises. *)
Variable b64decode : str -> outcome (list N).
Variable unquote_encode : str -> outcome (list N).

(** [_convert_data_uri(data_uri)], up to the call of [convert_stream]. *)
Definition _convert_data_uri (data_uri : str) : outcome request :=
  if negb (startswith (lit "data:") data_uri)
  then Raise (ValueError "Invalid data URI")
  else
    match break_at 44%N (skipn 5 data_uri) with
    | None => Raise (ValueError "not enough values to unpack (expected 2, got 1)")
    | Some (header, data) =>
        let '(media_type, is_base64) :=
          match break_at 59%N header with
          | Some (media_type, encoding) =>
              (media_type, contains (lit "base64") encoding)
          | None => (header, false)
          end in
        do binary_data <- (if is_base64 then b64decode data
                           else unquote_encode data) in
        Return (FromStream binary_data
                  (make (Some media_type) None None None None None))
    end.

(** [convert_uri(uri)], up to the call that it ends with. *)
Definition convert_uri (uri : str) : outcome request :=
  if startswith (lit "file://") uri then Return (Local (skipn 7 uri))
  else if startswith (lit "data:") uri then _convert_data_uri uri
  else if startswith (lit "http://") uri || startswith (lit "https://") uri
  then Return (Http uri)
  else Return (Local uri).

End DataUri.

(** Decoders for the examples: every text is taken as its own bytes. *)
Definition as_bytes (data : str) : outcome (list N) := Return data.

End Uri.

(* ================================================================== *)
(** * The title of an audio document (converters/audio_converter.py) *)
(* ================================================================== *)

Module AudioTitle.
Import Py Re Stream Base.

(** [_extract_audio_title(transcription, metadata, stream_info)]; the
    metadata are not looked at. *)
Definition _extract_audio_title (korean_support : bool)
  (transcription : str) (stream_info : StreamInfo) : res (option str) :=
  let fallback :=
    match filename stream_info with
    | Some ((_ :: _) as title) =>
        let title := if existsb (N.eqb 46%N) title
                     then Text.rsplit_dot title else title in
        let title := replace (lit "-") (lit " ")
                       (replace (lit "_") (lit " ") title) in
        try t <- _format_title korean_support title in
        Ok (Some t)
    | _ => Ok None
    end in
  match transcription with
  | [] => fallback
  | _ =>
      match split (lit ".") transcription with
      | [] => fallback
      | sentence :: _ =>
          let first_sentence := strip sentence in
          if length first_sentence <? 100
          then try t <- _format_title korean_support first_sentence in
               Ok (Some t)
          else fallback
      end
  end.

End AudioTitle.

(* ================================================================== *)
(** * Converters for the examples of the attempt loop *)
(* ================================================================== *)

Module LoopExamples.
Import Py Stream Base.

(** Converters over a stream whose state is the list of the calls made
    on it: one that declines, one that accepts and returns the text it
    is built with. *)
Definition declining : Engine.Converter (list string) :=
  {| Engine.class_name := lit "PdfConverter";
     Engine.accepts := fun s _ => (s ++ ["pdf.accepts"%string], Engine.Done false);
     Engine.convert := fun s _ => (s ++ ["pdf.convert"%string],
                                   Engine.Failed (lit "unused")) |}.

Definition returning (text : str) : Engine.Converter (list string) :=
  {| Engine.class_name := lit "TextConverter";
     Engine.accepts := fun s _ => (s ++ ["text.accepts"%string], Engine.Done true);
     Engine.convert := fun s _ =>
       (s ++ ["text.convert"%string],
        Engine.Done {| markdown := text; title := None;
                       result_metadata := None |}) |}.

Definition registry
  : list (Engine.ConverterRegistration (Engine.Converter (list string))) :=
  [ {| Engine.converter := declining; Engine.priority := 0 # 1 |};
    {| Engine.converter := returning (lit "hello"); Engine.priority := 1 # 1 |};
    {| Engine.converter := returning (lit "late"); Engine.priority := 2 # 1 |} ].

End LoopExamples.

(* ================================================================== *)
(** * Facts about strings *)
(* ================================================================== *)

Lemma py_eqb_eq (a b : Py.str) : Py.eqb a b = true <-> a = b.
Proof.
  revert b. induction a as [|x a IH]; intros [|y b]; simpl; split;
    try congruence; try reflexivity.
  - intros H. apply andb_true_iff in H as [Hx Hab].
    apply N.eqb_eq in Hx. apply IH in Hab. congruence.
  - intros H. injection H as -> ->. rewrite N.eqb_refl. simpl.
    apply IH. reflexivity.
Qed.

Lemma py_eqb_refl (a : Py.str) : Py.eqb a a = true.
Proof. apply py_eqb_eq. reflexivity. Qed.

Lemma opt_eqb_eq (a b : option Py.str) : Stream.opt_eqb a b = true <-> a = b.
Proof.
  destruct a as [a|], b as [b|]; simpl; split; try congruence; try reflexivity.
  - intros H. apply py_eqb_eq in H. congruence.
  - intros H. injection H as ->. apply py_eqb_refl.
Qed.

(* ================================================================== *)
(** * Stream descriptors (core/stream_info.py) *)
(* ================================================================== *)

Section StreamInfoFacts.
Import Py Stream Examples Props.

(** C8, as the specification states it, fails: two descriptors with the
    same MIME type and the same extension compare unequal when their
    file names differ. *)
Lemma eq_ignores_filename_counterexample :
  mimetype report_a = mimetype report_b
  /\ extension report_a = extension report_b
  /\ Stream.__eq__ report_a report_b = false.
Proof. vm_compute. repeat split; reflexivity. Qed.

(** C8, amended: two descriptors compare equal exactly when their MIME
    types, their extensions and their file names are equal; the character
    encoding, the local path and the URL play no part. *)
Theorem eq_iff_mimetype_extension_filename (a b : StreamInfo) :
  Stream.__eq__ a b = true
  <-> mimetype a = mimetype b /\ extension a = extension b
      /\ filename a = filename b.
Proof.
  unfold Stream.__eq__. rewrite !andb_true_iff, !opt_eqb_eq. tauto.
Qed.

Lemma truthy_false_unset (o : option str) : truthy o = false <-> unset o.
Proof.
  unfold unset. destruct o as [[|c s]|]; simpl; split; intros H;
    try (left; reflexivity); try (right; reflexivity); try reflexivity.
  - discriminate.
  - destruct H as [H|H]; discriminate.
Qed.

(** C10: [is_empty] answers true exactly when the MIME type, the
    extension, the file name, the local path and the URL are all unset;
    the character encoding is not looked at, and a descriptor that
    carries only a character encoding is empty. *)
Theorem is_empty_ignores_charset :
  (forall si : StreamInfo,
      is_empty si = true
      <-> unset (mimetype si) /\ unset (extension si) /\ unset (filename si)
          /\ unset (local_path si) /\ unset (url si))
  /\ (forall (si : StreamInfo) (cs : option str),
        is_empty {| mimetype := mimetype si; extension := extension si;
                    charset := cs; filename := filename si;
                    local_path := local_path si; url := url si |}
        = is_empty si)
  /\ (charset only_charset = Some (lit "utf-8")
      /\ is_empty only_charset = true).
Proof.
  split; [|split].
  - intros si. unfold is_empty. simpl.
    rewrite negb_true_iff, !orb_false_iff, !truthy_false_unset. tauto.
  - intros si cs. reflexivity.
  - vm_compute. split; reflexivity.
Qed.

End StreamInfoFacts.

(* ================================================================== *)
(** * File types (utils/file_detector.py) *)
(* ================================================================== *)

Section DetectorFacts.
Import Py Stream Detector Examples Props.

Lemma table_lines_ok : forallb table_line_ok extension_mapping = true.
Proof. vm_compute. reflexivity. Qed.

(** C2, as the specification states it, fails on [.jpg]: its MIME type is
    [image/jpeg], for which the reverse table answers [.jpeg]. *)
Lemma reverse_lookup_counterexample :
  In (lit ".jpg", lit "image/jpeg") extension_mapping
  /\ option_map mimetype (detect_from_extension (lit ".jpg"))
     = Some (Some (lit "image/jpeg"))
  /\ option_map extension (detect_from_mimetype (lit "image/jpeg"))
     = Some (Some (lit ".jpeg"))
  /\ lit ".jpeg" <> lit ".jpg".
Proof.
  split; [|split; [|split]].
  - do 7 right. left. reflexivity.
  - vm_compute. reflexivity.
  - vm_compute. reflexivity.
  - vm_compute. discriminate.
Qed.

(** C2, amended: for every line of the extension table,
    [detect_from_extension] answers the MIME type of the line, and
    [detect_from_mimetype] on that MIME type answers the last extension of
    the table with that type, which is the extension of the line except
    for [.jpg], [.html] and [.hwp] (answers [.jpeg], [.htm], [.hwpx]). *)
Theorem detect_extension_then_mimetype (ext mime : str) :
  In (ext, mime) extension_mapping ->
  (exists si, detect_from_extension ext = Some si
              /\ mimetype si = Some mime /\ extension si = Some ext)
  /\ (exists si', detect_from_mimetype mime = Some si'
                  /\ mimetype si' = Some mime
                  /\ extension si' = Some (reverse_of ext)).
Proof.
  intros Hin.
  pose proof table_lines_ok as Hall.
  rewrite forallb_forall in Hall. specialize (Hall _ Hin).
  unfold table_line_ok in Hall. simpl fst in Hall. simpl snd in Hall.
  destruct (detect_from_extension ext) as [a|]; [|discriminate].
  destruct (detect_from_mimetype mime) as [b|]; [|discriminate].
  rewrite !andb_true_iff, !opt_eqb_eq in Hall.
  destruct Hall as [[[H1 H2] H3] H4].
  split; [exists a | exists b]; auto.
Qed.

(** The theorem at the first line of the table. *)
Lemma detect_extension_then_mimetype_witness :
  In (lit ".pdf", lit "application/pdf") extension_mapping
  /\ ((exists si, detect_from_extension (lit ".pdf") = Some si
                  /\ mimetype si = Some (lit "application/pdf")
                  /\ extension si = Some (lit ".pdf"))
      /\ (exists si', detect_from_mimetype (lit "application/pdf") = Some si'
                      /\ mimetype si' = Some (lit "application/pdf")
                      /\ extension si' = Some (reverse_of (lit ".pdf")))).
Proof.
  split.
  - left. reflexivity.
  - apply (detect_extension_then_mimetype (lit ".pdf") (lit "application/pdf")).
    left. reflexivity.
Defined.

End DetectorFacts.

(* ================================================================== *)
(** * The converter registry (core/markitdown.py) *)
(* ================================================================== *)

Section RegistryFacts.
Import Engine Props.
Context {C : Type}.
Implicit Types (regs : list (ConverterRegistration C)) (p : Q) (c : C).

Local Open Scope Q_scope.

Lemma gt_true a b : gt a b = true <-> b < a.
Proof.
  unfold gt. rewrite negb_true_iff. split.
  - intros H. apply Qnot_le_lt. intros Hle.
    apply Qle_bool_iff in Hle. congruence.
  - intros H. destruct (Qle_bool a b) eqn:E; [|reflexivity].
    apply Qle_bool_iff in E. exfalso. exact (Qlt_not_le _ _ H E).
Qed.

Lemma gt_false a b : gt a b = false <-> a <= b.
Proof.
  unfold gt. rewrite negb_false_iff. apply Qle_bool_iff.
Qed.

Lemma find_insert_pos_shift p i ip regs :
  find_insert_pos p (S i) (S ip) regs = S (find_insert_pos p i ip regs).
Proof.
  revert i ip. induction regs as [|r regs IH]; intros i ip; simpl.
  - reflexivity.
  - destruct (gt (priority r) p); [reflexivity|]. apply IH.
Qed.

(** The loop stops at the first registration with a strictly greater
    priority, and at the end of the list when there is none. *)
Lemma find_insert_pos_first_greater p regs :
  find_insert_pos p 0 0 regs = first_greater p regs.
Proof.
  induction regs as [|r regs IH]; simpl.
  - reflexivity.
  - destruct (gt (priority r) p); [reflexivity|].
    rewrite find_insert_pos_shift, IH. reflexivity.
Qed.

Lemma register_converter_cons c p r regs :
  register_converter c p (r :: regs)
  = if gt (priority r) p
    then {| converter := c; priority := p |} :: r :: regs
    else r :: register_converter c p regs.
Proof.
  unfold register_converter. simpl.
  destruct (gt (priority r) p); [reflexivity|].
  rewrite find_insert_pos_shift. reflexivity.
Qed.

Lemma register_converter_split c p regs :
  exists l1 l2,
    regs = l1 ++ l2
    /\ register_converter c p regs
       = l1 ++ {| converter := c; priority := p |} :: l2
    /\ length l1 = first_greater p regs
    /\ Forall (fun r => priority r <= p) l1
    /\ match l2 with
       | [] => True
       | r :: _ => p < priority r
       end.
Proof.
  induction regs as [|r regs IH].
  - exists [], []. repeat split; constructor.
  - rewrite register_converter_cons. simpl.
    destruct (gt (priority r) p) eqn:E.
    + exists [], (r :: regs). repeat split; try constructor.
      apply gt_true. exact E.
    + destruct IH as (l1 & l2 & Hregs & Hreg & Hlen & Hall & Hhd).
      exists (r :: l1), l2. rewrite Hreg. simpl. repeat split.
      * congruence.
      * congruence.
      * constructor; [apply gt_false; exact E | exact Hall].
      * exact Hhd.
Qed.

Lemma register_converter_sorted c p regs :
  StronglySorted by_priority regs ->
  StronglySorted by_priority (register_converter c p regs).
Proof.
  induction regs as [|r regs IH]; intros Hs.
  - repeat constructor.
  - rewrite register_converter_cons. destruct (gt (priority r) p) eqn:E.
    + apply gt_true in E. constructor; [exact Hs|].
      inversion Hs as [|? ? Hs' Hall]; subst.
      constructor.
      * apply Qlt_le_weak. exact E.
      * eapply Forall_impl; [exact Hall|]. intros x Hx.
        unfold by_priority in *. simpl.
        eapply Qle_trans; [apply Qlt_le_weak; exact E | exact Hx].
    + apply gt_false in E.
      inversion Hs as [|? ? Hs' Hall]; subst.
      constructor; [apply IH; exact Hs'|].
      destruct (register_converter_split c p regs)
        as (l1 & l2 & Hregs & Hreg & _ & _ & _).
      rewrite Hreg. rewrite Hregs in Hall.
      apply Forall_app in Hall as [H1 H2].
      apply Forall_app. split; [exact H1|].
      constructor; [exact E | exact H2].
Qed.

Lemma registered_snoc (calls : list (C * Q)) c p :
  registered (calls ++ [(c, p)]) = register_converter c p (registered calls).
Proof. unfold registered. rewrite fold_left_app. reflexivity. Qed.

Lemma registered_sorted (calls : list (C * Q)) :
  StronglySorted by_priority (registered calls).
Proof.
  induction calls as [|[c p] calls IH] using rev_ind.
  - constructor.
  - rewrite registered_snoc. apply register_converter_sorted. exact IH.
Qed.

End RegistryFacts.

Section RegistryOrder.
Import Engine Props.
Local Open Scope Q_scope.

Lemma sorted_priorities {C : Type} (regs : list (ConverterRegistration C)) :
  StronglySorted by_priority regs -> Sorted Qle (List.map priority regs).
Proof.
  intros Hs. apply StronglySorted_Sorted.
  induction Hs as [|r regs Hs IH Hall]; simpl; constructor.
  - exact IH.
  - apply List.Forall_forall. intros q Hq.
    apply in_map_iff in Hq as (x & <- & Hx).
    rewrite List.Forall_forall in Hall. apply Hall. exact Hx.
Qed.

Lemma all_greater_after {C : Type} (p : Q) (l2 : list (ConverterRegistration C)) :
  StronglySorted by_priority l2 ->
  match l2 with [] => True | r :: _ => p < priority r end ->
  Forall (fun r => p < priority r) l2.
Proof.
  intros Hs Hhd. destruct l2 as [|r l2]; constructor.
  - exact Hhd.
  - inversion Hs as [|? ? _ Hall]; subst.
    eapply Forall_impl; [exact Hall|]. intros x Hx.
    eapply Qlt_le_trans; [exact Hhd | exact Hx].
Qed.

(** C5: [register_converter] puts the new registration immediately
    before the first entry with a strictly greater priority, and at the
    end when there is none; a registry built by registrations is
    therefore always in ascending order of priority, a new registration
    coming after the entries of equal priority; and the start-up sequence
    Text 10.0, PDF 0.0, DOCX 0.1, Image 1.0, HTML 2.0, Audio 3.0 ends in
    the order 0.0, 0.1, 1.0, 2.0, 3.0, 10.0. *)
Theorem register_converter_keeps_priority_order :
  (forall (C : Type) (c : C) (p : Q) (regs : list (ConverterRegistration C)),
      exists l1 l2,
        regs = l1 ++ l2
        /\ register_converter c p regs
           = l1 ++ {| converter := c; priority := p |} :: l2
        /\ Forall (fun r => priority r <= p) l1
        /\ match l2 with
           | [] => True
           | r :: _ => p < priority r
           end)
  /\ (forall (C : Type) (calls : list (C * Q)),
         Sorted Qle (List.map priority (registered calls)))
  /\ (forall (C : Type) (calls : list (C * Q)) (c : C) (p : Q),
         exists l1 l2,
           registered calls = l1 ++ l2
           /\ registered (calls ++ [(c, p)])
              = l1 ++ {| converter := c; priority := p |} :: l2
           /\ Forall (fun r => priority r <= p) l1
           /\ Forall (fun r => p < priority r) l2)
  /\ List.map (fun r => (converter r, priority r))
       (_register_converters true (fun _ => true))
     = [ (PdfConverter, 0 # 1); (DocxConverter, 1 # 10);
         (ImageConverter, 1 # 1); (HtmlConverter, 2 # 1);
         (AudioConverter, 3 # 1); (TextConverter, 10 # 1) ].
Proof.
  split; [|split; [|split]].
  - intros C c p regs.
    destruct (register_converter_split c p regs)
      as (l1 & l2 & H1 & H2 & _ & H3 & H4).
    exists l1, l2. auto.
  - intros C calls. apply sorted_priorities. apply registered_sorted.
  - intros C calls c p. rewrite registered_snoc.
    destruct (register_converter_split c p (registered calls))
      as (l1 & l2 & H1 & H2 & _ & H3 & H4).
    exists l1, l2. repeat split; auto.
    apply all_greater_after; [|exact H4].
    pose proof (registered_sorted calls) as Hs. rewrite H1 in Hs.
    apply StronglySorted_app_1_r in Hs. exact Hs.
  - vm_compute. reflexivity.
Qed.

End RegistryOrder.

(* ================================================================== *)
(** * The structural report (core/markitdown.py) *)
(* ================================================================== *)

Section ReportFacts.
Import Py Re Engine Examples.

Lemma headings_pattern_compiles :
  exists r, compile (lit "^(#{1,6})\\s+(.+)$") = Ok r.
Proof. eexists. vm_compute. reflexivity. Qed.

(** In the pattern of [_extract_images], every backslash is doubled: the
    first bracket then opens a character set that the next closing
    bracket ends, and the parenthesis after it closes a group that was
    never opened. *)
Lemma images_pattern_rejected :
  compile (lit "!\\[([^\\]]*)\\]\\(([^\\)]+)\\)")
  = Err (ReError "unbalanced parenthesis").
Proof. vm_compute. reflexivity. Qed.

Lemma extract_images_raises (md : str) :
  _extract_images md = Err (ReError "unbalanced parenthesis").
Proof.
  unfold _extract_images, finditer_str.
  rewrite images_pattern_rejected. reflexivity.
Qed.

Lemma analyze_structure_raises (result : Base.DocumentConverterResult) :
  analyze_structure result = Err (ReError "unbalanced parenthesis").
Proof.
  unfold analyze_structure.
  destruct headings_pattern_compiles as [r Hr].
  unfold _extract_headings, finditer_str. rewrite Hr.
  rewrite extract_images_raises. reflexivity.
Qed.

(** C1, the code on a text of the kind the claim describes: no heading
    is found, because the pattern asks for a backslash and the letter s
    after the marks; [_extract_images] raises [re.error] on every text, so
    [analyze_structure] raises too and returns no report; and
    [_extract_tables], called on its own, finds an empty match at each of
    the 169 positions of the text, each reported with -1 columns and no
    row. *)
Theorem analyze_structure_on_sample :
  length sample_lines = 13
  /\ _extract_headings sample_markdown = Ok []
  /\ (forall md, _extract_images md = Err (ReError "unbalanced parenthesis"))
  /\ (forall result,
         analyze_structure result = Err (ReError "unbalanced parenthesis"))
  /\ (exists ts,
         _extract_tables sample_markdown = Ok ts
         /\ length ts = 169
         /\ forallb (fun t => (t_columns t =? -1)%Z && (t_rows t =? 0)) ts
            = true).
Proof.
  split; [reflexivity|].
  split; [vm_compute; reflexivity|].
  split; [exact extract_images_raises|].
  split; [exact analyze_structure_raises|].
  eexists. split; [vm_compute; reflexivity|].
  split; vm_compute; reflexivity.
Qed.

(** The same text under the three patterns written with single
    backslashes, as the patterns of utils/format_utils.py are: the six
    headings with their levels, the three images and the one table
    block are found. *)
Lemma sample_under_single_backslash_patterns :
  (exists ms,
      finditer_str MULTILINE (lit "^(#{1,6})\s+(.+)$") sample_markdown = Ok ms
      /\ List.map (fun m => (length (group sample_markdown m 1),
                             group sample_markdown m 2)) ms
         = [ (1, lit "Title"); (2, lit "Section"); (3, lit "Subsection");
             (4, lit "Detail"); (5, lit "Note"); (6, lit "Remark") ])
  /\ (exists ms,
         finditer_str NOFLAGS (lit "!\[([^\]]*)\]\(([^\)]+)\)") sample_markdown
         = Ok ms
         /\ List.map (fun m => (group sample_markdown m 1,
                                group sample_markdown m 2)) ms
            = [ (lit "one", lit "a.png"); (lit "two", lit "b.png");
                (lit "three", lit "c.png") ])
  /\ (exists ms,
         finditer_str MULTILINE (lit "(\|[^\n]+\|(?:\n\|[^\n]+\|)+)")
           sample_markdown = Ok ms
         /\ List.map (fun m => split [NL] (group sample_markdown m 1)) ms
            = [ [ lit "| Name | Value |"; lit "|------|-------|";
                  lit "| a | 1 |"; lit "| b | 2 |" ] ]).
Proof.
  split; [|split]; eexists; (split; [vm_compute; reflexivity|]);
    vm_compute; reflexivity.
Qed.

End ReportFacts.

(* ================================================================== *)
(** * The text converter (converters/text_converter.py) *)
(* ================================================================== *)

Section TextFacts.
Import Py Re Exn Base Text Examples.

(** C3, as the specification states it, fails: the conversion succeeds,
    but its markdown is not the input text. *)
Lemma text_markdown_differs_counterexample :
  exists r,
    convert default_text_converter plain_env test_stream txt_info = Return r
    /\ markdown r <> test_text.
Proof.
  eexists. split; [vm_compute; reflexivity|].
  vm_compute. discriminate.
Qed.

(** C3, amended: the text converter accepts the stream and converts it;
    the title is ["Test Document"]; the markdown is the heading made from
    the title, a separator, and then the text: the input itself without
    the Korean support, and the input with the white space between its
    two lines replaced by one space with it. *)
Theorem text_conversion_of_test_document
  (ks : bool) (codec : str -> list N -> decoded) (st : stat_fn) :
  accepts {| korean_support := ks |} test_stream txt_info = true
  /\ exists r sep,
       convert {| korean_support := ks |}
         {| chardet := None; other_codec := codec; stat := st |}
         test_stream txt_info = Return r
       /\ title r = Some (lit "Test Document")
       /\ markdown r
          = lit "# Test Document" ++ sep
            ++ (if ks then lit "# Test Document This is a test."
                else test_text).
Proof.
  split; [reflexivity|].
  destruct ks.
  - eexists. exists (lit "\n\n").
    split; [vm_compute; reflexivity|]. split; vm_compute; reflexivity.
  - eexists. exists (lit "\n\n").
    split; [vm_compute; reflexivity|]. split; vm_compute; reflexivity.
Qed.

End TextFacts.

(* ================================================================== *)
(** * The conversion attempt loop (core/markitdown.py) *)
(* ================================================================== *)

Section LoopFacts.
Import Py Exn Stream Base Engine Props.
Context {S : Type}.
Variable nks : str -> attempt str.
Variable repr_strs : list str -> str.
Variable repr_failures : list failure -> str.
Variables eks ko : bool.

Implicit Types (regs : list (ConverterRegistration (Converter S)))
  (gs : list StreamInfo) (s : S) (fa : list failure).

Lemma try_converters_run regs si s fa :
  try_converters nks eks ko regs si s fa
  = run_combinations nks eks ko (List.map (fun reg => (si, reg)) regs) s fa.
Proof.
  revert s fa. induction regs as [|reg regs IH]; intros s fa; simpl.
  - reflexivity.
  - destruct (try_one nks eks ko (converter reg) si s) as [s1 [[r|]|err]];
      try reflexivity; apply IH.
Qed.

Lemma run_combinations_app
  (l1 l2 : list (StreamInfo * ConverterRegistration (Converter S))) s fa :
  run_combinations nks eks ko (l1 ++ l2) s fa
  = match run_combinations nks eks ko l1 s fa with
    | (s1, fa1, Some r) => (s1, fa1, Some r)
    | (s1, fa1, None) => run_combinations nks eks ko l2 s1 fa1
    end.
Proof.
  revert s fa. induction l1 as [|[si reg] l1 IH]; intros s fa; simpl.
  - reflexivity.
  - destruct (try_one nks eks ko (converter reg) si s) as [s1 [[r|]|err]];
      try reflexivity; apply IH.
Qed.

(** The two nested loops visit the combinations guess by guess, and for
    each guess converter by converter. *)
Lemma try_guesses_run regs gs s fa :
  try_guesses nks eks ko regs gs s fa
  = run_combinations nks eks ko (combinations regs gs) s fa.
Proof.
  revert s fa. induction gs as [|si gs IH]; intros s fa; simpl.
  - reflexivity.
  - rewrite run_combinations_app, <- try_converters_run.
    destruct (try_converters nks eks ko regs si s fa) as [[s1 fa1] [r|]].
    + reflexivity.
    + apply IH.
Qed.

(** An entry of the list of failed attempts is never removed. *)
Lemma run_combinations_keeps
  (l : list (StreamInfo * ConverterRegistration (Converter S))) s fa s' fa' r :
  run_combinations nks eks ko l s fa = (s', fa', r) ->
  exists more, fa' = fa ++ more.
Proof.
  revert s fa. induction l as [|[si reg] l IH]; intros s fa H; simpl in H.
  - injection H as _ <- _. exists []. rewrite app_nil_r. reflexivity.
  - destruct (try_one nks eks ko (converter reg) si s) as [s1 [[x|]|err]].
    + injection H as _ <- _. exists []. rewrite app_nil_r. reflexivity.
    + eapply IH. exact H.
    + apply IH in H as [more ->]. rewrite <- app_assoc. eauto.
Qed.

Lemma try_one_raises (c : Converter S) si s1 s2 err :
  accepts c s1 si = (s2, Failed err)
  \/ (exists s1', accepts c s1 si = (s1', Done true)
                  /\ convert c s1' si = (s2, Failed err)) ->
  try_one nks eks ko c si s1 = (s2, Failed err).
Proof.
  unfold try_one. intros [H | (s1' & Ha & Hc)].
  - rewrite H. reflexivity.
  - rewrite Ha, Hc. reflexivity.
Qed.

Lemma message_has_guesses gs fa :
  gs <> [] ->
  infix (repr_strs (List.map __str__ gs))
    (error_message repr_strs repr_failures gs fa).
Proof.
  intros Hgs. unfold error_message, infix.
  destruct gs as [|g gs]; [congruence|].
  destruct fa as [|f fa].
  - exists (lit "No suitable converter found for stream" ++ lit " (guessed types: "),
      (lit ")").
    rewrite <- !app_assoc. reflexivity.
  - exists (lit "No suitable converter found for stream" ++ lit " (guessed types: "),
      (lit ")" ++ lit "\nFailed attempts: " ++ repr_failures (f :: fa)).
    rewrite <- !app_assoc. reflexivity.
Qed.

Lemma message_has_failures gs fa :
  fa <> [] ->
  infix (repr_failures fa) (error_message repr_strs repr_failures gs fa).
Proof.
  intros Hfa. unfold error_message, infix.
  destruct fa as [|f fa]; [congruence|].
  eexists. exists []. rewrite app_nil_r. rewrite app_assoc. reflexivity.
Qed.

(** C4: the loop tries the combinations of a guess and a converter in
    order; when [accepts] or [convert] raises, the converter name, the
    descriptor and the error text are recorded and the loop goes on with
    the next combination, the entry staying in the list to the end; and
    when no combination succeeds, [UnsupportedFormatException] is raised
    with a message that holds the guessed descriptors and, if any attempt
    failed, the recorded entries. *)
Theorem attempt_loop_records_failures regs gs s :
  (exists s' fa r,
      try_guesses nks eks ko regs gs s [] = (s', fa, r)
      /\ run_combinations nks eks ko (combinations regs gs) s [] = (s', fa, r)
      /\ _convert_with_guesses nks repr_strs repr_failures eks ko regs gs s
         = (s', match r with
                | Some x => Return x
                | None =>
                    Raise (UnsupportedFormatException
                             (error_message repr_strs repr_failures gs fa))
                end)
      /\ (gs <> [] ->
          infix (repr_strs (List.map __str__ gs))
            (error_message repr_strs repr_failures gs fa))
      /\ (fa <> [] ->
          infix (repr_failures fa)
            (error_message repr_strs repr_failures gs fa)))
  /\ (forall before si reg after s1 fa1 s2 err,
         combinations regs gs = before ++ (si, reg) :: after ->
         run_combinations nks eks ko before s [] = (s1, fa1, None) ->
         (accepts (converter reg) s1 si = (s2, Failed err)
          \/ (exists s1', accepts (converter reg) s1 si = (s1', Done true)
                          /\ convert (converter reg) s1' si = (s2, Failed err))) ->
         exists s' more r,
           let fa := fa1 ++ recorded (converter reg) si err :: more in
           run_combinations nks eks ko after s2
             (fa1 ++ [recorded (converter reg) si err]) = (s', fa, r)
           /\ try_guesses nks eks ko regs gs s [] = (s', fa, r)
           /\ (r = None ->
               _convert_with_guesses nks repr_strs repr_failures eks ko regs gs s
               = (s', Raise (UnsupportedFormatException
                               (error_message repr_strs repr_failures gs fa)))
               /\ infix (repr_failures fa)
                    (error_message repr_strs repr_failures gs fa))).
Proof.
  split.
  - destruct (try_guesses nks eks ko regs gs s []) as [[s' fa] r] eqn:E.
    exists s', fa, r. split; [reflexivity|].
    split; [rewrite <- try_guesses_run; exact E|].
    split; [unfold _convert_with_guesses; rewrite E; destruct r; reflexivity|].
    split; [apply message_has_guesses | apply message_has_failures].
  - intros before si reg after s1 fa1 s2 err Hsplit Hbefore Hraise.
    apply try_one_raises in Hraise.
    destruct (run_combinations nks eks ko after s2
                (fa1 ++ [recorded (converter reg) si err]))
      as [[s' fa'] r] eqn:Eafter.
    destruct (run_combinations_keeps _ _ _ _ _ _ Eafter) as [more ->].
    rewrite <- app_assoc in Eafter. simpl in Eafter.
    assert (Hrun : try_guesses nks eks ko regs gs s []
                   = (s', fa1 ++ recorded (converter reg) si err :: more, r)).
    { rewrite try_guesses_run, Hsplit, run_combinations_app, Hbefore.
      simpl. rewrite Hraise. exact Eafter. }
    exists s', more, r. cbv zeta. split; [|split].
    + rewrite <- app_assoc. reflexivity.
    + exact Hrun.
    + intros ->. split.
      * unfold _convert_with_guesses. rewrite Hrun. reflexivity.
      * apply message_has_failures. destruct fa1; discriminate.
Qed.

End LoopFacts.

Section LoopWitness.
Import Py Exn Stream Base Engine Props Examples.

(** The theorem on two converters of which the first raises in
    [accepts]. *)
Lemma attempt_loop_records_failures_witness :
  combinations two_converters [txt_info]
  = [] ++ (txt_info, first_registration) :: [(txt_info, second_registration)]
  /\ run_combinations no_spacing true false [] tt [] = (tt, [], None)
  /\ accepts (converter first_registration) tt txt_info
     = (tt, Failed (lit "boom"))
  /\ exists s' more r,
       let fa := [] ++ recorded (converter first_registration) txt_info
                         (lit "boom") :: more in
       run_combinations no_spacing true false
         [(txt_info, second_registration)] tt
         ([] ++ [recorded (converter first_registration) txt_info (lit "boom")])
       = (s', fa, r)
       /\ try_guesses no_spacing true false two_converters [txt_info] tt []
          = (s', fa, r)
       /\ (r = None ->
           _convert_with_guesses no_spacing plain_strs plain_failures
             true false two_converters [txt_info] tt
           = (s', Raise (UnsupportedFormatException
                           (error_message plain_strs plain_failures
                              [txt_info] fa)))
           /\ infix (plain_failures fa)
                (error_message plain_strs plain_failures [txt_info] fa)).
Proof.
  split; [reflexivity|]. split; [reflexivity|]. split; [reflexivity|].
  apply (proj2 (attempt_loop_records_failures no_spacing plain_strs
                  plain_failures true false two_converters [txt_info] tt)
           [] txt_info first_registration [(txt_info, second_registration)]
           tt [] tt (lit "boom")).
  - reflexivity.
  - reflexivity.
  - left. reflexivity.
Defined.

End LoopWitness.

(* ================================================================== *)
(** * Temporary files of the audio converter *)
(* ================================================================== *)

Section AudioFacts.
Import Py Exn Stream Audio Examples.

Lemma prepare_audio_keeps_files (e : env) (p : path) (si : StreamInfo)
  (files files2 : fs) (q : path) :
  _prepare_audio e p si files = (files2, q) -> files ⊆ files2.
Proof.
  unfold _prepare_audio. intros H.
  repeat match type of H with
         | (if ?b then _ else _) = _ => destruct b
         | match ?x with _ => _ end = _ => destruct x
         end;
    injection H; intros; subst; set_solver.
Qed.

Lemma cleanup_removes (tmp audio : path) (files : fs) :
  tmp ∈ files ->
  (tmp ∉ cleanup tmp audio files)
  /\ (audio <> tmp -> audio ∉ cleanup tmp audio files).
Proof.
  intros Hin. unfold cleanup, unlink.
  rewrite bool_decide_eq_true_2 by exact Hin.
  destruct (Py.eqb audio tmp) eqn:E; simpl.
  - apply py_eqb_eq in E. split; [set_solver | congruence].
  - destruct (bool_decide (audio ∈ files ∖ {[tmp]})) eqn:D.
    + split; set_solver.
    + apply bool_decide_eq_false in D. split; [set_solver|]. intros _. exact D.
Qed.

(** Once [convert] has written the input stream to its temporary file,
    that file does not exist any more when [convert] returns or raises,
    whatever the later steps do; and when [_prepare_audio] returned
    another path, the re-encoded copy, that file does not exist any more
    either. *)
Lemma cleanup_after_copy
  (e : env) (si : StreamInfo) (files files2 : fs) (content : list N)
  (audio_path : path) :
  (whisper_available e || openai_available e) = true ->
  stream_read e = Return content ->
  _prepare_audio e (tmp_name e files (ext_or_mp3 si)) si
    (files ∪ {[tmp_name e files (ext_or_mp3 si)]}) = (files2, audio_path) ->
  (tmp_name e files (ext_or_mp3 si) ∉ fst (convert e si files))
  /\ (audio_path <> tmp_name e files (ext_or_mp3 si) ->
      audio_path ∉ fst (convert e si files)).
Proof.
  intros Havail Hread Hprep. unfold convert.
  rewrite Havail, Hread. simpl negb. cbv iota. rewrite Hprep.
  assert (Hin : tmp_name e files (ext_or_mp3 si) ∈ files2).
  { apply prepare_audio_keeps_files in Hprep. set_solver. }
  destruct (cleanup_removes _ audio_path _ Hin) as [H1 H2].
  destruct (convert_inner e audio_path (tmp_name e files (ext_or_mp3 si)) si);
    simpl; auto.
Qed.

(** C9: the temporary file is not removed on every exit path.  The
    [finally] clause that removes it belongs to the inner [try]
    statement, which starts after the [with] block: when [seek], [read]
    or [write] raises inside that block, [convert] raises
    [FileConversionException] and the file that [NamedTemporaryFile] has
    made stays, the file system being what it was with that file added.
    On the paths that the inner [try] statement covers the file is
    removed, and so is the re-encoded copy when [_prepare_audio] returned
    one. *)
Theorem audio_temporary_file_left_behind
  (e : env) (si : StreamInfo) (files : fs) :
  (whisper_available e || openai_available e) = true ->
  let tmp_file_path := tmp_name e files (ext_or_mp3 si) in
  (forall err,
      stream_read e = Raise err ->
      convert e si files
      = (files ∪ {[tmp_file_path]}, Raise (FileConversionException err))
      /\ tmp_file_path ∈ fst (convert e si files))
  /\ (forall content files2 audio_path,
         stream_read e = Return content ->
         _prepare_audio e tmp_file_path si (files ∪ {[tmp_file_path]})
         = (files2, audio_path) ->
         (tmp_file_path ∉ fst (convert e si files))
         /\ (audio_path <> tmp_file_path ->
             audio_path ∉ fst (convert e si files))).
Proof.
  intros Havail tmp_file_path. split.
  - intros err Hread.
    assert (Hc : convert e si files
                 = (files ∪ {[tmp_file_path]},
                    Raise (FileConversionException err))).
    { unfold convert. rewrite Havail, Hread. reflexivity. }
    split; [exact Hc|]. rewrite Hc. simpl. set_solver.
  - intros content files2 audio_path Hread Hprep.
    exact (cleanup_after_copy e si files files2 content audio_path
             Havail Hread Hprep).
Qed.

(** The theorem on a FLAC stream that is closed. *)
Lemma audio_temporary_file_left_behind_witness :
  convert closed_stream_env flac_info {[other_file]}
  = ({[other_file]} ∪ {[lit "/tmp/tmpq1w2e3.flac"]},
     Raise (FileConversionException
              (ValueError "I/O operation on closed file.")))
  /\ (lit "/tmp/tmpq1w2e3.flac"
        ∈ fst (convert closed_stream_env flac_info {[other_file]})).
Proof.
  apply (proj1 (audio_temporary_file_left_behind closed_stream_env flac_info
                  {[other_file]} eq_refl)
           (ValueError "I/O operation on closed file.")).
  reflexivity.
Defined.

(** The clean-up on a FLAC stream that is re-encoded and whose
    transcription raises. *)
Lemma cleanup_after_copy_on_flac :
  (tmp_name audio_env {[other_file]} (ext_or_mp3 flac_info)
     ∉ fst (convert audio_env flac_info {[other_file]}))
  /\ (lit "/tmp/tmpq1w2e3_converted.wav"
        ∉ fst (convert audio_env flac_info {[other_file]})).
Proof.
  destruct (cleanup_after_copy audio_env flac_info {[other_file]}
              ({[other_file]} ∪ {[lit "/tmp/tmpq1w2e3.flac"]}
                 ∪ {[lit "/tmp/tmpq1w2e3_converted.wav"]})
              [1%N; 2%N; 3%N] (lit "/tmp/tmpq1w2e3_converted.wav")
              eq_refl eq_refl eq_refl) as [H1 H2].
  split; [exact H1|]. apply H2. discriminate.
Qed.

End AudioFacts.

(* ================================================================== *)
(** * Saving and reloading the configuration (config/settings.py) *)
(* ================================================================== *)

Section ConfigFacts.
Import Py Exn Config Examples.

Lemma as_strs_strings (l : list str) : as_strs (List.map JStr l) = Some l.
Proof.
  induction l as [|s l IH]; simpl.
  - reflexivity.
  - rewrite IH. reflexivity.
Qed.

(** Rebuilding the configuration from its own dictionary gives it
    back. *)
Lemma dict_to_config_asdict (c : MarkItDownConfig) :
  exists data, asdict c = JObj data /\ _dict_to_config data = Built c.
Proof.
  eexists. split; [reflexivity|].
  destruct c as [[? ? ? ?] [[?|] ? ? ?] [[?|] [?|] ?] [[?|] ? ? l]
                 [? ? ?] [? [?|] ? ?] [? ? ? ?]];
    unfold _dict_to_config, section, construct; simpl;
    unfold field, as_str_list; simpl; rewrite as_strs_strings; reflexivity.
Qed.

Lemma from_env_unset (e : environ) (v : string)
  (set : str -> MarkItDownConfig -> option MarkItDownConfig)
  (c : MarkItDownConfig) :
  e v = None -> from_env e v set c = c.
Proof. intros H. unfold from_env. rewrite H. reflexivity. Qed.

(** Without the variables that it reads, [_load_from_environment]
    changes nothing. *)
Lemma load_from_environment_unset (e : environ) (c : MarkItDownConfig) :
  Forall (fun v => e v = None) override_variables ->
  _load_from_environment e c = c.
Proof.
  intros H. unfold override_variables in H.
  repeat match goal with
         | H : Forall _ (_ :: _) |- _ =>
             let H1 := fresh "Hv" in
             apply Forall_cons_1 in H as [H1 H]
         end.
  unfold _load_from_environment.
  rewrite !from_env_unset by assumption. reflexivity.
Qed.

Lemma opt_eq_refl (o : option str) : opt_eq o o = true.
Proof. destruct o as [x|]; [apply py_eqb_refl|reflexivity]. Qed.

Lemma strs_eq_refl (l : list str) : strs_eq l l = true.
Proof.
  induction l as [|x l IH]; simpl.
  - reflexivity.
  - rewrite py_eqb_refl. exact IH.
Qed.

Lemma bool_eqb_refl (b : bool) : Bool.eqb b b = true.
Proof. destruct b; reflexivity. Qed.

(** A float is equal to itself unless it is a NaN. *)
Lemma float_eq_self (f : PrimFloat.float) :
  float_eq f f = negb (PrimFloat.is_nan f).
Proof.
  unfold float_eq, PrimFloat.is_nan. rewrite Bool.negb_involutive.
  reflexivity.
Qed.

(** A configuration is equal to itself when its temperature is; the
    sections other than [llm] always are. *)
Lemma config_eq_self (c : MarkItDownConfig) :
  ConverterSettings_eq (converters c) (converters c) = true
  /\ AzureSettings_eq (azure c) (azure c) = true
  /\ OCRSettings_eq (ocr c) (ocr c) = true
  /\ AudioSettings_eq (audio c) (audio c) = true
  /\ ServerSettings_eq (server c) (server c) = true
  /\ ConversionOptions_eq (conversion c) (conversion c) = true
  /\ LLMSettings_eq (llm c) (llm c)
     = negb (PrimFloat.is_nan (temperature (llm c)))
  /\ MarkItDownConfig_eq c c
     = negb (PrimFloat.is_nan (temperature (llm c))).
Proof.
  assert (Hl : LLMSettings_eq (llm c) (llm c)
               = negb (PrimFloat.is_nan (temperature (llm c)))).
  { unfold LLMSettings_eq.
    rewrite opt_eq_refl, py_eqb_refl, Z.eqb_refl, float_eq_self.
    reflexivity. }
  assert (H1 : ConverterSettings_eq (converters c) (converters c) = true).
  { unfold ConverterSettings_eq. rewrite !bool_eqb_refl, Z.eqb_refl.
    reflexivity. }
  assert (H3 : AzureSettings_eq (azure c) (azure c) = true).
  { unfold AzureSettings_eq. rewrite !opt_eq_refl, bool_eqb_refl.
    reflexivity. }
  assert (H4 : OCRSettings_eq (ocr c) (ocr c) = true).
  { unfold OCRSettings_eq.
    rewrite opt_eq_refl, !bool_eqb_refl, strs_eq_refl. reflexivity. }
  assert (H5 : AudioSettings_eq (audio c) (audio c) = true).
  { unfold AudioSettings_eq. rewrite py_eqb_refl, !bool_eqb_refl.
    reflexivity. }
  assert (H6 : ServerSettings_eq (server c) (server c) = true).
  { unfold ServerSettings_eq.
    rewrite py_eqb_refl, opt_eq_refl, bool_eqb_refl, Z.eqb_refl.
    reflexivity. }
  assert (H7 : ConversionOptions_eq (conversion c) (conversion c) = true).
  { unfold ConversionOptions_eq. rewrite !bool_eqb_refl. reflexivity. }
  repeat (split; [assumption|]).
  unfold MarkItDownConfig_eq. rewrite H1, Hl, H3, H4, H5, H6, H7.
  destruct (PrimFloat.is_nan (temperature (llm c))); reflexivity.
Qed.

(** Induction over JSON values, through the lists and the objects. *)
Lemma json_ind' (P : json -> Prop) :
  P JNull ->
  (forall b, P (JBool b)) ->
  (forall z, P (JInt z)) ->
  (forall f, P (JFloat f)) ->
  (forall s, P (JStr s)) ->
  (forall l, Forall P l -> P (JList l)) ->
  (forall ms, Forall (fun kv => P (snd kv)) ms -> P (JObj ms)) ->
  forall j, P j.
Proof.
  intros H0 H1 H2 H3 H4 H5 H6. fix IH 1.
  intros [| b | z | f | s | l | ms].
  - exact H0.
  - apply H1.
  - apply H2.
  - apply H3.
  - apply H4.
  - apply H5. induction l as [|x l IHl]; constructor; [apply IH|exact IHl].
  - apply H6. induction ms as [|[k x] ms IHl]; constructor;
      [apply IH|exact IHl].
Qed.

(** What [json.dump] has written, [json.load] reads. *)
Lemma dump_error_loadable (j : json) : dump_error j = None -> loadable j = true.
Proof.
  induction j as [| b | z | f | x | l IH | ms IH] using json_ind'.
  all: cbn [dump_error loadable]; try reflexivity.
  - destruct (Nat.ltb_spec int_max_str_digits (decimal_digits z)) as [Hlt|Hle];
      [discriminate|]. intros _. apply Nat.leb_le. exact Hle.
  - induction l as [|x l IHl]; cbn [fold_right forallb]; [reflexivity|].
    apply Forall_cons_1 in IH as [Hx Hl].
    destruct (dump_error x); [discriminate|]. cbn [or_else].
    intros H. rewrite (Hx eq_refl). exact (IHl Hl H).
  - induction ms as [|[k x] ms IHl]; cbn [fold_right forallb]; [reflexivity|].
    apply Forall_cons_1 in IH as [Hx Hl]. cbn [snd] in Hx |- *.
    destruct (dump_error x); [discriminate|]. cbn [or_else].
    intros H. rewrite (Hx eq_refl). exact (IHl Hl H).
Qed.

(** C7: when none of the environment variables that override settings
    is set and [save_config] returns, a [ConfigManager] made on the path
    that was written holds the values that were saved.  Every field of
    every section is equal to the saved one under [==] but for one case:
    a temperature that is a NaN is read back as a NaN, which is not
    equal to itself.  So the configuration reloaded is equal to the saved
    one when the temperature is a number, and the temperature is the one
    field that can differ. *)
Theorem save_then_reload_config
  (c : MarkItDownConfig) (own_path path : str) (w w' : world) :
  path <> [] ->
  Forall (fun v => env w v = None) override_variables ->
  save_config {| config_path := own_path; config := c |} (Some path) w
  = (w', Return tt) ->
  exists m,
    __init__ (Some path) w' = Return m
    /\ config_path m = path
    /\ config m = c
    /\ ConverterSettings_eq (converters (config m)) (converters c) = true
    /\ AzureSettings_eq (azure (config m)) (azure c) = true
    /\ OCRSettings_eq (ocr (config m)) (ocr c) = true
    /\ AudioSettings_eq (audio (config m)) (audio c) = true
    /\ ServerSettings_eq (server (config m)) (server c) = true
    /\ ConversionOptions_eq (conversion (config m)) (conversion c) = true
    /\ opt_eq (openai_api_key (llm (config m))) (openai_api_key (llm c)) = true
    /\ Py.eqb (llm_model (llm (config m))) (llm_model (llm c)) = true
    /\ (max_tokens (llm (config m)) =? max_tokens (llm c))%Z = true
    /\ float_eq (temperature (llm (config m))) (temperature (llm c))
       = negb (PrimFloat.is_nan (temperature (llm c)))
    /\ (PrimFloat.is_nan (temperature (llm c)) = false ->
        LLMSettings_eq (llm (config m)) (llm c) = true
        /\ MarkItDownConfig_eq (config m) c = true).
Proof.
  intros Hpath Henv Hsave.
  unfold save_config in Hsave. cbn [config config_path] in Hsave.
  destruct path as [|ch path]; [congruence|].
  destruct (dump_error (asdict c)) eqn:Hdump; [discriminate|].
  injection Hsave as <-.
  exists {| config_path := ch :: path; config := c |}.
  assert (Hinit : __init__ (Some (ch :: path))
                    (write_file (ch :: path) (FJson (asdict c)) w)
                  = Return {| config_path := ch :: path; config := c |}).
  { unfold __init__, _resolve_config_path, _load_config, write_file.
    simpl files. rewrite lookup_insert_eq.
    destruct (dict_to_config_asdict c) as (data & Hd & Hb).
    pose proof (dump_error_loadable _ Hdump) as Hload.
    rewrite Hd in Hload |- *. rewrite Hload, Hb. simpl env.
    rewrite load_from_environment_unset by exact Henv. reflexivity. }
  destruct (config_eq_self c) as (H1 & H3 & H4 & H5 & H6 & H7 & Hl & Hc).
  split; [exact Hinit|]. simpl config. simpl config_path.
  split; [reflexivity|]. split; [reflexivity|].
  repeat (split; [assumption|]).
  split; [apply opt_eq_refl|]. split; [apply py_eqb_refl|].
  split; [apply Z.eqb_refl|]. split; [apply float_eq_self|].
  intros Hnan. rewrite Hl, Hc, Hnan. split; reflexivity.
Qed.

(** The theorem on a configuration that differs from the default in
    every section. *)
Lemma save_then_reload_config_witness :
  exists m,
    __init__ (Some config_file)
      (write_file config_file (FJson (asdict custom_config)) bare_world)
    = Return m
    /\ config_path m = config_file
    /\ config m = custom_config
    /\ MarkItDownConfig_eq (config m) custom_config = true.
Proof.
  destruct (save_then_reload_config custom_config
              (lit "markitdown_config.json") config_file bare_world
              (write_file config_file (FJson (asdict custom_config))
                 bare_world))
    as (m & Hi & Hp & Hc & _ & _ & _ & _ & _ & _ & _ & _ & _ & _ & He).
  - discriminate.
  - repeat constructor.
  - reflexivity.
  - exists m. split; [exact Hi|]. split; [exact Hp|]. split; [exact Hc|].
    apply He. reflexivity.
Defined.

(** The claim as it was made fails on a configuration whose temperature
    is a NaN: [save_config] returns, the [ConfigManager] made on the path
    holds a NaN again, and the temperature read is not equal to the one
    saved, nor is the configuration. *)
Lemma reloaded_nan_differs_counterexample :
  Forall (fun v => env bare_world v = None) override_variables
  /\ save_config {| config_path := lit "markitdown_config.json";
                    config := nan_config |} (Some config_file) bare_world
     = (write_file config_file (FJson (asdict nan_config)) bare_world,
        Return tt)
  /\ exists m,
       __init__ (Some config_file)
         (write_file config_file (FJson (asdict nan_config)) bare_world)
       = Return m
       /\ float_eq (temperature (llm (config m)))
            (temperature (llm nan_config)) = false
       /\ LLMSettings_eq (llm (config m)) (llm nan_config) = false
       /\ MarkItDownConfig_eq (config m) nan_config = false.
Proof.
  split; [repeat constructor|]. split; [reflexivity|].
  eexists. split; [reflexivity|]. repeat split.
Qed.

End ConfigFacts.

(* ================================================================== *)
(** * The matcher on the patterns of [normalize_whitespace] *)
(* ================================================================== *)

Section EngineFacts.
Import Py Re Props.

Lemma adv_rest_cons n st c r :
  rest st = c :: r -> adv (S n) st = adv n (advance c r st).
Proof. intros H. simpl. rewrite H. reflexivity. Qed.

Lemma step_ext (f g : char -> bool) st k :
  (forall c, f c = g c) -> step f st k = step g st k.
Proof.
  intros H. unfold step. destruct (rest st) as [|c r]; [reflexivity|].
  rewrite H. reflexivity.
Qed.

(** A greedy repetition of single characters, followed by [k]. *)
Lemma rep_loop_chars
  (body : mstate -> (mstate -> option mstate) -> option mstate)
  (f : char -> bool) (lo : nat) (kl : str -> option nat)
  (k : mstate -> option mstate) :
  (forall st k', body st k' = step f st k') ->
  (forall st, k st = option_map (fun n => adv n st) (kl (rest st))) ->
  forall (l : str) (fuel cnt : nat) (last : option nat) (st : mstate),
    rest st = l ->
    length l + (lo - cnt) < fuel ->
    match last with Some p => p < pos st | None => True end ->
    rep_loop body lo None k fuel cnt last st
    = option_map (fun n => adv n st) (glen f lo kl cnt l).
Proof.
  intros Hbody Hk. induction l as [|c r IH]; intros fuel cnt last st Hrest Hfuel Hlast.
  - destruct fuel as [|fuel]; [lia|]. simpl.
    rewrite !Hbody. unfold step. rewrite Hrest.
    destruct (Nat.ltb_spec cnt lo) as [Hlt|Hge].
    + destruct (Nat.leb_spec lo cnt); [lia|]. reflexivity.
    + destruct (Nat.leb_spec lo cnt); [|lia].
      destruct (negb (same_pos last st)); simpl; rewrite Hk, Hrest; reflexivity.
  - destruct fuel as [|fuel]; [simpl in Hfuel; lia|]. simpl in Hfuel. simpl.
    rewrite !Hbody. unfold step. rewrite Hrest.
    assert (Hsame : same_pos last st = false).
    { destruct last as [p|]; simpl; [|reflexivity].
      apply Nat.eqb_neq. lia. }
    rewrite Hsame. simpl negb.
    destruct (Nat.ltb_spec cnt lo) as [Hlt|Hge].
    + destruct (Nat.leb_spec lo cnt); [lia|].
      destruct (f c); [|reflexivity].
      rewrite (IH fuel (S cnt) last (advance c r st)); simpl; try reflexivity.
      * destruct (glen f lo kl (S cnt) r); simpl; [|reflexivity].
        rewrite Hrest. reflexivity.
      * lia.
      * destruct last; [lia|exact I].
    + destruct (Nat.leb_spec lo cnt); [|lia].
      destruct (f c); simpl.
      * rewrite (IH fuel (S cnt) (Some (pos st)) (advance c r st)); simpl;
          try reflexivity; try lia.
        destruct (glen f lo kl (S cnt) r); simpl.
        -- rewrite Hrest. reflexivity.
        -- rewrite Hk, Hrest. reflexivity.
      * rewrite Hk, Hrest. reflexivity.
Qed.

Lemma mt_repeat_chars (fl : flags) (rb : regex) (f : char -> bool)
  (lo : nat) (kl : str -> option nat) (k : mstate -> option mstate) :
  (forall st k', mt fl rb st k' = step f st k') ->
  (forall st, k st = option_map (fun n => adv n st) (kl (rest st))) ->
  forall st,
    mt fl (Repeat lo None rb) st k
    = option_map (fun n => adv n st) (glen f lo kl 0 (rest st)).
Proof.
  intros Hb Hk st. simpl.
  apply (rep_loop_chars _ f lo kl k Hb Hk (rest st)); [reflexivity|lia|exact I].
Qed.

Lemma mt_newline_then (kl : str -> option nat)
  (k : mstate -> option mstate) :
  (forall st, k st = option_map (fun n => adv n st) (kl (rest st))) ->
  forall st,
    step (fun x => (x =? 10)%N) st k
    = option_map (fun n => adv n st) (after_nl kl (rest st)).
Proof.
  intros Hk st. unfold step, after_nl.
  destruct (rest st) as [|c r] eqn:E; [reflexivity|].
  change NL with 10%N. destruct (c =? 10)%N; [|reflexivity].
  rewrite Hk. simpl. destruct (kl r); simpl; [|reflexivity].
  rewrite E. reflexivity.
Qed.

Lemma some_is_no_more (st : mstate) :
  Some st = option_map (fun n => adv n st) (no_more (rest st)).
Proof. reflexivity. Qed.

Lemma space_set_mem (c : char) :
  set_mem false [SCat false CatSpace] c = isspace c.
Proof. unfold set_mem. simpl. destruct (isspace c); reflexivity. Qed.

Lemma blank_set_mem (c : char) :
  set_mem false [SLit 32%N; SLit 9%N] c = blank c.
Proof.
  unfold set_mem, blank. simpl. change SP with 32%N. change TAB with 9%N.
  destruct (c =? 32)%N, (c =? 9)%N; reflexivity.
Qed.

(** The two patterns of [normalize_whitespace], compiled. *)
Lemma blanks_compiled :
  compile (lit "[ \t]+") = Ok (Repeat 1 None (InSet false [SLit 32%N; SLit 9%N])).
Proof. vm_compute. reflexivity. Qed.

Lemma blank_lines_compiled :
  compile (lit "\n\s*\n\s*\n+")
  = Ok (Seq (Lit 10%N)
          (Seq (Repeat 0 None (InSet false [SCat false CatSpace]))
             (Seq (Lit 10%N)
                (Seq (Repeat 0 None (InSet false [SCat false CatSpace]))
                   (Repeat 1 None (Lit 10%N)))))).
Proof. vm_compute. reflexivity. Qed.

Lemma mt_blanks (st : mstate) :
  mt NOFLAGS (Repeat 1 None (InSet false [SLit 32%N; SLit 9%N])) st Some
  = option_map (fun n => adv n st) (blanks_len (rest st)).
Proof.
  apply (mt_repeat_chars NOFLAGS _ blank 1 no_more Some).
  - intros st' k'. simpl. apply step_ext. exact blank_set_mem.
  - exact some_is_no_more.
Qed.

Lemma mt_blank_lines (st : mstate) :
  mt NOFLAGS
    (Seq (Lit 10%N)
       (Seq (Repeat 0 None (InSet false [SCat false CatSpace]))
          (Seq (Lit 10%N)
             (Seq (Repeat 0 None (InSet false [SCat false CatSpace]))
                (Repeat 1 None (Lit 10%N)))))) st Some
  = option_map (fun n => adv n st) (blank_lines_len (rest st)).
Proof.
  assert (Hws : forall st' k',
             mt NOFLAGS (InSet false [SCat false CatSpace]) st' k'
             = step isspace st' k').
  { intros st' k'. simpl. apply step_ext. exact space_set_mem. }
  assert (Hnl : forall st' k',
             mt NOFLAGS (Lit 10%N) st' k' = step is_nl st' k').
  { intros st' k'. reflexivity. }
  unfold blank_lines_len.
  change (mt NOFLAGS (Seq (Lit 10%N) ?r) st Some)
    with (step (fun x => (x =? 10)%N) st (fun st1 => mt NOFLAGS r st1 Some)).
  apply mt_newline_then. intros st1.
  change (mt NOFLAGS (Seq (Repeat 0 None ?a) ?r) st1 Some)
    with (mt NOFLAGS (Repeat 0 None a) st1 (fun st2 => mt NOFLAGS r st2 Some)).
  apply (mt_repeat_chars NOFLAGS _ isspace 0 _ _ Hws). intros st2.
  change (mt NOFLAGS (Seq (Lit 10%N) ?r) st2 Some)
    with (step (fun x => (x =? 10)%N) st2 (fun st3 => mt NOFLAGS r st3 Some)).
  apply mt_newline_then. intros st3.
  change (mt NOFLAGS (Seq (Repeat 0 None ?a) ?r) st3 Some)
    with (mt NOFLAGS (Repeat 0 None a) st3 (fun st4 => mt NOFLAGS r st4 Some)).
  apply (mt_repeat_chars NOFLAGS _ isspace 0 _ _ Hws). intros st4.
  apply (mt_repeat_chars NOFLAGS _ is_nl 1 no_more Some Hnl).
  exact some_is_no_more.
Qed.

Lemma caps_adv n st : caps (adv n st) = caps st.
Proof.
  revert st. induction n as [|n IH]; intros st; simpl; [reflexivity|].
  destruct (rest st); [reflexivity|]. rewrite IH. reflexivity.
Qed.

Lemma pos_adv n st : n <= length (rest st) -> pos (adv n st) = pos st + n.
Proof.
  revert st. induction n as [|n IH]; intros st H; simpl; [lia|].
  destruct (rest st) as [|c r] eqn:E; simpl in H; [lia|].
  rewrite IH; simpl; lia.
Qed.

Lemma glen_le f lo kl cnt rest0 n :
  (forall v m, kl v = Some m -> m <= length v) ->
  glen f lo kl cnt rest0 = Some n -> n <= length rest0.
Proof.
  intros Hkl. revert cnt n. induction rest0 as [|c r IH]; intros cnt n H; simpl in H.
  - destruct (lo <=? cnt); [|discriminate]. apply Hkl in H. exact H.
  - destruct (f c).
    + destruct (glen f lo kl (S cnt) r) as [m|] eqn:E.
      * injection H as <-. apply IH in E. simpl. lia.
      * destruct (lo <=? cnt); [|discriminate]. apply Hkl in H. exact H.
    + destruct (lo <=? cnt); [|discriminate]. apply Hkl in H. exact H.
Qed.

Lemma glen_ge f lo kl cnt rest0 n :
  glen f lo kl cnt rest0 = Some n -> lo <= cnt + n.
Proof.
  revert cnt n. induction rest0 as [|c r IH]; intros cnt n H; simpl in H.
  - destruct (Nat.leb_spec lo cnt); [lia|discriminate].
  - destruct (f c).
    + destruct (glen f lo kl (S cnt) r) as [m|] eqn:E.
      * injection H as <-. apply IH in E. lia.
      * destruct (Nat.leb_spec lo cnt); [lia|discriminate].
    + destruct (Nat.leb_spec lo cnt); [lia|discriminate].
Qed.

Lemma after_nl_le kl v n :
  (forall u m, kl u = Some m -> m <= length u) ->
  after_nl kl v = Some n -> 1 <= n <= length v.
Proof.
  intros Hkl H. unfold after_nl in H. destruct v as [|c v]; [discriminate|].
  destruct (c =? NL)%N; [|discriminate].
  destruct (kl v) as [m|] eqn:E; [|discriminate].
  injection H as <-. apply Hkl in E. simpl. lia.
Qed.

Lemma no_more_le v m : no_more v = Some m -> m <= length v.
Proof. intros H. injection H as <-. lia. Qed.

Lemma blanks_len_bounds s n : blanks_len s = Some n -> 1 <= n <= length s.
Proof.
  intros H. split.
  - apply glen_ge in H. lia.
  - eapply glen_le; [|exact H]. exact no_more_le.
Qed.

Lemma blank_lines_len_bounds s n :
  blank_lines_len s = Some n -> 1 <= n <= length s.
Proof.
  apply after_nl_le. intros u m Hu.
  eapply glen_le; [|exact Hu]. intros u1 m1 Hu1.
  apply after_nl_le in Hu1; [lia|].
  intros u2 m2 Hu2. eapply glen_le; [|exact Hu2].
  intros u3 m3 Hu3. eapply glen_le; [|exact Hu3]. exact no_more_le.
Qed.

Section Plumbing.
Variable r : regex.
Variable ml : str -> option nat.
Hypothesis Hm : forall st,
    mt NOFLAGS r st Some = option_map (fun n => adv n st) (ml (rest st)).
Hypothesis Hb : forall s n, ml s = Some n -> 1 <= n <= length s.

Lemma match_at_len p pv s :
  match_at NOFLAGS r false {| pos := p; prev := pv; rest := s; caps := [] |}
  = match ml s with
    | Some n => Some {| m_start := p; m_end := p + n; m_groups := [] |}
    | None => None
    end.
Proof using Hm Hb.
  unfold match_at. simpl andb. cbv iota.
  change (fun st' : mstate => Some st') with (@Some mstate).
  rewrite Hm. simpl rest.
  destruct (ml s) as [n|] eqn:E; simpl; [|reflexivity].
  rewrite caps_adv, pos_adv; simpl; [reflexivity|].
  apply Hb in E. lia.
Qed.

Lemma search_from_first s : forall p pv,
  search_from NOFLAGS r false p pv s
  = match find_first ml s with
    | Some (d, n) =>
        Some {| m_start := p + d; m_end := p + d + n; m_groups := [] |}
    | None => None
    end.
Proof using Hm Hb.
  induction s as [|c s IH]; intros p pv; simpl; rewrite match_at_len.
  - destruct (ml []); [|reflexivity]. rewrite Nat.add_0_r. reflexivity.
  - destruct (ml (c :: s)).
    + rewrite Nat.add_0_r. reflexivity.
    + rewrite IH. destruct (find_first ml s) as [[d n]|]; [|reflexivity].
      replace (S p + d) with (p + S d) by lia. reflexivity.
Qed.

Lemma find_first_bounds s d n :
  find_first ml s = Some (d, n) -> 1 <= n /\ d + n <= length s.
Proof using Hb.
  revert d n. induction s as [|c s IH]; intros d n H; simpl in H.
  - destruct (ml []) eqn:E; [|discriminate]. injection H as <- <-.
    apply Hb in E. simpl in *. lia.
  - destruct (ml (c :: s)) eqn:E.
    + injection H as <- <-. apply Hb in E. simpl in *. lia.
    + destruct (find_first ml s) as [[d' n']|]; [|discriminate].
      injection H as <- <-. destruct (IH d' n' eq_refl). simpl. lia.
Qed.

Lemma gsub_skip repl k s :
  k <= length s -> gsub ml repl k s = gsub ml repl 0 (skipn k s).
Proof.
  revert k. induction s as [|c s IH]; intros k H.
  - destruct k; reflexivity.
  - destruct k as [|k]; [reflexivity|]. simpl in H. simpl. apply IH. lia.
Qed.

Lemma gsub_unfold repl s :
  gsub ml repl 0 s
  = match ml s with
    | Some n => repl ++ gsub ml repl 0 (skipn n s)
    | None =>
        match s with
        | [] => []
        | c :: s' => c :: gsub ml repl 0 s'
        end
    end.
Proof using Hb.
  destruct s as [|c s]; simpl.
  - destruct (ml []) eqn:E; [|reflexivity]. apply Hb in E. simpl in E. lia.
  - destruct (ml (c :: s)) as [n|] eqn:E; [|reflexivity].
    apply Hb in E. simpl in E. destruct n as [|n]; [lia|].
    simpl. rewrite Nat.sub_0_r. rewrite gsub_skip by lia. reflexivity.
Qed.

Lemma gsub_first repl s :
  gsub ml repl 0 s
  = match find_first ml s with
    | Some (d, n) => firstn d s ++ repl ++ gsub ml repl 0 (skipn (d + n) s)
    | None => s
    end.
Proof using Hb.
  induction s as [|c s IH].
  - rewrite gsub_unfold. simpl. destruct (ml []) eqn:E; [|reflexivity].
    reflexivity.
  - rewrite gsub_unfold. simpl find_first.
    destruct (ml (c :: s)) as [n|] eqn:E; [reflexivity|].
    rewrite IH. destruct (find_first ml s) as [[d n]|]; reflexivity.
Qed.

Lemma expand_chars s0 m repl : expand s0 m (List.map TChar repl) = repl.
Proof.
  unfold expand. induction repl as [|c repl IH]; simpl; [reflexivity|].
  rewrite IH. reflexivity.
Qed.

Lemma substitute_scan repl s0 : forall fuel p pv,
  p <= length s0 ->
  length (skipn p s0) < fuel ->
  substitute s0 (List.map TChar repl) p
    (scan fuel NOFLAGS r false p pv (skipn p s0))
  = gsub ml repl 0 (skipn p s0).
Proof using Hm Hb.
  induction fuel as [|fuel IH]; intros p pv Hp Hfuel; [lia|].
  simpl scan. rewrite search_from_first, gsub_first.
  destruct (find_first ml (skipn p s0)) as [[d n]|] eqn:E; [|reflexivity].
  apply find_first_bounds in E as [Hn Hdn]. simpl.
  replace (p + d + n - p) with (d + n) by lia.
  replace (p + d + n =? p + d) with false
    by (symmetry; apply Nat.eqb_neq; lia).
  rewrite expand_chars.
  unfold slice. replace (p + d - p) with d by lia.
  f_equal. f_equal.
  rewrite List.skipn_skipn.
  replace (d + n + p) with (p + d + n) by lia.
  apply IH.
  - rewrite List.length_skipn in Hdn. lia.
  - rewrite List.length_skipn in *. lia.
Qed.

Lemma sub_by_lengths pattern repl repl' s :
  compile pattern = Ok r ->
  parse_template (S (length repl)) repl = Ok (List.map TChar repl') ->
  sub NOFLAGS pattern repl s = Ok (gsub ml repl' 0 s).
Proof using Hm Hb.
  intros Hc Ht. unfold sub. rewrite Hc, Ht. f_equal.
  unfold finditer.
  apply (substitute_scan repl' s (2 * length s + 2) 0 None).
  - lia.
  - change (skipn 0 s) with s. lia.
Qed.

End Plumbing.

End EngineFacts.

Section LengthFacts.
Import Py Re Props.

Lemma space_not_nl c : isspace c = false -> (c =? NL)%N = false.
Proof.
  intros H. destruct (N.eqb_spec c NL) as [->|]; [|reflexivity].
  vm_compute in H. discriminate.
Qed.

Lemma nl_is_space c : (c =? NL)%N = true -> isspace c = true.
Proof. intros H. apply N.eqb_eq in H. subst. reflexivity. Qed.

(** At the head of white space without a newline, [\n+] after [\s*]
    finds nothing; otherwise it ends after the last newline. *)
Lemma newlines_after_spaces u : forall cnt,
  (nlc u = 0 -> glen isspace 0 (glen is_nl 1 no_more 0) cnt u = None)
  /\ (1 <= nlc u ->
      exists m, glen isspace 0 (glen is_nl 1 no_more 0) cnt u = Some m
                /\ nlc (skipn m u) = 0).
Proof.
  induction u as [|c r IH]; intros cnt.
  - split; [reflexivity|]. simpl. lia.
  - simpl.
    destruct (isspace c) eqn:Ews.
    + destruct (IH (S cnt)) as [IH0 IH1].
      destruct (c =? NL)%N eqn:Enl;
        (assert (Hc : is_nl c = (c =? NL)%N) by reflexivity);
        rewrite Hc, Enl.
      * split; [simpl; lia|]. intros _.
        destruct (Nat.eq_dec (nlc r) 0) as [Hz|Hnz].
        -- rewrite (IH0 Hz).
           assert (Hone : glen is_nl 1 no_more 1 r = Some 0).
           { destruct r as [|d r']; [reflexivity|]. simpl. unfold is_nl.
             destruct (d =? NL)%N eqn:Ed; [|reflexivity].
             simpl in Hz. rewrite (nl_is_space _ Ed), Ed in Hz. simpl in Hz. lia. }
           rewrite Hone. exists 1. split; [reflexivity|]. exact Hz.
        -- destruct IH1 as (m & Hm & Hs); [lia|]. rewrite Hm.
           exists (S m). split; [reflexivity|]. exact Hs.
      * simpl. split.
        -- intros Hz. rewrite (proj1 (IH (S cnt)) Hz). reflexivity.
        -- intros H1. destruct IH1 as (m & Hm & Hs); [lia|]. rewrite Hm.
           exists (S m). split; [reflexivity|]. exact Hs.
    + assert (Hc : is_nl c = (c =? NL)%N) by reflexivity.
      rewrite Hc, (space_not_nl _ Ews). split; [reflexivity|]. lia.
Qed.

Lemma blank_line_after_spaces u : forall cnt,
  (nlc u <= 1 ->
   glen isspace 0 (after_nl (glen isspace 0 (glen is_nl 1 no_more 0) 0)) cnt u
   = None)
  /\ (2 <= nlc u ->
      exists m,
        glen isspace 0 (after_nl (glen isspace 0 (glen is_nl 1 no_more 0) 0)) cnt u
        = Some m
        /\ nlc (skipn m u) = 0).
Proof.
  induction u as [|c r IH]; intros cnt.
  - split; [reflexivity|]. simpl. lia.
  - simpl.
    destruct (isspace c) eqn:Ews.
    + destruct (IH (S cnt)) as [IH0 IH1].
      destruct (newlines_after_spaces r 0) as [N0 N1].
      destruct (c =? NL)%N eqn:Enl.
      * split.
        -- intros Hle. rewrite IH0 by (simpl in Hle; lia).
           rewrite N0 by (simpl in Hle; lia). reflexivity.
        -- intros Hge.
           destruct (Nat.le_gt_cases 2 (nlc r)) as [H2|H2].
           ++ destruct (IH1 H2) as (m & Hm & Hs). rewrite Hm.
              exists (S m). split; [reflexivity|]. exact Hs.
           ++ rewrite IH0 by lia.
              destruct N1 as (m & Hm & Hs); [simpl in Hge; lia|].
              rewrite Hm. exists (S m). split; [reflexivity|]. exact Hs.
      * simpl. split.
        -- intros Hle. rewrite IH0 by exact Hle. reflexivity.
        -- intros Hge. destruct (IH1 Hge) as (m & Hm & Hs). rewrite Hm.
           exists (S m). split; [reflexivity|]. exact Hs.
    + rewrite (space_not_nl _ Ews). split; [reflexivity|]. lia.
Qed.

Lemma blank_lines_len_some s n :
  blank_lines_len s = Some n ->
  exists s', s = NL :: s' /\ 2 <= nlc s' /\ nlc (skipn n s) = 0.
Proof.
  unfold blank_lines_len, after_nl at 1. intros H.
  destruct s as [|c s']; [discriminate|].
  destruct (N.eqb_spec c NL) as [->|]; [|discriminate].
  exists s'. split; [reflexivity|].
  destruct (blank_line_after_spaces s' 0) as [B0 B1].
  destruct (Nat.le_gt_cases 2 (nlc s')) as [H2|H2].
  - split; [exact H2|]. destruct (B1 H2) as (m & Hm & Hs).
    rewrite Hm in H. injection H as <-. exact Hs.
  - rewrite B0 in H by lia. discriminate.
Qed.

Lemma blank_lines_len_none s' :
  blank_lines_len (NL :: s') = None -> nlc s' <= 1.
Proof.
  unfold blank_lines_len, after_nl at 1. rewrite N.eqb_refl. intros H.
  destruct (Nat.le_gt_cases 2 (nlc s')) as [H2|H2]; [|lia].
  destruct (proj2 (blank_line_after_spaces s' 0) H2) as (m & Hm & _).
  rewrite Hm in H. discriminate.
Qed.

Lemma blank_lines_len_calm s : nlc s <= 2 -> blank_lines_len s = None.
Proof.
  intros H. destruct (blank_lines_len s) as [n|] eqn:E; [|reflexivity].
  apply blank_lines_len_some in E as (s' & -> & H2 & _).
  simpl in H. lia.
Qed.

(** A run of characters satisfying [f], once the lower bound is
    reached, stops before the first character that does not satisfy
    [f]. *)
Lemma run_to_the_end (f : char -> bool) lo s : forall cnt,
  lo <= cnt ->
  exists n, glen f lo no_more cnt s = Some n
            /\ match skipn n s with d :: _ => f d = false | [] => True end.
Proof.
  induction s as [|c r IH]; intros cnt Hle; simpl.
  - destruct (Nat.leb_spec lo cnt); [|lia]. exists 0. split; [reflexivity|exact I].
  - destruct (f c) eqn:E.
    + destruct (IH (S cnt)) as (n & Hn & Hs); [lia|]. rewrite Hn.
      exists (S n). split; [reflexivity|exact Hs].
    + destruct (Nat.leb_spec lo cnt); [|lia]. exists 0.
      split; [reflexivity|]. exact E.
Qed.

Lemma blanks_len_some s n :
  blanks_len s = Some n ->
  match skipn n s with d :: _ => blank d = false | [] => True end.
Proof.
  unfold blanks_len. destruct s as [|c r]; simpl; [discriminate|].
  destruct (blank c); [|discriminate].
  destruct (run_to_the_end blank 1 r 1) as (m & Hm & Hs); [lia|].
  rewrite Hm. intros H. injection H as <-. exact Hs.
Qed.

Lemma blanks_len_none s :
  blanks_len s = None -> match s with c :: _ => blank c = false | [] => True end.
Proof.
  unfold blanks_len. destruct s as [|c r]; simpl; [easy|].
  destruct (blank c); [|reflexivity].
  destruct (run_to_the_end blank 1 r 1) as (m & Hm & _); [lia|].
  rewrite Hm. discriminate.
Qed.

Lemma blanks_len_not_blank c r : blank c = false -> blanks_len (c :: r) = None.
Proof. intros H. unfold blanks_len. simpl. rewrite H. reflexivity. Qed.

Lemma blanks_len_single c r :
  blank c = true ->
  match r with d :: _ => blank d = false | [] => True end ->
  blanks_len (c :: r) = Some 1.
Proof.
  intros Hc Hr. unfold blanks_len. simpl. rewrite Hc.
  destruct r as [|d r']; [reflexivity|]. simpl. rewrite Hr. reflexivity.
Qed.

End LengthFacts.

Section NormalizeFacts.
Import Py Re Props FormatUtils.

Lemma collapse_unfold s :
  collapse_blanks s
  = match blanks_len s with
    | Some n => [SP] ++ collapse_blanks (skipn n s)
    | None => match s with [] => [] | c :: s' => c :: collapse_blanks s' end
    end.
Proof. apply gsub_unfold. exact blanks_len_bounds. Qed.

Lemma squeeze_unfold s :
  squeeze_blank_lines s
  = match blank_lines_len s with
    | Some n => [NL; NL] ++ squeeze_blank_lines (skipn n s)
    | None =>
        match s with [] => [] | c :: s' => c :: squeeze_blank_lines s' end
    end.
Proof. apply gsub_unfold. exact blank_lines_len_bounds. Qed.

(** [normalize_whitespace] never raises, and what it computes. *)
Lemma normalize_whitespace_direct (text : str) :
  normalize_whitespace text
  = Ok (match text with
        | [] => []
        | _ => strip (squeeze_blank_lines (collapse_blanks text))
        end).
Proof.
  unfold normalize_whitespace. destruct text as [|c text]; [reflexivity|].
  rewrite (sub_by_lengths _ blanks_len mt_blanks blanks_len_bounds
             (lit "[ \t]+") [SP] [SP] _ blanks_compiled eq_refl).
  rewrite (sub_by_lengths _ blank_lines_len mt_blank_lines
             blank_lines_len_bounds (lit "\n\s*\n\s*\n+") [NL; NL] [NL; NL] _
             blank_lines_compiled eq_refl).
  reflexivity.
Qed.

(** ** Induction on the length of a string *)

Lemma length_induction (P : str -> Prop) :
  (forall s, (forall t, length t < length s -> P t) -> P s) ->
  forall s, P s.
Proof.
  intros H s. remember (length s) as n eqn:E. revert s E.
  induction n as [n IH] using lt_wf_ind. intros s ->.
  apply H. intros t Ht. exact (IH _ Ht t eq_refl).
Qed.

(** ** Newlines at the head *)

Lemma nlc_squeeze s : nlc (squeeze_blank_lines s) = Nat.min (nlc s) 2.
Proof.
  induction s as [s IH] using length_induction.
  rewrite squeeze_unfold.
  destruct (blank_lines_len s) as [n|] eqn:E.
  - pose proof (blank_lines_len_bounds _ _ E) as Hn.
    apply blank_lines_len_some in E as (s' & -> & H2 & H0).
    simpl app. change (nlc (NL :: NL :: ?x)) with (S (S (nlc x))).
    rewrite IH by (rewrite List.length_skipn; lia).
    rewrite H0. change (nlc (NL :: s')) with (S (nlc s')). lia.
  - destruct s as [|c s']; [reflexivity|]. simpl.
    destruct (isspace c) eqn:Ews; [|reflexivity].
    rewrite IH by (simpl; lia).
    destruct (N.eqb_spec c NL) as [->|Hne].
    + apply blank_lines_len_none in E. lia.
    + simpl. reflexivity.
Qed.

Lemma calm_squeeze s : calm (squeeze_blank_lines s).
Proof.
  induction s as [s IH] using length_induction.
  pose proof (nlc_squeeze s) as Hn.
  rewrite squeeze_unfold in *.
  destruct (blank_lines_len s) as [n|] eqn:E.
  - pose proof (blank_lines_len_bounds _ _ E) as Hb.
    apply blank_lines_len_some in E as (s' & -> & H2 & H0).
    simpl app in *. split; [lia|].
    split.
    + change (nlc (NL :: ?x)) with (S (nlc x)).
      rewrite nlc_squeeze, H0. simpl. lia.
    + apply IH. rewrite List.length_skipn. lia.
  - destruct s as [|c s']; [exact I|].
    split; [lia|]. apply IH. simpl. lia.
Qed.

Lemma squeeze_calm s : calm s -> squeeze_blank_lines s = s.
Proof.
  induction s as [|c s IH]; intros H; [reflexivity|].
  destruct H as [H1 H2]. rewrite squeeze_unfold.
  rewrite (blank_lines_len_calm _ H1). rewrite (IH H2). reflexivity.
Qed.

Lemma nlc_app_le u v : nlc u <= nlc (u ++ v).
Proof.
  induction u as [|c u IH]; simpl; [lia|].
  destruct (isspace c); lia.
Qed.

Lemma calm_suffix u v : calm (u ++ v) -> calm v.
Proof.
  induction u as [|c u IH]; intros H; [exact H|]. apply IH. exact (proj2 H).
Qed.

Lemma calm_prefix u v : calm (u ++ v) -> calm u.
Proof.
  induction u as [|c u IH]; intros H; [exact I|].
  destruct H as [H1 H2]. split; [|exact (IH H2)].
  pose proof (nlc_app_le (c :: u) v). simpl app in *. lia.
Qed.

Lemma calm_no_three_newlines s : calm s -> ~ infix [NL; NL; NL] s.
Proof.
  intros H (pre & post & ->). apply calm_suffix in H.
  destruct H as [H _]. simpl in H. lia.
Qed.

(** ** Blanks *)

Lemma neat_suffix u v : neat (u ++ v) -> neat v.
Proof.
  induction u as [|c u IH]; intros H; [exact H|]. apply IH. exact (proj2 H).
Qed.

Lemma neat_prefix u v : neat (u ++ v) -> neat u.
Proof.
  induction u as [|c u IH]; intros H; [exact I|].
  destruct H as [H1 H2]. split; [|exact (IH H2)].
  intros Hc. destruct (H1 Hc) as [-> Hnext]. split; [reflexivity|].
  destruct u; [exact I|exact Hnext].
Qed.

Lemma neat_collapse s : neat (collapse_blanks s).
Proof.
  induction s as [s IH] using length_induction.
  rewrite collapse_unfold.
  destruct (blanks_len s) as [n|] eqn:E.
  - pose proof (blanks_len_bounds _ _ E) as Hb.
    apply blanks_len_some in E. simpl app. split.
    + intros _. split; [reflexivity|].
      rewrite collapse_unfold.
      destruct (skipn n s) as [|d r]; [simpl; exact I|].
      rewrite (blanks_len_not_blank _ _ E). exact E.
    + apply IH. rewrite List.length_skipn. lia.
  - apply blanks_len_none in E. destruct s as [|c s']; [exact I|].
    split; [intros Hc; congruence|]. apply IH. simpl. lia.
Qed.

Lemma collapse_neat s : neat s -> collapse_blanks s = s.
Proof.
  induction s as [|c s IH]; intros H; [reflexivity|].
  destruct H as [H1 H2]. rewrite collapse_unfold.
  destruct (blank c) eqn:Ec.
  - destruct (H1 eq_refl) as [-> Hnext].
    rewrite (blanks_len_single SP s Ec Hnext). cbn [app skipn].
    rewrite List.skipn_O, (IH H2). reflexivity.
  - rewrite (blanks_len_not_blank _ _ Ec). rewrite (IH H2). reflexivity.
Qed.

Lemma squeeze_head s :
  match s with d :: _ => blank d = false | [] => True end ->
  match squeeze_blank_lines s with d :: _ => blank d = false | [] => True end.
Proof.
  intros H. rewrite squeeze_unfold.
  destruct (blank_lines_len s); [reflexivity|].
  destruct s; [exact I|exact H].
Qed.

Lemma neat_squeeze s : neat s -> neat (squeeze_blank_lines s).
Proof.
  induction s as [s IH] using length_induction. intros H.
  rewrite squeeze_unfold.
  destruct (blank_lines_len s) as [n|] eqn:E.
  - pose proof (blank_lines_len_bounds _ _ E) as Hb.
    simpl app. split; [intros Hc; discriminate|].
    split; [intros Hc; discriminate|].
    apply IH; [rewrite List.length_skipn; lia|].
    apply (neat_suffix (firstn n s)). rewrite List.firstn_skipn. exact H.
  - destruct s as [|c s']; [exact I|]. destruct H as [H1 H2]. split.
    + intros Hc. destruct (H1 Hc) as [-> Hnext]. split; [reflexivity|].
      apply squeeze_head. exact Hnext.
    + apply IH; [simpl; lia|exact H2].
Qed.

End NormalizeFacts.

Section StripFacts.
Import Py Re Props FormatUtils.

Lemma dropwhile_snoc (f : char -> bool) l c :
  dropwhile f (l ++ [c])
  = match dropwhile f l with
    | [] => if f c then [] else [c]
    | d :: r => (d :: r) ++ [c]
    end.
Proof.
  induction l as [|x l IH]; simpl; [reflexivity|].
  destruct (f x); [exact IH|reflexivity].
Qed.

Lemma dropwhile_head (f : char -> bool) l :
  match dropwhile f l with c :: _ => f c = false | [] => True end.
Proof.
  induction l as [|x l IH]; simpl; [exact I|].
  destruct (f x) eqn:E; [exact IH|exact E].
Qed.

Lemma dropwhile_suffix (f : char -> bool) l :
  exists pre, l = pre ++ dropwhile f l.
Proof.
  induction l as [|x l [pre IH]]; simpl; [exists []; reflexivity|].
  destruct (f x).
  - exists (x :: pre). simpl. congruence.
  - exists []. reflexivity.
Qed.

Lemma rstrip_cons c w :
  rstrip (c :: w)
  = match rstrip w with
    | [] => if isspace c then [] else [c]
    | d :: r => c :: d :: r
    end.
Proof.
  unfold rstrip. simpl rev. rewrite dropwhile_snoc.
  destruct (dropwhile isspace (rev w)) as [|d r].
  - simpl. destruct (isspace c); reflexivity.
  - rewrite rev_app_distr. simpl.
    destruct (rev r ++ [d]) as [|x y] eqn:E; [|reflexivity].
    destruct (rev r); discriminate.
Qed.

Lemma rstrip_prefix w : exists post, w = rstrip w ++ post.
Proof.
  induction w as [|c w [post IH]]; [exists []; reflexivity|].
  rewrite rstrip_cons. destruct (rstrip w) as [|d r].
  - destruct (isspace c).
    + exists (c :: w). reflexivity.
    + exists post. simpl in *. congruence.
  - exists post. simpl in *. congruence.
Qed.

Lemma rstrip_head w :
  match w with c :: _ => isspace c = false | [] => True end ->
  match rstrip w with c :: _ => isspace c = false | [] => True end.
Proof.
  destruct w as [|c w]; [intros _; exact I|]. intros H.
  rewrite rstrip_cons. destruct (rstrip w); [rewrite H|]; exact H.
Qed.

Lemma rstrip_last w c s' : rstrip w = s' ++ [c] -> isspace c = false.
Proof.
  unfold rstrip. intros H.
  apply (f_equal (@rev char)) in H.
  rewrite rev_involutive, rev_app_distr in H. simpl in H.
  pose proof (dropwhile_head isspace (rev w)) as Hh.
  rewrite H in Hh. exact Hh.
Qed.

Lemma rstrip_fixed t :
  (forall c s', t = s' ++ [c] -> isspace c = false) -> rstrip t = t.
Proof.
  induction t as [|c t IH]; intros H; [reflexivity|].
  rewrite rstrip_cons. rewrite IH.
  - destruct t as [|d r]; [|reflexivity].
    rewrite (H c []); reflexivity.
  - intros c0 s0 ->. apply (H c0 (c :: s0)). reflexivity.
Qed.

Lemma trimmed_strip s : trimmed (strip s).
Proof.
  unfold strip, lstrip. split.
  - intros c s' H.
    pose proof (rstrip_head _ (dropwhile_head isspace s)) as Hh.
    rewrite H in Hh. exact Hh.
  - intros c s' H. exact (rstrip_last _ _ _ H).
Qed.

Lemma strip_trimmed t : trimmed t -> strip t = t.
Proof.
  intros [Hh Hl]. unfold strip, lstrip.
  assert (Hd : dropwhile isspace t = t).
  { destruct t as [|c t']; [reflexivity|]. simpl.
    rewrite (Hh c t' eq_refl). reflexivity. }
  rewrite Hd. apply rstrip_fixed. exact Hl.
Qed.

Lemma strip_part s : exists pre post, s = pre ++ strip s ++ post.
Proof.
  unfold strip, lstrip.
  destruct (dropwhile_suffix isspace s) as [pre Hpre].
  destruct (rstrip_prefix (dropwhile isspace s)) as [post Hpost].
  exists pre, post. rewrite <- Hpost. exact Hpre.
Qed.

End StripFacts.

Section NormalizeWhitespace.
Import Py Re Props FormatUtils.

Lemma trimmed_nil : trimmed [].
Proof.
  split; intros c s' H; [discriminate|].
  destruct s'; discriminate.
Qed.

(** C6: [normalize_whitespace] returns a text for every input; applying
    it to that text gives the same text again; the text holds no three
    newline characters in a row; and it neither starts nor ends with
    white space. *)
Theorem normalize_whitespace_idempotent (text : str) :
  exists t,
    normalize_whitespace text = Ok t
    /\ normalize_whitespace t = Ok t
    /\ ~ infix [NL; NL; NL] t
    /\ trimmed t.
Proof.
  rewrite normalize_whitespace_direct.
  destruct text as [|c text].
  - exists []. split; [reflexivity|]. split; [reflexivity|].
    split; [|exact trimmed_nil].
    intros (pre & post & H). destruct pre; discriminate.
  - set (x := c :: text).
    set (t := strip (squeeze_blank_lines (collapse_blanks x))).
    destruct (strip_part (squeeze_blank_lines (collapse_blanks x)))
      as (pre & post & Hparts). fold t in Hparts.
    assert (Hcalm : calm t).
    { pose proof (calm_squeeze (collapse_blanks x)) as H.
      rewrite Hparts in H. apply calm_suffix in H. apply calm_prefix in H.
      exact H. }
    assert (Hneat : neat t).
    { pose proof (neat_squeeze _ (neat_collapse x)) as H.
      rewrite Hparts in H. apply neat_suffix in H. apply neat_prefix in H.
      exact H. }
    assert (Htrim : trimmed t) by apply trimmed_strip.
    exists t. split; [reflexivity|]. split; [|split].
    + rewrite normalize_whitespace_direct. f_equal.
      destruct t as [|d t'] eqn:Et; [reflexivity|]. rewrite <- Et in *.
      rewrite (collapse_neat _ Hneat), (squeeze_calm _ Hcalm).
      apply strip_trimmed. exact Htrim.
    + apply calm_no_three_newlines. exact Hcalm.
    + exact Htrim.
Qed.

End NormalizeWhitespace.

(* ================================================================== *)
(** * Construction of stream descriptors (core/stream_info.py) *)
(* ================================================================== *)

Section PostInitFacts.
Import Py Stream Notions.

Lemma rfind_dot_char (s : str) : forall i found j,
  rfind_dot s i found = Some j ->
  found = Some j \/ (i <= j /\ nth_error s (j - i) = Some 46%N).
Proof.
  induction s as [|c s IH]; intros i found j H; simpl in H.
  - left. exact H.
  - apply IH in H as [H|[Hle Hn]].
    + destruct (N.eqb_spec c 46) as [->|_].
      * injection H as <-. right. split; [lia|].
        replace (i - i) with 0 by lia. reflexivity.
      * left. exact H.
    + right. split; [lia|].
      replace (j - i) with (S (j - S i)) by lia. exact Hn.
Qed.

Lemma skipn_nth_head (s : str) (i : nat) (c : char) :
  nth_error s i = Some c -> exists r, skipn i s = c :: r.
Proof.
  revert i. induction s as [|x s IH]; intros [|i] H; simpl in *;
    try discriminate.
  - injection H as ->. eauto.
  - apply IH. exact H.
Qed.

Lemma path_suffix_dotted (p : str) :
  path_suffix p = [] \/ exists r, path_suffix p = 46%N :: r.
Proof.
  unfold path_suffix.
  destruct (rfind_dot (path_name p) 0 None) as [i|] eqn:E; [|left; reflexivity].
  destruct ((0 <? i) && (i <? length (path_name p) - 1)); [|left; reflexivity].
  apply rfind_dot_char in E as [E|[_ E]]; [discriminate|].
  rewrite Nat.sub_0_r in E. right. eapply skipn_nth_head. exact E.
Qed.

Lemma lower_dotted (s : str) :
  lower s = [] \/ (exists r, lower s = 46%N :: r) ->
  dotted (Some (lower s)).
Proof. intros [->|[r ->]]; simpl; auto. Qed.

Lemma lower_suffix_dotted (p : str) : dotted (Some (lower (path_suffix p))).
Proof.
  destruct (path_suffix_dotted p) as [->|[r ->]]; simpl; auto.
Qed.

Lemma startswith_dot (e : str) :
  startswith (lit ".") e = true -> exists r, e = 46%N :: r.
Proof.
  destruct e as [|c r]; [discriminate|].
  change (startswith (lit ".") (c :: r)) with ((46 =? c)%N && true).
  rewrite andb_true_r. intros H. apply N.eqb_eq in H. subst c. eauto.
Qed.

(** X1: whatever the arguments of the constructor, the extension of the
    descriptor built is absent, empty, or starts with a dot; and building
    a descriptor again from the fields of one that was built changes
    nothing. *)
Theorem post_init_extension_dotted (mt ext cs fn lp u : option str) :
  dotted (extension (make mt ext cs fn lp u))
  /\ __post_init__ (make mt ext cs fn lp u) = make mt ext cs fn lp u.
Proof.
  assert (Hd : forall si, dotted (extension (__post_init__ si))).
  { intros si. unfold __post_init__. cbn [extension].
    destruct (extension si) as [[|c e]|] eqn:Ee; cbn [truthy].
    - destruct (filename si) as [[|d f]|]; simpl; auto.
      apply lower_suffix_dotted.
    - destruct (startswith (lit ".") (c :: e)) eqn:Es.
      + apply startswith_dot in Es as [r Er]. injection Er as -> ->.
        destruct (filename si) as [[|d f]|]; simpl; auto.
      + destruct (filename si) as [[|d f]|]; simpl; auto.
    - destruct (filename si) as [[|d f]|]; simpl; auto.
      apply lower_suffix_dotted. }
  split; [apply Hd|].
  unfold make, __post_init__.
  cbn [mimetype extension charset filename local_path url].
  destruct ext as [[|c e]|], fn as [[|d f]|]; cbn [truthy]; try reflexivity.
  - destruct (path_suffix_dotted (d :: f)) as [->|[r ->]]; reflexivity.
  - destruct (startswith (lit ".") (c :: e)) eqn:Es; cbn [truthy].
    + rewrite Es. reflexivity.
    + reflexivity.
  - destruct (startswith (lit ".") (c :: e)) eqn:Es; cbn [truthy].
    + rewrite Es. reflexivity.
    + reflexivity.
  - destruct (startswith (lit ".") (c :: e)) eqn:Es; cbn [truthy].
    + rewrite Es. reflexivity.
    + reflexivity.
  - destruct (path_suffix_dotted (d :: f)) as [->|[r ->]]; reflexivity.
Qed.

End PostInitFacts.

(* ================================================================== *)
(** * Detection by file name, extension and MIME type
      (utils/file_detector.py) *)
(* ================================================================== *)

Section DetectionFacts.
Import Py Stream Detector Notions.

Lemma lower_char_idem (c : char) : lower_char (lower_char c) = lower_char c.
Proof.
  unfold lower_char, in_range.
  destruct ((65 <=? c)%N && (c <=? 90)%N) eqn:E; [|rewrite E; reflexivity].
  apply andb_true_iff in E as [H1 H2].
  apply N.leb_le in H1, H2.
  replace ((65 <=? c + 32)%N && (c + 32 <=? 90)%N) with false; [reflexivity|].
  symmetry. apply andb_false_iff. right. apply N.leb_gt. lia.
Qed.

Lemma lower_idem (s : str) : lower (lower s) = lower s.
Proof.
  unfold lower. rewrite List.map_map. apply List.map_ext.
  intros c. apply lower_char_idem.
Qed.

Lemma lower_char_dot (c : char) : (46 =? lower_char c)%N = (46 =? c)%N.
Proof.
  unfold lower_char, in_range.
  destruct ((65 <=? c)%N && (c <=? 90)%N) eqn:E; [|reflexivity].
  apply andb_true_iff in E as [H1 H2].
  apply N.leb_le in H1, H2.
  transitivity false; [|symmetry]; apply N.eqb_neq; lia.
Qed.

Lemma startswith_dot_lower (e : str) :
  startswith (lit ".") (lower e) = startswith (lit ".") e.
Proof.
  destruct e as [|c e]; [reflexivity|].
  change (startswith (lit ".") (lower (c :: e)))
    with ((46 =? lower_char c)%N && true).
  change (startswith (lit ".") (c :: e)) with ((46 =? c)%N && true).
  rewrite lower_char_dot. reflexivity.
Qed.

Lemma dict_get_in (k v : str) (d : dict) :
  dict_get k d = Some v -> In (k, v) d.
Proof.
  induction d as [|[k' v'] d IH]; simpl; [discriminate|].
  destruct (Py.eqb k k') eqn:E.
  - intros H. injection H as ->. apply py_eqb_eq in E. subst k'. left.
    reflexivity.
  - intros H. right. apply IH. exact H.
Qed.

Lemma table_extensions_dotted (k v : str) :
  In (k, v) extension_mapping -> exists r, k = 46%N :: r.
Proof.
  intros H.
  assert (Hall : forallb (fun kv => startswith (lit ".") (fst kv))
                   extension_mapping = true) by (vm_compute; reflexivity).
  rewrite forallb_forall in Hall. apply Hall in H. simpl in H.
  apply startswith_dot. exact H.
Qed.

(** X2: [detect_from_extension] answers the same for an extension
    written in upper or lower case, with or without its leading dot; and
    what it answers is a row of the table: the extension as the table
    spells it, the MIME type of that row, and nothing else. *)
Theorem detect_from_extension_normalises (e : str) :
  detect_from_extension (lower e) = detect_from_extension e
  /\ (startswith (lit ".") e = false ->
      detect_from_extension (lit "." ++ e) = detect_from_extension e)
  /\ (forall si,
         detect_from_extension e = Some si ->
         exists ext mime,
           In (ext, mime) extension_mapping
           /\ si = {| mimetype := Some mime; extension := Some ext;
                      charset := None; filename := None;
                      local_path := None; url := None |}).
Proof.
  split; [|split].
  - unfold detect_from_extension.
    rewrite startswith_dot_lower.
    destruct (startswith (lit ".") e).
    + rewrite lower_idem. reflexivity.
    + change (lower (lit "." ++ lower e)) with (46%N :: lower (lower e)).
      rewrite lower_idem. reflexivity.
  - intros Hs. unfold detect_from_extension. rewrite Hs.
    change (startswith (lit ".") (lit "." ++ e)) with ((46 =? 46)%N && true).
    reflexivity.
  - intros si. unfold detect_from_extension.
    set (x := lower (if startswith (lit ".") e then e else lit "." ++ e)).
    destruct (dict_get x extension_mapping) as [mime|] eqn:E; [|discriminate].
    intros H. injection H as <-.
    apply dict_get_in in E.
    exists x, mime. split; [exact E|].
    destruct (table_extensions_dotted _ _ E) as [r ->].
    reflexivity.
Qed.

(** X3: [detect_from_filename] is [detect_from_extension] on the suffix
    of the file name, with the file name kept in the answer. *)
Theorem detect_from_filename_by_suffix (f : str) :
  detect_from_filename f
  = option_map
      (fun si => {| mimetype := mimetype si; extension := extension si;
                    charset := None; filename := Some f;
                    local_path := None; url := None |})
      (detect_from_extension (path_suffix f)).
Proof.
  unfold detect_from_filename, detect_from_extension.
  destruct (path_suffix_dotted f) as [->|[r ->]].
  - vm_compute. reflexivity.
  - change (startswith (lit ".") (46%N :: r)) with ((46 =? 46)%N && true).
    cbn [N.eqb Pos.eqb andb].
    destruct (dict_get (lower (46%N :: r)) extension_mapping) as [mime|];
      [|reflexivity].
    cbn [option_map]. f_equal.
    change (lower (46%N :: r)) with (46%N :: lower r).
    unfold make, __post_init__.
    cbn [mimetype extension charset filename local_path url].
    change (startswith (lit ".") (46%N :: lower r)) with ((46 =? 46)%N && true).
    cbn [N.eqb Pos.eqb andb truthy].
    destruct f; reflexivity.
Qed.

Lemma partial_match_table (m : str) :
  partial_match m mimetype_mapping = major_type_extension m.
Proof.
  unfold major_type_extension.
  destruct (startswith (lit "application") m) eqn:Ea;
    [vm_compute in Ea |- *; rewrite Ea; reflexivity|].
  destruct (startswith (lit "image") m) eqn:Ei.
  { vm_compute in Ea, Ei |- *. rewrite Ea, Ei. reflexivity. }
  destruct (startswith (lit "audio") m) eqn:Eu.
  { vm_compute in Ea, Ei, Eu |- *. rewrite Ea, Ei, Eu. reflexivity. }
  destruct (startswith (lit "text") m) eqn:Et.
  { vm_compute in Ea, Ei, Eu, Et |- *. rewrite Ea, Ei, Eu, Et. reflexivity. }
  destruct (startswith (lit "message") m) eqn:Em.
  { vm_compute in Ea, Ei, Eu, Et, Em |- *.
    rewrite Ea, Ei, Eu, Et, Em. reflexivity. }
  vm_compute in Ea, Ei, Eu, Et, Em |- *.
  rewrite Ea, Ei, Eu, Et, Em. reflexivity.
Qed.

Lemma table_values_not_empty (m e : str) :
  dict_get m mimetype_mapping = Some e -> exists c r, e = c :: r.
Proof.
  intros H. apply dict_get_in in H.
  assert (Hall : forallb (fun kv => match snd kv with [] => false | _ => true end)
                   mimetype_mapping = true) by (vm_compute; reflexivity).
  rewrite forallb_forall in Hall. apply Hall in H. simpl in H.
  destruct e as [|c r]; [discriminate|]. eauto.
Qed.

(** X4: [detect_from_mimetype] always answers, and with the MIME type it
    was given.  For a MIME type of the reverse table the extension is
    the one recorded there; for any other it is decided by the first
    letters alone: [.pdf] for what starts with [application], [.jpeg]
    for [image], [.mp3] for [audio], [.htm] for [text], [.eml] for
    [message], and no extension otherwise. *)
Theorem detect_from_mimetype_answer (m : str) :
  detect_from_mimetype m
  = Some {| mimetype := Some m;
            extension := match dict_get m mimetype_mapping with
                         | Some e => Some e
                         | None => major_type_extension m
                         end;
            charset := None; filename := None; local_path := None;
            url := None |}.
Proof.
  unfold detect_from_mimetype.
  destruct (dict_get m mimetype_mapping) as [e|] eqn:E.
  - destruct (table_values_not_empty _ _ E) as (c & r & ->).
    apply dict_get_in in E.
    assert (Hall : forallb (fun kv => startswith (lit ".") (snd kv))
                     mimetype_mapping = true) by (vm_compute; reflexivity).
    rewrite forallb_forall in Hall. apply Hall in E. cbn [snd] in E.
    apply startswith_dot in E as [r' Er]. injection Er as -> ->.
    reflexivity.
  - rewrite partial_match_table. unfold major_type_extension.
    destruct (startswith (lit "application") m); [reflexivity|].
    destruct (startswith (lit "image") m); [reflexivity|].
    destruct (startswith (lit "audio") m); [reflexivity|].
    destruct (startswith (lit "text") m); [reflexivity|].
    destruct (startswith (lit "message") m); reflexivity.
Qed.

End DetectionFacts.

(* ================================================================== *)
(** * The stream-type guesses (core/markitdown.py) *)
(* ================================================================== *)

Section GuessFacts.
Import Py Stream Detector Engine Notions.

Lemma distinct_snoc (l : list StreamInfo) (x : StreamInfo) :
  distinct l -> not_in x l = true -> distinct (l ++ [x]).
Proof.
  unfold not_in. rewrite negb_true_iff.
  induction l as [|y l IH]; simpl; intros Hd Hn.
  - split; [constructor|exact I].
  - destruct Hd as [Hy Hd]. apply orb_false_iff in Hn as [Hyx Hn].
    split.
    + apply List.Forall_app. split; [exact Hy|].
      constructor; [exact Hyx|constructor].
    + apply IH; assumption.
Qed.

Lemma add_guess_distinct (g : option StreamInfo) (l : list StreamInfo) :
  distinct l -> distinct (add_guess g l).
Proof.
  intros Hd. destruct g as [x|]; simpl; [|exact Hd].
  destruct (not_in x l) eqn:E; [|exact Hd].
  apply distinct_snoc; assumption.
Qed.

Lemma add_guess_length (g : option StreamInfo) (l : list StreamInfo) :
  length l <= length (add_guess g l) <= S (length l).
Proof.
  destruct g as [x|]; simpl; [|lia].
  destruct (not_in x l); [|lia].
  rewrite length_app. simpl. lia.
Qed.

Lemma add_guess_prefix (g : option StreamInfo) (l : list StreamInfo) :
  exists more, add_guess g l = l ++ more.
Proof.
  destruct g as [x|]; simpl.
  - destruct (not_in x l); [exists [x]|exists []];
      rewrite ?app_nil_r; reflexivity.
  - exists []. rewrite app_nil_r. reflexivity.
Qed.

Lemma add_guess_good (n : nat) (g0 l : list StreamInfo)
  (g : option StreamInfo) :
  distinct l /\ length l <= n /\ (exists m, l = g0 ++ m) ->
  distinct (add_guess g l) /\ length (add_guess g l) <= S n
  /\ (exists m, add_guess g l = g0 ++ m).
Proof.
  intros (Hd & Hl & m & Hm). split; [apply add_guess_distinct; exact Hd|].
  split; [pose proof (add_guess_length g l); lia|].
  destruct (add_guess_prefix g l) as [m' ->].
  exists (m ++ m'). rewrite Hm, app_assoc. reflexivity.
Qed.

Lemma good_le (n n' : nat) (g0 l : list StreamInfo) :
  distinct l /\ length l <= n /\ (exists m, l = g0 ++ m) ->
  n <= n' ->
  distinct l /\ length l <= n' /\ (exists m, l = g0 ++ m).
Proof. intros (Hd & Hl & Hm) Hn. repeat split; [exact Hd|lia|exact Hm]. Qed.

Lemma good_base (g0 : list StreamInfo) :
  distinct g0 -> length g0 <= 1 ->
  distinct g0 /\ length g0 <= 1 /\ (exists m, g0 = g0 ++ m).
Proof.
  intros Hd Hl. repeat split; [exact Hd|exact Hl|].
  exists []. rewrite app_nil_r. reflexivity.
Qed.

Lemma guesses_good (content_guess : option StreamInfo) (base_info : StreamInfo) :
  exists g4,
    _get_stream_info_guesses content_guess base_info
    = match g4 with [] => [empty_info] | _ => g4 end
    /\ distinct g4 /\ length g4 <= 5
    /\ exists m,
         g4 = (if truthy (mimetype base_info) || truthy (extension base_info)
               then [base_info] else []) ++ m.
Proof.
  unfold _get_stream_info_guesses. eexists. split; [reflexivity|].
  assert (H0 : let g0 := if truthy (mimetype base_info)
                            || truthy (extension base_info)
                         then [base_info] else [] in
               distinct g0 /\ length g0 <= 1).
  { destruct (truthy (mimetype base_info) || truthy (extension base_info));
      simpl; repeat split; auto. }
  cbv zeta in H0. destruct H0 as [Hd Hl].
  destruct (filename base_info) as [[|? ?]|],
           (extension base_info) as [[|? ?]|],
           (mimetype base_info) as [[|? ?]|];
    (eapply good_le;
     [repeat apply add_guess_good; apply good_base; assumption|lia]).
Qed.

(** X5: the list of guesses is never empty, holds at most five
    descriptors, no two of which are equal under [__eq__]; the descriptor
    given comes first when it has a MIME type or an extension. *)
Theorem stream_info_guesses_distinct
  (content_guess : option StreamInfo) (base_info : StreamInfo) :
  let guesses := _get_stream_info_guesses content_guess base_info in
  guesses <> []
  /\ length guesses <= 5
  /\ distinct guesses
  /\ (truthy (mimetype base_info) || truthy (extension base_info) = true ->
      exists more, guesses = base_info :: more).
Proof.
  cbv zeta.
  destruct (guesses_good content_guess base_info) as (g4 & -> & Hd & Hl & m & Hm).
  destruct g4 as [|x g4'].
  - split; [discriminate|]. split; [simpl; lia|].
    split; [simpl; split; [constructor|exact I]|].
    intros Ht. exfalso. rewrite Ht in Hm. discriminate.
  - split; [discriminate|]. split; [exact Hl|]. split; [exact Hd|].
    intros Ht. rewrite Ht in Hm. simpl in Hm.
    injection Hm as -> ->. eauto.
Qed.

End GuessFacts.

(* ================================================================== *)
(** * Environment overrides and updates of the configuration
      (config/settings.py) *)
(* ================================================================== *)

Section ConfigOverrideFacts.
Import Py Exn Config ConfigUpdate.

(** A round of the loop leaves alone what its setter leaves alone. *)
Lemma from_env_untouched {A : Type} (p : MarkItDownConfig -> A)
  (e : environ) (v : string)
  (set : str -> MarkItDownConfig -> option MarkItDownConfig)
  (c : MarkItDownConfig) :
  (forall x c', set x c = Some c' -> p c' = p c) ->
  p (from_env e v set c) = p c.
Proof.
  intros H. unfold from_env. destruct (e v) as [x|]; [|reflexivity].
  destruct (set x c) as [c'|] eqn:E; [|reflexivity]. exact (H x c' E).
Qed.

Ltac untouched :=
  let x := fresh "x" in
  let c' := fresh "c'" in
  let E := fresh "E" in
  intros x c' E;
  first [ injection E as <-; reflexivity
        | destruct (parse_int x); [injection E as <-; reflexivity|discriminate] ].

(** The sections after [_load_from_environment], one by one. *)
Lemma load_from_environment_sections (e : environ) (c : MarkItDownConfig) :
  let c' := _load_from_environment e c in
  converters c'
  = {| enable_builtins := enable_builtins (converters c);
       enable_plugins := enable_plugins (converters c);
       korean_support :=
         match e "KOREAN_SUPPORT"%string with
         | Some v => parse_bool v
         | None => korean_support (converters c)
         end;
       max_workers :=
         match e "MAX_WORKERS"%string with
         | Some v =>
             match parse_int v with
             | Some n => n
             | None => max_workers (converters c)
             end
         | None => max_workers (converters c)
         end |}
  /\ llm c'
     = {| openai_api_key :=
            match e "OPENAI_API_KEY"%string with
            | Some v => Some v
            | None => openai_api_key (llm c)
            end;
          llm_model :=
            match e "LLM_MODEL"%string with
            | Some v => v
            | None => llm_model (llm c)
            end;
          max_tokens := max_tokens (llm c);
          temperature := temperature (llm c) |}
  /\ azure c'
     = {| endpoint :=
            match e "AZURE_DOCUMENT_INTELLIGENCE_ENDPOINT"%string with
            | Some v => Some v
            | None => endpoint (azure c)
            end;
          key :=
            match e "AZURE_DOCUMENT_INTELLIGENCE_KEY"%string with
            | Some v => Some v
            | None => key (azure c)
            end;
          enabled := enabled (azure c) |}
  /\ ocr c'
     = {| tesseract_path :=
            match e "TESSERACT_PATH"%string with
            | Some v => Some v
            | None => tesseract_path (ocr c)
            end;
          easyocr_enabled := easyocr_enabled (ocr c);
          tesseract_enabled := tesseract_enabled (ocr c);
          languages := languages (ocr c) |}
  /\ audio c'
     = {| whisper_model :=
            match e "WHISPER_MODEL"%string with
            | Some v => v
            | None => whisper_model (audio c)
            end;
          local_whisper_enabled := local_whisper_enabled (audio c);
          openai_whisper_enabled := openai_whisper_enabled (audio c) |}
  /\ server c'
     = {| log_level :=
            match e "LOG_LEVEL"%string with
            | Some v => v
            | None => log_level (server c)
            end;
          log_file :=
            match e "LOG_FILE"%string with
            | Some v => Some v
            | None => log_file (server c)
            end;
          enable_cors := enable_cors (server c);
          max_file_size_mb := max_file_size_mb (server c) |}
  /\ conversion c' = conversion c.
Proof.
  cbv zeta. unfold _load_from_environment.
  repeat split.
  - unfold from_env at 1 2.
    destruct (e "MAX_WORKERS"%string) as [w|];
      [destruct (parse_int w)|];
      destruct (e "KOREAN_SUPPORT"%string);
      cbn [converters with_converters];
      rewrite ?(from_env_untouched converters) by untouched;
      destruct (converters c); reflexivity.
  - rewrite !(from_env_untouched llm) by untouched.
    unfold from_env.
    destruct (e "LLM_MODEL"%string), (e "OPENAI_API_KEY"%string);
      cbn [llm with_llm]; destruct (llm c); reflexivity.
  - rewrite !(from_env_untouched azure) by untouched.
    unfold from_env at 1 2.
    destruct (e "AZURE_DOCUMENT_INTELLIGENCE_KEY"%string),
      (e "AZURE_DOCUMENT_INTELLIGENCE_ENDPOINT"%string);
      cbn [azure with_azure];
      rewrite ?(from_env_untouched azure) by untouched;
      destruct (azure c); reflexivity.
  - rewrite !(from_env_untouched ocr) by untouched.
    unfold from_env at 1.
    destruct (e "TESSERACT_PATH"%string);
      cbn [ocr with_ocr];
      rewrite ?(from_env_untouched ocr) by untouched;
      destruct (ocr c); reflexivity.
  - rewrite !(from_env_untouched audio) by untouched.
    unfold from_env at 1.
    destruct (e "WHISPER_MODEL"%string);
      cbn [audio with_audio];
      rewrite ?(from_env_untouched audio) by untouched;
      destruct (audio c); reflexivity.
  - rewrite !(from_env_untouched server) by untouched.
    unfold from_env at 1 2.
    destruct (e "LOG_FILE"%string), (e "LOG_LEVEL"%string);
      cbn [server with_server];
      rewrite ?(from_env_untouched server) by untouched;
      destruct (server c); reflexivity.
  - rewrite !(from_env_untouched conversion) by untouched. reflexivity.
Qed.

(** X6: when the configuration file holds a dictionary that [json.load]
    reads and in which every value has the type that its field declares,
    so that [_dict_to_config] builds a configuration of it, the
    configuration loaded is the one of the file with every value that a
    variable of the environment names put in its place: the variable wins
    over the file.  The text of [KOREAN_SUPPORT] is read as a truth
    value, that of [MAX_WORKERS] with [int], and a text that [int]
    refuses leaves the value of the file; no other field of the file is
    touched. *)
Theorem environment_wins_over_file
  (path : str) (w : world) (data : list (string * json))
  (c0 : MarkItDownConfig) :
  files w !! path = Some (FJson (JObj data)) ->
  loadable (JObj data) = true ->
  _dict_to_config data = Built c0 ->
  exists c,
    _load_config path w = Return c
    /\ openai_api_key (llm c)
       = match env w "OPENAI_API_KEY"%string with
         | Some v => Some v
         | None => openai_api_key (llm c0)
         end
    /\ llm_model (llm c)
       = match env w "LLM_MODEL"%string with
         | Some v => v
         | None => llm_model (llm c0)
         end
    /\ endpoint (azure c)
       = match env w "AZURE_DOCUMENT_INTELLIGENCE_ENDPOINT"%string with
         | Some v => Some v
         | None => endpoint (azure c0)
         end
    /\ key (azure c)
       = match env w "AZURE_DOCUMENT_INTELLIGENCE_KEY"%string with
         | Some v => Some v
         | None => key (azure c0)
         end
    /\ tesseract_path (ocr c)
       = match env w "TESSERACT_PATH"%string with
         | Some v => Some v
         | None => tesseract_path (ocr c0)
         end
    /\ whisper_model (audio c)
       = match env w "WHISPER_MODEL"%string with
         | Some v => v
         | None => whisper_model (audio c0)
         end
    /\ log_level (server c)
       = match env w "LOG_LEVEL"%string with
         | Some v => v
         | None => log_level (server c0)
         end
    /\ log_file (server c)
       = match env w "LOG_FILE"%string with
         | Some v => Some v
         | None => log_file (server c0)
         end
    /\ korean_support (converters c)
       = match env w "KOREAN_SUPPORT"%string with
         | Some v => parse_bool v
         | None => korean_support (converters c0)
         end
    /\ max_workers (converters c)
       = match env w "MAX_WORKERS"%string with
         | Some v =>
             match parse_int v with
             | Some n => n
             | None => max_workers (converters c0)
             end
         | None => max_workers (converters c0)
         end
    /\ (enable_builtins (converters c) = enable_builtins (converters c0)
        /\ enable_plugins (converters c) = enable_plugins (converters c0)
        /\ max_tokens (llm c) = max_tokens (llm c0)
        /\ temperature (llm c) = temperature (llm c0)
        /\ enabled (azure c) = enabled (azure c0)
        /\ easyocr_enabled (ocr c) = easyocr_enabled (ocr c0)
        /\ tesseract_enabled (ocr c) = tesseract_enabled (ocr c0)
        /\ languages (ocr c) = languages (ocr c0)
        /\ local_whisper_enabled (audio c) = local_whisper_enabled (audio c0)
        /\ openai_whisper_enabled (audio c) = openai_whisper_enabled (audio c0)
        /\ enable_cors (server c) = enable_cors (server c0)
        /\ max_file_size_mb (server c) = max_file_size_mb (server c0)
        /\ conversion c = conversion c0).
Proof.
  intros Hf Hl Hd. unfold _load_config. rewrite Hf, Hl, Hd.
  eexists. split; [reflexivity|].
  destruct (load_from_environment_sections (env w) c0)
    as (-> & -> & -> & -> & -> & -> & ->).
  cbn [enable_builtins enable_plugins korean_support max_workers
       openai_api_key llm_model max_tokens temperature endpoint key enabled
       tesseract_path easyocr_enabled tesseract_enabled languages
       whisper_model local_whisper_enabled openai_whisper_enabled
       log_level log_file enable_cors max_file_size_mb].
  repeat split.
Qed.

Lemma environment_wins_over_file_witness :
  files overriding_world !! settings_file = Some (FJson (JObj file_data))
  /\ loadable (JObj file_data) = true
  /\ _dict_to_config file_data = Built file_config
  /\ exists c,
       _load_config settings_file overriding_world = Return c
       /\ llm_model (llm c) = lit "gpt-4.1"
       /\ korean_support (converters c) = false
       /\ max_workers (converters c) = 8%Z
       /\ max_tokens (llm c) = 512%Z.
Proof.
  assert (Hf : files overriding_world !! settings_file
               = Some (FJson (JObj file_data))) by (vm_compute; reflexivity).
  assert (Hl : loadable (JObj file_data) = true) by (vm_compute; reflexivity).
  assert (Hd : _dict_to_config file_data = Built file_config)
    by (vm_compute; reflexivity).
  split; [exact Hf|]. split; [exact Hl|]. split; [exact Hd|].
  destruct (environment_wins_over_file settings_file overriding_world
              file_data file_config Hf Hl Hd)
    as (c & Hc & _ & Hm & _ & _ & _ & _ & _ & _ & Hk & Hw & (_ & _ & Ht & _)).
  exists c. split; [exact Hc|].
  split; [exact Hm|]. split; [exact Hk|]. split; [exact Hw|exact Ht].
Defined.

End ConfigOverrideFacts.

Section ConfigUpdateFacts.
Import Py Config ConfigUpdate.

Lemma update_converters_all (a b : ConverterSettings) :
  update_section set_converters
    (JObj [ ("enable_builtins", JBool (enable_builtins b));
            ("enable_plugins", JBool (enable_plugins b));
            ("korean_support", JBool (korean_support b));
            ("max_workers", JInt (max_workers b)) ]%string) a
  = (b, Finished).
Proof. destruct b. reflexivity. Qed.

Lemma update_llm_all (a b : LLMSettings) :
  update_section set_llm
    (JObj [ ("openai_api_key", j_opt (openai_api_key b));
            ("llm_model", JStr (llm_model b));
            ("max_tokens", JInt (max_tokens b));
            ("temperature", JFloat (temperature b)) ]%string) a
  = (b, Finished).
Proof. destruct b as [[k|] ? ? ?]; reflexivity. Qed.

Lemma update_azure_all (a b : AzureSettings) :
  update_section set_azure
    (JObj [ ("endpoint", j_opt (endpoint b));
            ("key", j_opt (key b));
            ("enabled", JBool (enabled b)) ]%string) a
  = (b, Finished).
Proof. destruct b as [[e|] [k|] ?]; reflexivity. Qed.

Lemma update_ocr_all (a b : OCRSettings) :
  update_section set_ocr
    (JObj [ ("tesseract_path", j_opt (tesseract_path b));
            ("easyocr_enabled", JBool (easyocr_enabled b));
            ("tesseract_enabled", JBool (tesseract_enabled b));
            ("languages", JList (List.map JStr (languages b))) ]%string) a
  = (b, Finished).
Proof.
  destruct b as [tp ee te ls].
  cbn -[List.map as_strs]. unfold field, as_str_list.
  destruct tp; cbn -[List.map as_strs]; rewrite as_strs_strings; reflexivity.
Qed.

Lemma update_audio_all (a b : AudioSettings) :
  update_section set_audio
    (JObj [ ("whisper_model", JStr (whisper_model b));
            ("local_whisper_enabled", JBool (local_whisper_enabled b));
            ("openai_whisper_enabled", JBool (openai_whisper_enabled b)) ]%string) a
  = (b, Finished).
Proof. destruct b. reflexivity. Qed.

Lemma update_server_all (a b : ServerSettings) :
  update_section set_server
    (JObj [ ("log_level", JStr (log_level b));
            ("log_file", j_opt (log_file b));
            ("enable_cors", JBool (enable_cors b));
            ("max_file_size_mb", JInt (max_file_size_mb b)) ]%string) a
  = (b, Finished).
Proof. destruct b as [? [f|] ? ?]; reflexivity. Qed.

Lemma update_conversion_all (a b : ConversionOptions) :
  update_section set_conversion
    (JObj [ ("include_metadata", JBool (include_metadata b));
            ("extract_images", JBool (extract_images b));
            ("korean_optimization", JBool (korean_optimization b));
            ("preserve_formatting", JBool (preserve_formatting b)) ]%string) a
  = (b, Finished).
Proof. destruct b. reflexivity. Qed.

(** X7: after [update_config(asdict(other))] the configuration is
    [other], whatever it was before: every field of every section is
    assigned. *)
Theorem update_config_with_asdict (c other : MarkItDownConfig) :
  exists updates,
    asdict other = JObj updates
    /\ update_config updates c = (other, Finished).
Proof.
  eexists. split; [reflexivity|].
  cbn [update_config].
  unfold update_one at 1. cbn [String.eqb Ascii.eqb Bool.eqb].
  rewrite update_converters_all. cbv beta iota.
  unfold update_one at 1.
  cbn [String.eqb Ascii.eqb Bool.eqb converters llm azure ocr audio server
       conversion].
  rewrite update_llm_all. cbv beta iota.
  unfold update_one at 1.
  cbn [String.eqb Ascii.eqb Bool.eqb converters llm azure ocr audio server
       conversion].
  rewrite update_azure_all. cbv beta iota.
  unfold update_one at 1.
  cbn [String.eqb Ascii.eqb Bool.eqb converters llm azure ocr audio server
       conversion].
  rewrite update_ocr_all. cbv beta iota.
  unfold update_one at 1.
  cbn [String.eqb Ascii.eqb Bool.eqb converters llm azure ocr audio server
       conversion].
  rewrite update_audio_all. cbv beta iota.
  unfold update_one at 1.
  cbn [String.eqb Ascii.eqb Bool.eqb converters llm azure ocr audio server
       conversion].
  rewrite update_server_all. cbv beta iota.
  unfold update_one at 1.
  cbn [String.eqb Ascii.eqb Bool.eqb converters llm azure ocr audio server
       conversion].
  rewrite update_conversion_all. cbv beta iota.
  destruct other. reflexivity.
Qed.

Lemma update_one_stray (name : string) (data : json) (c : MarkItDownConfig) :
  ~ In name section_names -> dunder name = false ->
  update_one name data c = (c, Finished).
Proof.
  intros Hn Hd. unfold update_one.
  repeat match goal with
         | |- context [String.eqb name ?s] =>
             destruct (String.eqb_spec name s) as [->|_];
             [exfalso; apply Hn; simpl; tauto|]
         end.
  rewrite Hd. reflexivity.
Qed.

(** X8: updates under names that are neither sections nor attributes of
    the configuration are passed over without notice: the call returns
    and the configuration is what it was, whatever the data under those
    names. *)
Theorem update_config_ignores_unknown
  (updates : list (string * json)) (c : MarkItDownConfig) :
  Forall (fun kv => ~ In (fst kv) section_names /\ dunder (fst kv) = false)
    updates ->
  update_config updates c = (c, Finished).
Proof.
  induction 1 as [|[name data] updates [Hn Hd] _ IH]; simpl; [reflexivity|].
  rewrite update_one_stray by assumption. exact IH.
Qed.

Lemma update_config_ignores_unknown_witness :
  Forall (fun kv => ~ In (fst kv) section_names /\ dunder (fst kv) = false)
    stray_updates
  /\ update_config stray_updates default_config = (default_config, Finished).
Proof.
  assert (H : Forall (fun kv => ~ In (fst kv) section_names
                                /\ dunder (fst kv) = false) stray_updates).
  { repeat constructor; simpl; intuition discriminate. }
  split; [exact H|].
  apply (update_config_ignores_unknown stray_updates default_config H).
Defined.

End ConfigUpdateFacts.

(* ================================================================== *)
(** * Copying and reading streams (utils/stream_utils.py) *)
(* ================================================================== *)

Section StreamCopyFacts.
Import Py Exn Text StreamUtils.

Lemma firstn_add {A : Type} (a b : nat) (l : list A) :
  firstn (a + b) l = firstn a l ++ firstn b (skipn a l).
Proof.
  revert l. induction a as [|a IH]; intros l; [reflexivity|].
  destruct l as [|x l]; simpl.
  - rewrite firstn_nil. reflexivity.
  - rewrite IH. reflexivity.
Qed.

Lemma skipn_add {A : Type} (a b : nat) (l : list A) :
  skipn (a + b) l = skipn b (skipn a l).
Proof.
  revert l. induction a as [|a IH]; intros l; [reflexivity|].
  destruct l as [|x l]; simpl.
  - rewrite skipn_nil. reflexivity.
  - apply IH.
Qed.

(** What one call of [read] does, by the number of bytes it returns. *)
Lemma read_some (n : N) (s : source) :
  exists k : nat,
    read n s = (firstn k (pending s),
                {| pending := skipn k (pending s); short := short s |})
    /\ k <= N.to_nat n
    /\ k <= length (pending s)
    /\ ((0 < n)%N -> pending s <> [] -> 1 <= k).
Proof.
  unfold read.
  set (k := N.min (N.max 1 (short s n (pending s)))
              (N.min n (N.of_nat (length (pending s))))).
  exists (N.to_nat k). split; [reflexivity|].
  split; [lia|]. split; [lia|].
  intros Hn Hp. destruct (pending s) as [|b p]; [congruence|].
  simpl length in k. lia.
Qed.

Lemma fill_all (max_size : N) (sh : N -> list N -> N) :
  forall fuel copied buffer p,
    length p < fuel ->
    fill fuel max_size copied buffer {| pending := p; short := sh |}
    = (buffer ++ firstn (N.to_nat (max_size - copied)) p,
       (copied + N.min (max_size - copied) (N.of_nat (length p)))%N,
       {| pending := skipn (N.to_nat (max_size - copied)) p; short := sh |}).
Proof.
  induction fuel as [|fuel IH]; intros copied buffer p Hf; [lia|].
  cbn [fill].
  destruct (N.ltb_spec copied max_size) as [Hlt|Hge].
  - destruct (read_some (N.min 8192 (max_size - copied))
                {| pending := p; short := sh |})
      as (k & -> & Hk1 & Hk2 & Hk3).
    cbn [pending short] in *.
    destruct p as [|b p].
    + rewrite firstn_nil, skipn_nil. cbn [firstn length].
      rewrite firstn_nil, skipn_nil, app_nil_r.
      f_equal. f_equal. simpl. lia.
    + assert (1 <= k) by (apply Hk3; [lia|discriminate]).
      destruct k as [|k]; [lia|].
      cbn [firstn].
      rewrite IH by (rewrite length_skipn; simpl in *; lia).
      assert (Hlen : length (b :: firstn k p) = S k).
      { simpl. rewrite length_firstn. simpl in Hk2. lia. }
      rewrite Hlen.
      replace (N.to_nat (max_size - copied))
        with (S k + N.to_nat (max_size - (copied + N.of_nat (S k)))) by lia.
      rewrite firstn_add, skipn_add, <- app_assoc.
      f_equal. f_equal. rewrite length_skipn. simpl length. simpl in Hk2. lia.
  - replace (N.to_nat (max_size - copied)) with 0 by lia.
    cbn [firstn skipn]. rewrite app_nil_r.
    f_equal. f_equal. lia.
Qed.

(** X9: [make_stream_seekable] hands back a seekable stream as it is,
    without reading it.  From any other stream it builds a buffer that
    holds the first [max_size] bytes of the stream, in order and
    complete, whatever the sizes of the chunks the stream hands out; the
    bytes beyond [max_size] stay in the stream, and the truncation
    warning is logged exactly when at least [max_size] bytes were
    there. *)
Theorem make_stream_seekable_prefix (stream : source) (max_size : N) :
  make_stream_seekable true stream max_size = (Given, stream, false)
  /\ make_stream_seekable false stream max_size
     = (Buffer (firstn (N.to_nat max_size) (pending stream)),
        {| pending := skipn (N.to_nat max_size) (pending stream);
           short := short stream |},
        (max_size <=? N.of_nat (length (pending stream)))%N).
Proof.
  split; [reflexivity|].
  unfold make_stream_seekable. destruct stream as [p sh].
  cbn [pending short].
  rewrite fill_all by lia.
  rewrite N.sub_0_r, N.add_0_l. cbn [app].
  f_equal.
  destruct (N.leb_spec max_size (N.of_nat (length p))) as [H|H].
  - apply N.leb_le. lia.
  - apply N.leb_gt. lia.
Qed.

Lemma pump_all (chunk_size : N) (sh : N -> list N -> N) :
  (0 < chunk_size)%N ->
  forall fuel copied target p,
    length p < fuel ->
    pump fuel chunk_size copied target {| pending := p; short := sh |}
    = (target ++ p, (copied + N.of_nat (length p))%N,
       {| pending := []; short := sh |}).
Proof.
  intros Hc. induction fuel as [|fuel IH]; intros copied target p Hf; [lia|].
  cbn [pump].
  destruct (read_some chunk_size {| pending := p; short := sh |})
    as (k & -> & Hk1 & Hk2 & Hk3).
  cbn [pending short] in *.
  destruct p as [|b p].
  - rewrite firstn_nil, skipn_nil, app_nil_r. f_equal. f_equal. simpl. lia.
  - assert (1 <= k) by (apply Hk3; [lia|discriminate]).
    destruct k as [|k]; [lia|].
    cbn [firstn].
    rewrite IH by (rewrite length_skipn; simpl in *; lia).
    assert (Hlen : length (b :: firstn k p) = S k).
    { simpl. rewrite length_firstn. simpl in Hk2. lia. }
    rewrite Hlen, <- app_assoc.
    change (b :: firstn k p) with (firstn (S k) (b :: p)).
    rewrite firstn_skipn.
    f_equal. f_equal. rewrite length_skipn. simpl length. simpl in Hk2. lia.
Qed.

(** X10: with a chunk size above zero [copy_stream] writes every byte of
    the source to the target, in order, and returns their number,
    whatever the sizes of the chunks the source hands out; with the chunk
    size zero it copies nothing and returns 0, leaving the source as it
    was. *)
Theorem copy_stream_copies_all (source0 : source) (chunk_size : N) :
  copy_stream source0 chunk_size
  = if (0 <? chunk_size)%N
    then (pending source0, N.of_nat (length (pending source0)),
          {| pending := []; short := short source0 |})
    else ([], 0%N, source0).
Proof.
  unfold copy_stream. destruct source0 as [p sh]. cbn [pending short].
  destruct (N.ltb_spec 0 chunk_size) as [H|H].
  - rewrite pump_all by (assumption || lia). reflexivity.
  - assert (chunk_size = 0%N) as -> by lia.
    cbn [pump]. unfold read. cbn [pending short].
    replace (N.min (N.max 1 (sh 0%N p)) (N.min 0 (N.of_nat (length p))))
      with 0%N by lia.
    reflexivity.
Qed.

End StreamCopyFacts.

Section DecodingFacts.
Import Py Exn Stream Text StreamUtils.

(** UTF-8 is always known. *)
Lemma utf8_decodes_or_fails (e : env) (content : list N) :
  decodes_or_fails e (lit "utf-8") content.
Proof.
  intros err. unfold decode.
  change (Py.eqb (lit "utf-8") (lit "utf-8")) with true. cbv iota.
  destruct (decode_utf8 _ _); discriminate.
Qed.

(** With the two Korean codecs in place the loop over the fallback
    encodings returns: the text is the content under the first of them
    that decodes it, and Latin-1, the last, decodes everything. *)
Lemma try_fallbacks_default (e : env) (content : list N) :
  korean_codecs e ->
  exists enc s,
    In enc fallback_encodings
    /\ decode e enc content = Text s
    /\ try_fallbacks e fallback_encodings content = Return s.
Proof.
  intros Hk. destruct (Hk content) as [H2 H3].
  unfold fallback_encodings. cbn [try_fallbacks].
  destruct (decode e (lit "utf-8") content) as [s| |err] eqn:E1.
  - exists (lit "utf-8"), s. repeat split; [left; reflexivity|exact E1].
  - destruct (decode e (lit "cp949") content) as [s| |err] eqn:E2.
    + exists (lit "cp949"), s.
      repeat split; [right; left; reflexivity|exact E2].
    + destruct (decode e (lit "euc-kr") content) as [s| |err] eqn:E3.
      * exists (lit "euc-kr"), s.
        repeat split; [right; right; left; reflexivity|exact E3].
      * exists (lit "latin-1"), content.
        repeat split. right; right; right; left; reflexivity.
      * destruct (H3 err E3).
    + destruct (H2 err E2).
  - destruct (utf8_decodes_or_fails e content err E1).
Qed.

(** X11: without the [chardet] package [read_stream_with_encoding]
    returns a text for every open stream, whatever its bytes, when the
    codecs that it asks raise nothing but [UnicodeDecodeError]: the
    codec of the preferred encoding, if one is given, and the two Korean
    codecs.  The text is the content under the preferred encoding or
    under one of the four fallback encodings; Latin-1, the last of them,
    decodes everything. *)
Theorem read_stream_always_decodes
  (e : env) (stream : bstream) (encoding : option str) :
  closed stream = false ->
  chardet e = None ->
  match encoding with
  | Some (x :: enc) => decodes_or_fails e (x :: enc) (data stream)
  | _ => True
  end ->
  korean_codecs e ->
  exists enc s,
    (encoding = Some enc \/ In enc fallback_encodings)
    /\ decode e enc (data stream) = Text s
    /\ read_stream_with_encoding e stream encoding = Return s.
Proof.
  intros Hc Hd Hp Hk. unfold read_stream_with_encoding. rewrite Hc, Hd.
  destruct (try_fallbacks_default e (data stream) Hk)
    as (enc0 & s0 & Hin & Hdec & Hret).
  destruct encoding as [[|c enc]|].
  - exists enc0, s0. split; [right; exact Hin|]. split; assumption.
  - destruct (decode e (c :: enc) (data stream)) as [s| |err] eqn:E.
    + exists (c :: enc), s. split; [left; reflexivity|].
      split; [exact E|reflexivity].
    + exists enc0, s0. split; [right; exact Hin|]. split; assumption.
    + destruct (Hp err E).
  - exists enc0, s0. split; [right; exact Hin|]. split; assumption.
Qed.

Lemma strict_env_korean_codecs : korean_codecs strict_env.
Proof. intros content. split; intros err; discriminate. Qed.

(** The theorem on four bytes that only Latin-1 decodes, with the
    preferred encoding [cp949]. *)
Lemma read_stream_always_decodes_witness :
  exists enc s,
    (Some (lit "cp949") = Some enc \/ In enc fallback_encodings)
    /\ decode strict_env enc (data binary_stream) = Text s
    /\ read_stream_with_encoding strict_env binary_stream (Some (lit "cp949"))
       = Return s.
Proof.
  apply (read_stream_always_decodes strict_env binary_stream
           (Some (lit "cp949")) eq_refl eq_refl).
  - intros err. discriminate.
  - exact strict_env_korean_codecs.
Defined.

(** X12: when [chardet] names an encoding with a confidence above 0.8
    and the content does not decode under it, the decoding error is
    raised: the fallback encodings are not tried, though Latin-1 would
    decode the content. *)
Theorem read_stream_chardet_failure
  (e : env) (stream : bstream) (encoding : option str)
  (detect : list N -> option str * bool) (c : char) (name : str) :
  closed stream = false ->
  match encoding with
  | Some (x :: enc) => decode e (x :: enc) (data stream) = DecodeError
  | _ => True
  end ->
  chardet e = Some detect ->
  detect (data stream) = (Some (c :: name), true) ->
  decode e (c :: name) (data stream) = DecodeError ->
  read_stream_with_encoding e stream encoding = Raise UnicodeDecodeError
  /\ decode e (lit "latin-1") (data stream) = Text (data stream).
Proof.
  intros Hc He Hd Hg Hf. split; [|reflexivity].
  unfold read_stream_with_encoding. rewrite Hc, Hd, Hg, Hf.
  destruct encoding as [[|x enc]|]; try reflexivity.
  rewrite He. reflexivity.
Qed.

Lemma read_stream_chardet_failure_witness :
  closed binary_stream = false
  /\ chardet misled_env = Some (fun _ => (Some (lit "utf-8"), true))
  /\ decode misled_env (lit "utf-8") (data binary_stream) = DecodeError
  /\ read_stream_with_encoding misled_env binary_stream None
     = Raise UnicodeDecodeError
  /\ decode misled_env (lit "latin-1") (data binary_stream)
     = Text (data binary_stream).
Proof.
  assert (Hf : decode misled_env (lit "utf-8") (data binary_stream) = DecodeError)
    by (vm_compute; reflexivity).
  split; [reflexivity|]. split; [reflexivity|]. split; [exact Hf|].
  apply (read_stream_chardet_failure misled_env binary_stream None
           (fun _ => (Some (lit "utf-8"), true)) (Re.ch "u") (lit "tf-8")
           eq_refl I eq_refl eq_refl Hf).
Defined.

(** X13: [is_text_file] answers [True] for every open stream, whatever
    its bytes, when the two Korean codecs that it asks are in place: the
    last encoding tried is Latin-1, under which every sample decodes.
    For a closed stream it answers [False]. *)
Theorem is_text_file_every_open_stream (e : env) (stream : bstream) :
  korean_codecs e ->
  is_text_file e stream = negb (closed stream).
Proof.
  intros Hk. unfold is_text_file. destruct (closed stream); [reflexivity|].
  cbn [negb].
  set (sample := firstn (N.to_nat 8192) (data stream)).
  destruct (Hk sample) as [H2 H3].
  destruct (decode e (lit "utf-8") sample) as [s| |err] eqn:E1;
    [reflexivity| |destruct (utf8_decodes_or_fails e sample err E1)].
  cbn [any_decodes].
  destruct (decode e (lit "cp949") sample) as [s| |err] eqn:E2;
    [reflexivity| |destruct (H2 err E2)].
  destruct (decode e (lit "euc-kr") sample) as [s| |err] eqn:E3;
    [reflexivity| |destruct (H3 err E3)].
  reflexivity.
Qed.

Lemma is_text_file_every_open_stream_witness :
  decode strict_env (lit "utf-8") (data binary_stream) = DecodeError
  /\ is_text_file strict_env binary_stream = negb (closed binary_stream).
Proof.
  split; [vm_compute; reflexivity|].
  apply (is_text_file_every_open_stream strict_env binary_stream
           strict_env_korean_codecs).
Defined.

End DecodingFacts.

(* ================================================================== *)
(** * Escaping, tables and titles (utils/format_utils.py,
      converters/text_converter.py) *)
(* ================================================================== *)

Section ReplaceFacts.
Import Py.

(** Replacing a single character is a map over the characters. *)
Lemma replace_single (c : char) (new s : str) :
  replace [c] new s
  = flat_map (fun x => if (c =? x)%N then new else [x]) s.
Proof.
  unfold replace. induction s as [|x s IH]; [reflexivity|].
  cbn [replace_aux flat_map].
  change (startswith [c] (x :: s)) with ((c =? x)%N && true).
  rewrite andb_true_r. cbn [length Nat.sub].
  destruct (c =? x)%N; rewrite IH; reflexivity.
Qed.

Lemma replace_single_app (c : char) (new a b : str) :
  replace [c] new (a ++ b) = replace [c] new a ++ replace [c] new b.
Proof. rewrite !replace_single. apply flat_map_app. Qed.

Lemma replace_single_other (c x : char) (new : str) :
  c <> x -> replace [c] new [x] = [x].
Proof.
  intros H. rewrite replace_single. cbn [flat_map].
  destruct (N.eqb_spec c x); [contradiction|reflexivity].
Qed.

Lemma replace_by_char_in (c d x : char) (s : str) :
  In x (replace [c] [d] s) -> x = d \/ (x <> c /\ In x s).
Proof.
  rewrite replace_single. induction s as [|y s IH]; [intros []|].
  cbn [flat_map]. intros H. apply in_app_or in H as [H|H].
  - destruct (N.eqb_spec c y) as [->|Hn].
    + destruct H as [<-|[]]. left. reflexivity.
    + destruct H as [<-|[]]. right. split; [congruence|left; reflexivity].
  - apply IH in H as [H|[H1 H2]]; [left; exact H|].
    right. split; [exact H1|right; exact H2].
Qed.

End ReplaceFacts.

Section EscapeFacts.
Import Py Re Formatting FormatNotions.

Lemma escape_passes_app (chars : list char) (a b : str) :
  fold_left (fun text char => replace char (lit "\" ++ char) text)
    (List.map (fun c => [c]) chars) (a ++ b)
  = fold_left (fun text char => replace char (lit "\" ++ char) text)
      (List.map (fun c => [c]) chars) a
    ++ fold_left (fun text char => replace char (lit "\" ++ char) text)
         (List.map (fun c => [c]) chars) b.
Proof.
  revert a b. induction chars as [|c chars IH]; intros a b; [reflexivity|].
  cbn [List.map fold_left]. rewrite replace_single_app. apply IH.
Qed.

Lemma escape_passes_other (chars : list char) (x : char) :
  mem_char x chars = false ->
  fold_left (fun text char => replace char (lit "\" ++ char) text)
    (List.map (fun c => [c]) chars) [x]
  = [x].
Proof.
  induction chars as [|c chars IH]; [reflexivity|].
  cbn [mem_char List.map fold_left]. intros H.
  apply orb_false_iff in H as [H1 H2].
  rewrite replace_single_other; [apply IH; exact H2|].
  apply N.eqb_neq in H1. congruence.
Qed.

Lemma special_chars_single :
  special_chars = List.map (fun c => [c]) (concat special_chars).
Proof. reflexivity. Qed.

Lemma mem_char_in (x : char) (l : str) : mem_char x l = true -> In x l.
Proof.
  induction l as [|c l IH]; simpl; [discriminate|].
  intros H. apply orb_true_iff in H as [H|H].
  - left. apply N.eqb_eq in H. congruence.
  - right. apply IH. exact H.
Qed.

Lemma escape_one (x : char) :
  escape_markdown_special_chars [x] = escape_char x.
Proof.
  unfold escape_markdown_special_chars, escape_char, is_special.
  destruct (mem_char x (concat special_chars)) eqn:E.
  - apply mem_char_in in E. cbn in E.
    repeat (destruct E as [<-|E]; [vm_compute; reflexivity|]).
    destruct E.
  - rewrite special_chars_single. apply escape_passes_other. exact E.
Qed.

(** X14: [escape_markdown_special_chars] puts one backslash before
    every special character of the text and changes nothing else: the
    sixteen replacements, made one after the other over the whole text,
    do not touch the backslashes that the earlier ones put in. *)
Theorem escape_markdown_char_by_char (text : str) :
  escape_markdown_special_chars text = flat_map escape_char text.
Proof.
  induction text as [|x text IH]; [reflexivity|].
  cbn [flat_map]. rewrite <- IH, <- escape_one.
  change (x :: text) with ([x] ++ text).
  unfold escape_markdown_special_chars.
  rewrite special_chars_single. apply escape_passes_app.
Qed.

End EscapeFacts.

Section TableFacts.
Import Py Re Formatting FormatNotions.

Lemma count_single (c : char) (s : str) :
  count [c] s = length (List.filter (fun x => (c =? x)%N) s).
Proof.
  unfold count. induction s as [|x s IH]; [reflexivity|].
  cbn [count_aux List.filter].
  change (startswith [c] (x :: s)) with ((c =? x)%N && true).
  rewrite andb_true_r. cbn [length Nat.sub].
  destruct (c =? x)%N; cbn [length]; rewrite IH; reflexivity.
Qed.

Lemma bars_app (a b : str) : bars (a ++ b) = bars a + bars b.
Proof.
  unfold bars. change (lit "|") with [124%N].
  rewrite !count_single, List.filter_app, length_app. reflexivity.
Qed.

Lemma bars_join (cells : list str) :
  Forall (fun cell => bars cell = 0) cells ->
  bars (join (lit " | ") cells) = length cells - 1.
Proof.
  induction 1 as [|cell cells Hc Hall IH]; [reflexivity|].
  destruct cells as [|cell' cells].
  - simpl. exact Hc.
  - change (join (lit " | ") (cell :: cell' :: cells))
      with (cell ++ lit " | " ++ join (lit " | ") (cell' :: cells)).
    rewrite !bars_app, Hc, IH. simpl length.
    change (bars (lit " | ")) with 1. lia.
Qed.

Lemma one_line_join (cells : list str) :
  Forall one_line cells -> one_line (join (lit " | ") cells).
Proof.
  induction 1 as [|cell cells Hc Hall IH]; [intros []|].
  destruct cells as [|cell' cells]; [exact Hc|].
  change (join (lit " | ") (cell :: cell' :: cells))
    with (cell ++ lit " | " ++ join (lit " | ") (cell' :: cells)).
  intros Hin. apply in_app_or in Hin as [Hin|Hin]; [exact (Hc Hin)|].
  apply in_app_or in Hin as [Hin|Hin]; [|exact (IH Hin)].
  cbn in Hin. unfold NL in Hin.
  destruct Hin as [Hin|[Hin|[Hin|[]]]]; discriminate Hin.
Qed.

Lemma table_line_shape (cells : list str) :
  cells <> [] ->
  Forall plain_cell cells ->
  exists line, table_line cells = line ++ [NL]
               /\ one_line line
               /\ bars line = length cells + 1.
Proof.
  intros Hn Hall. unfold table_line.
  assert (Hb : Forall (fun cell => bars cell = 0) cells).
  { eapply List.Forall_impl; [|exact Hall]. intros cell [H _]. exact H. }
  assert (Ho : Forall one_line cells).
  { eapply List.Forall_impl; [|exact Hall]. intros cell [_ H]. exact H. }
  exists (lit "| " ++ join (lit " | ") cells ++ lit " |").
  split; [rewrite <- !app_assoc; reflexivity|]. split.
  - intros Hin. apply in_app_or in Hin as [Hin|Hin].
    + cbn in Hin. unfold NL in Hin.
      destruct Hin as [Hin|[Hin|[]]]; discriminate Hin.
    + apply in_app_or in Hin as [Hin|Hin];
        [exact (one_line_join cells Ho Hin)|].
      cbn in Hin. unfold NL in Hin.
      destruct Hin as [Hin|[Hin|[]]]; discriminate Hin.
  - rewrite !bars_app, bars_join by exact Hb.
    destruct cells as [|c cells]; [congruence|].
    simpl length. change (bars (lit "| ")) with 1.
    change (bars (lit " |")) with 1. lia.
Qed.

Lemma row_data_length (n : nat) (row : list str) :
  length (row_data n row) = n.
Proof.
  unfold row_data. rewrite length_app, repeat_length, length_firstn. lia.
Qed.

Lemma row_data_plain (n : nat) (row : list str) :
  Forall plain_cell row -> Forall plain_cell (row_data n row).
Proof.
  intros H. unfold row_data. apply List.Forall_app. split.
  - apply List.Forall_forall. intros x Hx.
    rewrite List.Forall_forall in H. apply H.
    rewrite <- (firstn_skipn n row). apply in_or_app. left. exact Hx.
  - apply List.Forall_forall. intros x Hx.
    apply repeat_spec in Hx. subst x. split; [reflexivity|intros []].
Qed.

(** X15: a table made by [create_markdown_table] from headers and rows
    whose cells hold neither a vertical bar nor a newline character is a
    grid: it is made of one line for the headers, one for the separator
    and one for each row, each of them without a newline inside, ended
    by one, and with exactly one bar more than there are headers,
    however many cells the rows had.  Without headers or without rows
    the table is the empty string. *)
Theorem create_markdown_table_grid
  (headers : list str) (rows : list (list str)) :
  headers <> [] -> rows <> [] ->
  Forall plain_cell headers ->
  Forall (Forall plain_cell) rows ->
  create_markdown_table [] rows = []
  /\ create_markdown_table headers [] = []
  /\ exists lines,
       create_markdown_table headers rows
       = flat_map (fun line => line ++ [NL]) lines
       /\ length lines = length rows + 2
       /\ Forall (fun line => one_line line
                              /\ bars line = length headers + 1) lines.
Proof.
  intros Hh Hr Hch Hcr.
  split; [reflexivity|]. split; [destruct headers; reflexivity|].
  unfold create_markdown_table.
  destruct headers as [|h headers]; [congruence|].
  destruct rows as [|r rows]; [congruence|].
  set (hs := h :: headers) in *. set (rs := r :: rows) in *.
  destruct (table_line_shape hs Hh Hch) as (l1 & E1 & O1 & B1).
  assert (Hs : Forall plain_cell (repeat (lit "---") (length hs))).
  { apply List.Forall_forall. intros x Hx. apply repeat_spec in Hx.
    subst x. split; [reflexivity|].
    intros Hin. cbn in Hin. unfold NL in Hin.
    destruct Hin as [Hin|[Hin|[Hin|[]]]]; discriminate Hin. }
  assert (Hsn : repeat (lit "---") (length hs) <> []) by (subst hs; discriminate).
  destruct (table_line_shape _ Hsn Hs) as (l2 & E2 & O2 & B2).
  rewrite repeat_length in B2.
  assert (Hrows : exists ls,
             flat_map (fun row => table_line (row_data (length hs) row)) rs
             = flat_map (fun line => line ++ [NL]) ls
             /\ length ls = length rs
             /\ Forall (fun line => one_line line
                                    /\ bars line = length hs + 1) ls).
  { clear Hr. induction Hcr as [|row rs' Hrow _ IH].
    - exists []. repeat split. constructor.
    - destruct IH as (ls & E & L & F).
      assert (Hne : row_data (length hs) row <> []).
      { intros Hnil. apply (f_equal (@length str)) in Hnil.
        rewrite row_data_length in Hnil. subst hs. discriminate. }
      destruct (table_line_shape _ Hne (row_data_plain (length hs) row Hrow))
        as (l & El & Ol & Bl).
      rewrite row_data_length in Bl.
      exists (l :: ls). cbn [flat_map]. rewrite El, E.
      split; [reflexivity|]. split; [simpl; lia|].
      constructor; [split|]; assumption. }
  destruct Hrows as (ls & E & L & F).
  exists (l1 :: l2 :: ls). cbn [flat_map]. rewrite E1, E2, E.
  rewrite <- !app_assoc.
  split; [reflexivity|]. split; [cbn [length]; rewrite L; lia|].
  constructor; [split; assumption|]. constructor; [split; assumption|exact F].
Qed.

Lemma sample_cells_plain :
  Forall plain_cell sample_headers /\ Forall (Forall plain_cell) sample_rows.
Proof.
  assert (H : forall s, forallb (fun c => negb (c =? NL)%N
                                          && negb (c =? 124)%N) s = true ->
                        plain_cell s).
  { intros s Hs. split.
    - unfold bars. change (lit "|") with [124%N]. rewrite count_single.
      induction s as [|c s IH]; [reflexivity|].
      cbn [forallb] in Hs. apply andb_true_iff in Hs as [Hc Hs].
      apply andb_true_iff in Hc as [_ Hc]. cbn [List.filter].
      rewrite N.eqb_sym. destruct (c =? 124)%N; [discriminate|].
      exact (IH Hs).
    - intros Hin. rewrite forallb_forall in Hs. specialize (Hs _ Hin).
      rewrite N.eqb_refl in Hs. discriminate. }
  split; repeat constructor; apply H; reflexivity.
Qed.

Lemma create_markdown_table_grid_witness :
  exists lines,
    create_markdown_table sample_headers sample_rows
    = flat_map (fun line => line ++ [NL]) lines
    /\ length lines = 5
    /\ Forall (fun line => one_line line /\ bars line = 3) lines.
Proof.
  destruct (create_markdown_table_grid sample_headers sample_rows
              ltac:(discriminate) ltac:(discriminate)
              (proj1 sample_cells_plain) (proj2 sample_cells_plain))
    as (_ & _ & lines & E & L & F).
  exists lines. split; [exact E|]. split; [exact L|exact F].
Defined.

End TableFacts.

Section FilenameTitleFacts.
Import Py Stream Text Props Formatting.

Lemma letters_not_space (c : char) : (65 <= c <= 122)%N -> isspace c = false.
Proof.
  intros H. unfold isspace, in_range.
  replace (c <=? 13)%N with false by (symmetry; apply N.leb_gt; lia).
  replace (c <=? 32)%N with false by (symmetry; apply N.leb_gt; lia).
  replace (8192 <=? c)%N with false by (symmetry; apply N.leb_gt; lia).
  replace (c =? 133)%N with false by (symmetry; apply N.eqb_neq; lia).
  replace (c =? 160)%N with false by (symmetry; apply N.eqb_neq; lia).
  replace (c =? 5760)%N with false by (symmetry; apply N.eqb_neq; lia).
  replace (c =? 8232)%N with false by (symmetry; apply N.eqb_neq; lia).
  replace (c =? 8233)%N with false by (symmetry; apply N.eqb_neq; lia).
  replace (c =? 8239)%N with false by (symmetry; apply N.eqb_neq; lia).
  replace (c =? 8287)%N with false by (symmetry; apply N.eqb_neq; lia).
  replace (c =? 12288)%N with false by (symmetry; apply N.eqb_neq; lia).
  rewrite !andb_false_r. reflexivity.
Qed.

Lemma lower_char_space (c : char) : isspace (lower_char c) = isspace c.
Proof.
  unfold lower_char.
  destruct (in_range 65 90 c)%N eqn:E; [|reflexivity].
  unfold in_range in E. apply andb_true_iff in E as [H1 H2].
  apply N.leb_le in H1, H2.
  rewrite !letters_not_space by lia. reflexivity.
Qed.

Lemma upper_char_space (c : char) : isspace (upper_char c) = isspace c.
Proof.
  unfold upper_char.
  destruct (in_range 97 122 c)%N eqn:E; [|reflexivity].
  unfold in_range in E. apply andb_true_iff in E as [H1 H2].
  apply N.leb_le in H1, H2.
  rewrite !letters_not_space by lia. reflexivity.
Qed.

Lemma lower_char_keeps (c x : char) :
  (x = 95 \/ x = 45)%N -> lower_char c = x -> c = x.
Proof.
  unfold lower_char, in_range.
  destruct ((65 <=? c)%N && (c <=? 90)%N) eqn:E; [|congruence].
  apply andb_true_iff in E as [H1 H2]. apply N.leb_le in H1, H2. lia.
Qed.

Lemma upper_char_keeps (c x : char) :
  (x = 95 \/ x = 45)%N -> upper_char c = x -> c = x.
Proof.
  unfold upper_char, in_range.
  destruct ((97 <=? c)%N && (c <=? 122)%N) eqn:E; [|congruence].
  apply andb_true_iff in E as [H1 H2]. apply N.leb_le in H1, H2. lia.
Qed.

Lemma capitalize_keeps (s : str) (x : char) :
  (x = 95 \/ x = 45)%N -> In x (capitalize s) -> In x s.
Proof.
  intros Hx. destruct s as [|c s]; [intros []|].
  cbn [capitalize]. intros [H|H].
  - left. apply upper_char_keeps in H; auto.
  - right. unfold lower in H. apply in_map_iff in H as (y & Hy & Hin).
    apply lower_char_keeps in Hy; auto. subst y. exact Hin.
Qed.

Lemma capitalize_trimmed (s : str) : trimmed s -> trimmed (capitalize s).
Proof.
  intros [Hh Ht]. destruct s as [|c s]; [split; intros ? ? H; [discriminate|];
    destruct s'; discriminate|].
  cbn [capitalize]. split.
  - intros d s' H. injection H as <- _. rewrite upper_char_space.
    apply (Hh c s). reflexivity.
  - intros d s' H.
    destruct (@exists_last _ (c :: s) ltac:(discriminate)) as (s0 & z & Hz).
    assert (Hcap : upper_char c :: lower s = capitalize (s0 ++ [z]))
      by (rewrite <- Hz; reflexivity).
    rewrite H in Hcap.
    destruct s0 as [|c0 s0].
    + simpl in Hcap. destruct s' as [|? [|? ?]]; try discriminate.
      injection Hcap as ->. rewrite upper_char_space.
      apply (Ht z []). exact Hz.
    + cbn [app capitalize] in Hcap. unfold lower in Hcap.
      rewrite List.map_app in Hcap. cbn [List.map] in Hcap.
      change (upper_char c0 :: List.map lower_char s0 ++ [lower_char z])
        with ((upper_char c0 :: List.map lower_char s0) ++ [lower_char z])
        in Hcap.
      apply app_inj_tail in Hcap as [_ ->]. rewrite lower_char_space.
      apply (Ht z (c0 :: s0)). exact Hz.
Qed.

(** X16: a title that [_extract_title_from_filename] makes of a file
    name is not empty, has no white space at its ends, and holds neither
    an underscore nor a hyphen. *)
Theorem title_from_filename_clean (filename : option str) (t : str) :
  _extract_title_from_filename filename = Some t ->
  t <> [] /\ trimmed t /\ ~ In 95%N t /\ ~ In 45%N t.
Proof.
  unfold _extract_title_from_filename.
  destruct filename as [[|c f]|]; try discriminate.
  set (spaced := replace (lit "-") (lit " ")
                   (replace (lit "_") (lit " ") (rsplit_dot (c :: f)))).
  destruct (capitalize (strip spaced)) as [|d r] eqn:E; [discriminate|].
  intros H. injection H as <-.
  split; [discriminate|].
  split; [rewrite <- E; apply capitalize_trimmed, trimmed_strip|].
  assert (Hs : forall x, (x = 95 \/ x = 45)%N -> In x spaced -> False).
  { intros x Hx Hin. subst spaced.
    change (lit "-") with [45%N] in Hin. change (lit "_") with [95%N] in Hin.
    change (lit " ") with [32%N] in Hin.
    apply replace_by_char_in in Hin as [->|[Hn Hin]]; [lia|].
    apply replace_by_char_in in Hin as [->|[Hn' Hin]]; [lia|].
    lia. }
  assert (Hk : forall x, (x = 95 \/ x = 45)%N -> In x (d :: r) -> False).
  { intros x Hx Hin. rewrite <- E in Hin.
    apply capitalize_keeps in Hin; [|exact Hx].
    destruct (strip_part spaced) as (pre & post & Hp).
    apply (Hs x Hx). rewrite Hp. apply in_or_app. right.
    apply in_or_app. left. exact Hin. }
  split; intros Hin.
  - apply (Hk 95%N); [left; reflexivity|exact Hin].
  - apply (Hk 45%N); [right; reflexivity|exact Hin].
Qed.

Lemma title_from_filename_clean_witness :
  _extract_title_from_filename sample_filename = Some (lit "My report final")
  /\ trimmed (lit "My report final")
  /\ ~ In 95%N (lit "My report final").
Proof.
  assert (H : _extract_title_from_filename sample_filename
              = Some (lit "My report final")) by (vm_compute; reflexivity).
  split; [exact H|].
  destruct (title_from_filename_clean sample_filename _ H) as (_ & Ht & Hu & _).
  split; [exact Ht|exact Hu].
Defined.

End FilenameTitleFacts.

(* ================================================================== *)
(** * Substitutions of one character and of runs of characters *)
(* ================================================================== *)

Section CharSubstitutions.
Import Py Re Props MatchNotions.

Lemma char_len_bounds (f : char -> bool) s n :
  char_len f s = Some n -> 1 <= n <= length s.
Proof.
  destruct s as [|c s]; simpl; [discriminate|].
  destruct (f c); [|discriminate]. intros H. injection H as <-. lia.
Qed.

Lemma mt_char (fl : flags) (r : regex) (f : char -> bool) :
  (forall st k, mt fl r st k = step f st k) ->
  forall st,
    mt fl r st Some = option_map (fun n => adv n st) (char_len f (rest st)).
Proof.
  intros H st. rewrite H. unfold step, char_len.
  destruct (rest st) as [|c s'] eqn:E; [reflexivity|].
  destruct (f c); [|reflexivity].
  simpl. rewrite E. reflexivity.
Qed.

Lemma gsub_char_len (f : char -> bool) (d : char) (s : str) :
  gsub (char_len f) [d] 0 s = swap f d s.
Proof.
  induction s as [|c s IH]; [reflexivity|].
  cbn [gsub char_len swap List.map].
  destruct (f c); cbn [Nat.sub app]; fold (swap f d s); rewrite <- IH;
    reflexivity.
Qed.

Lemma runs_len_bounds (f : char -> bool) s n :
  runs_len f s = Some n -> 1 <= n <= length s.
Proof.
  unfold runs_len. intros H. split.
  - apply glen_ge in H. lia.
  - eapply glen_le; [|exact H]. intros v m Hv. apply no_more_le in Hv.
    exact Hv.
Qed.

Lemma mt_runs (fl : flags) (c : char) (st : mstate) :
  mt fl (Repeat 1 None (Lit c)) st Some
  = option_map (fun n => adv n st)
      (runs_len (fun x => (x =? c)%N) (rest st)).
Proof.
  apply (mt_repeat_chars fl _ (fun x => (x =? c)%N) 1 no_more Some).
  - intros st' k'. reflexivity.
  - exact some_is_no_more.
Qed.

Lemma runs_len_some (f : char -> bool) s n :
  runs_len f s = Some n ->
  match skipn n s with d :: _ => f d = false | [] => True end.
Proof.
  unfold runs_len. destruct s as [|c r]; simpl; [discriminate|].
  destruct (f c); [|discriminate].
  destruct (run_to_the_end f 1 r 1) as (m & Hm & Hs); [lia|].
  rewrite Hm. intros H. injection H as <-. exact Hs.
Qed.

Lemma runs_len_none (f : char -> bool) s :
  runs_len f s = None -> match s with c :: _ => f c = false | [] => True end.
Proof.
  unfold runs_len. destruct s as [|c r]; simpl; [easy|].
  destruct (f c); [|reflexivity].
  destruct (run_to_the_end f 1 r 1) as (m & Hm & _); [lia|].
  rewrite Hm. discriminate.
Qed.

Lemma runs_len_not (f : char -> bool) c r :
  f c = false -> runs_len f (c :: r) = None.
Proof. intros H. unfold runs_len. simpl. rewrite H. reflexivity. Qed.

Lemma runs_len_single (f : char -> bool) c r :
  f c = true ->
  match r with d :: _ => f d = false | [] => True end ->
  runs_len f (c :: r) = Some 1.
Proof.
  intros Hc Hr. unfold runs_len. simpl. rewrite Hc.
  destruct r as [|d r']; [reflexivity|]. simpl. rewrite Hr. reflexivity.
Qed.

Lemma squash_unfold (f : char -> bool) (d : char) s :
  squash f d s
  = match runs_len f s with
    | Some n => [d] ++ squash f d (skipn n s)
    | None => match s with [] => [] | c :: s' => c :: squash f d s' end
    end.
Proof. apply gsub_unfold. apply runs_len_bounds. Qed.

Lemma sparse_squash (f : char -> bool) (d : char) s : sparse f (squash f d s).
Proof.
  induction s as [s IH] using length_induction.
  rewrite squash_unfold.
  destruct (runs_len f s) as [n|] eqn:E.
  - pose proof (runs_len_bounds _ _ _ E) as Hb.
    apply runs_len_some in E. simpl app. split.
    + intros _. rewrite squash_unfold.
      destruct (skipn n s) as [|x r]; [simpl; exact I|].
      rewrite (runs_len_not _ _ _ E). exact E.
    + apply IH. rewrite List.length_skipn. lia.
  - apply runs_len_none in E. destruct s as [|c s']; [exact I|].
    split.
    + intros Hc. congruence.
    + apply IH. simpl. lia.
Qed.

Lemma squash_sparse (f : char -> bool) (d : char) s :
  sparse f s -> (forall c, In c s -> f c = true -> c = d) ->
  squash f d s = s.
Proof.
  induction s as [|c s IH]; intros H Hd; [reflexivity|].
  destruct H as [H1 H2]. rewrite squash_unfold.
  assert (Hrest : squash f d s = s).
  { apply IH; [exact H2|]. intros x Hx. apply Hd. right. exact Hx. }
  destruct (f c) eqn:Ec.
  - rewrite (runs_len_single f c s Ec (H1 eq_refl)). cbn [app skipn].
    rewrite List.skipn_O, Hrest. f_equal. symmetry. apply Hd; [left; reflexivity|exact Ec].
  - rewrite (runs_len_not _ _ _ Ec), Hrest. reflexivity.
Qed.

Lemma squash_in (f : char -> bool) (d : char) s x :
  In x (squash f d s) -> x = d \/ In x s.
Proof.
  induction s as [s IH] using length_induction.
  rewrite squash_unfold.
  destruct (runs_len f s) as [n|] eqn:E.
  - pose proof (runs_len_bounds _ _ _ E) as Hb.
    simpl app. intros [H|H]; [left; congruence|].
    apply IH in H; [|rewrite List.length_skipn; lia].
    destruct H as [H|H]; [left; exact H|right].
    rewrite <- (firstn_skipn n s). apply in_or_app. right. exact H.
  - destruct s as [|c s']; [intros []|].
    intros [H|H]; [right; left; exact H|].
    apply IH in H; [|simpl; lia].
    destruct H as [H|H]; [left; exact H|right; right; exact H].
Qed.

Lemma sparse_suffix (f : char -> bool) u v : sparse f (u ++ v) -> sparse f v.
Proof.
  induction u as [|c u IH]; intros H; [exact H|]. apply IH. exact (proj2 H).
Qed.

Lemma sparse_prefix (f : char -> bool) u v : sparse f (u ++ v) -> sparse f u.
Proof.
  induction u as [|c u IH]; intros H; [exact I|].
  destruct H as [H1 H2]. split; [|exact (IH H2)].
  intros Hc. specialize (H1 Hc). destruct u; [exact I|exact H1].
Qed.

Lemma sparse_no_pair (f : char -> bool) (a b : char) s :
  f a = true -> f b = true -> sparse f s -> ~ infix [a; b] s.
Proof.
  intros Ha Hb H (pre & post & ->). apply sparse_suffix in H.
  destruct H as [H _]. specialize (H Ha). simpl in H. congruence.
Qed.

(** [s.strip(chars)], for the characters that satisfy [f]. *)
Lemma strip_by_cons (f : char -> bool) c w :
  rev (dropwhile f (rev (c :: w)))
  = match rev (dropwhile f (rev w)) with
    | [] => if f c then [] else [c]
    | d :: r => c :: d :: r
    end.
Proof.
  simpl rev. rewrite dropwhile_snoc.
  destruct (dropwhile f (rev w)) as [|d r].
  - simpl. destruct (f c); reflexivity.
  - rewrite rev_app_distr. simpl.
    destruct (rev r ++ [d]) as [|x y] eqn:E; [|reflexivity].
    destruct (rev r); discriminate.
Qed.

Lemma strip_by_prefix (f : char -> bool) w :
  exists post, w = rev (dropwhile f (rev w)) ++ post.
Proof.
  induction w as [|c w [post IH]]; [exists []; reflexivity|].
  rewrite strip_by_cons. destruct (rev (dropwhile f (rev w))) as [|d r].
  - destruct (f c).
    + exists (c :: w). reflexivity.
    + exists post. simpl in *. congruence.
  - exists post. simpl in *. congruence.
Qed.

Lemma strip_by_head (f : char -> bool) w :
  match w with c :: _ => f c = false | [] => True end ->
  match rev (dropwhile f (rev w)) with c :: _ => f c = false | [] => True end.
Proof.
  destruct w as [|c w]; [intros _; exact I|]. intros H.
  rewrite strip_by_cons.
  destruct (rev (dropwhile f (rev w))); [rewrite H|]; exact H.
Qed.

Lemma strip_by_last (f : char -> bool) w c s' :
  rev (dropwhile f (rev w)) = s' ++ [c] -> f c = false.
Proof.
  intros H. apply (f_equal (@rev char)) in H.
  rewrite rev_involutive, rev_app_distr in H. simpl in H.
  pose proof (dropwhile_head f (rev w)) as Hh.
  rewrite H in Hh. exact Hh.
Qed.

Lemma strip_by_fixed (f : char -> bool) t :
  (forall c s', t = s' ++ [c] -> f c = false) ->
  rev (dropwhile f (rev t)) = t.
Proof.
  induction t as [|c t IH]; intros H; [reflexivity|].
  rewrite strip_by_cons. rewrite IH.
  - destruct t as [|d r]; [|reflexivity].
    rewrite (H c []); reflexivity.
  - intros c0 s0 ->. apply (H c0 (c :: s0)). reflexivity.
Qed.

Lemma bare_strip_by (f : char -> bool) s :
  bare f (rev (dropwhile f (rev (dropwhile f s)))).
Proof.
  split.
  - intros c s' H.
    pose proof (strip_by_head f _ (dropwhile_head f s)) as Hh.
    rewrite H in Hh. exact Hh.
  - intros c s' H. exact (strip_by_last f _ _ _ H).
Qed.

Lemma strip_by_bare (f : char -> bool) t :
  bare f t -> rev (dropwhile f (rev (dropwhile f t))) = t.
Proof.
  intros [Hh Hl].
  assert (Hd : dropwhile f t = t).
  { destruct t as [|c t']; [reflexivity|]. simpl.
    rewrite (Hh c t' eq_refl). reflexivity. }
  rewrite Hd. apply strip_by_fixed. exact Hl.
Qed.

Lemma strip_by_part (f : char -> bool) s :
  exists pre post, s = pre ++ rev (dropwhile f (rev (dropwhile f s))) ++ post.
Proof.
  destruct (dropwhile_suffix f s) as [pre Hpre].
  destruct (strip_by_prefix f (dropwhile f s)) as [post Hpost].
  exists pre, post. rewrite <- Hpost. exact Hpre.
Qed.

End CharSubstitutions.

(* ================================================================== *)
(** * [sanitize_filename] (utils/format_utils.py) *)
(* ================================================================== *)

Section SanitizeFacts.
Import Py Re Props Formatting FormatNotions MatchNotions.

Lemma unsafe_compiled :
  compile unsafe_pattern
  = Ok (InSet false
          [SLit 60%N; SLit 62%N; SLit 58%N; SLit 34%N; SLit 47%N; SLit 92%N;
           SLit 124%N; SLit 63%N; SLit 42%N]).
Proof. vm_compute. reflexivity. Qed.

Lemma underscores_compiled :
  compile (lit "_+") = Ok (Repeat 1 None (Lit 95%N)).
Proof. vm_compute. reflexivity. Qed.

Lemma unsafe_set_mem (c : char) :
  set_mem false
    [SLit 60%N; SLit 62%N; SLit 58%N; SLit 34%N; SLit 47%N; SLit 92%N;
     SLit 124%N; SLit 63%N; SLit 42%N] c
  = unsafe c.
Proof. reflexivity. Qed.

Lemma dropwhile_ext (f g : char -> bool) (l : str) :
  (forall c, f c = g c) -> dropwhile f l = dropwhile g l.
Proof.
  intros H. induction l as [|x l IH]; [reflexivity|]. simpl.
  rewrite H, IH. reflexivity.
Qed.

Lemma strip_underscores (s : str) :
  strip_chars (lit "_") s
  = rev (dropwhile is_underscore (rev (dropwhile is_underscore s))).
Proof.
  assert (H : forall c, mem_char c (lit "_") = is_underscore c).
  { intros c. unfold is_underscore. simpl. apply orb_false_r. }
  unfold strip_chars.
  rewrite (dropwhile_ext _ is_underscore s H).
  rewrite (dropwhile_ext _ is_underscore _ H). reflexivity.
Qed.

Lemma mt_unsafe (st : mstate) :
  mt NOFLAGS
    (InSet false
       [SLit 60%N; SLit 62%N; SLit 58%N; SLit 34%N; SLit 47%N; SLit 92%N;
        SLit 124%N; SLit 63%N; SLit 42%N]) st Some
  = option_map (fun n => adv n st) (char_len unsafe (rest st)).
Proof.
  apply (mt_char NOFLAGS _ unsafe). intros st' k.
  cbn [mt]. apply step_ext. exact unsafe_set_mem.
Qed.

(** What [sanitize_filename] computes, on lists. *)
Lemma sanitize_filename_direct (filename : str) :
  sanitize_filename filename
  = Ok (strip_chars (lit "_")
          (squash is_underscore 95%N (swap unsafe 95%N filename))).
Proof.
  unfold sanitize_filename.
  rewrite (sub_by_lengths _ (char_len unsafe) mt_unsafe
             (char_len_bounds unsafe)
             unsafe_pattern (lit "_") [95%N] _ unsafe_compiled eq_refl).
  rewrite (sub_by_lengths _ (runs_len is_underscore) (mt_runs NOFLAGS 95%N)
             (runs_len_bounds is_underscore)
             (lit "_+") (lit "_") [95%N] _ underscores_compiled eq_refl).
  rewrite gsub_char_len. reflexivity.
Qed.

Lemma sanitized_shape (filename : str) :
  let r := strip_chars (lit "_")
             (squash is_underscore 95%N (swap unsafe 95%N filename)) in
  (forall c, In c r -> unsafe c = false)
  /\ sparse is_underscore r
  /\ bare is_underscore r.
Proof.
  cbv zeta. rewrite strip_underscores.
  set (w := squash is_underscore 95%N (swap unsafe 95%N filename)).
  destruct (strip_by_part is_underscore w) as (pre & post & Hp).
  split; [|split].
  - intros c Hc.
    assert (Hw : In c w).
    { rewrite Hp. apply in_or_app. right. apply in_or_app. left. exact Hc. }
    apply squash_in in Hw as [->|Hw]; [reflexivity|].
    unfold swap in Hw. apply in_map_iff in Hw as (x & Hx & _).
    destruct (unsafe x) eqn:E; subst c; [reflexivity|exact E].
  - pose proof (sparse_squash is_underscore 95%N (swap unsafe 95%N filename))
      as H.
    fold w in H. rewrite Hp in H.
    apply sparse_suffix in H. apply sparse_prefix in H. exact H.
  - apply bare_strip_by.
Qed.

(** X17: [sanitize_filename] returns for every file name, and the name
    it returns holds none of the nine unsafe characters, no two
    underscores in a row, and no underscore at its head or at its end. *)
Theorem sanitize_filename_safe (filename : str) :
  exists r,
    sanitize_filename filename = Ok r
    /\ (forall c, In c r -> unsafe c = false)
    /\ ~ infix [95%N; 95%N] r
    /\ bare is_underscore r.
Proof.
  rewrite sanitize_filename_direct. eexists. split; [reflexivity|].
  destruct (sanitized_shape filename) as (H1 & H2 & H3).
  split; [exact H1|]. split; [|exact H3].
  apply (sparse_no_pair is_underscore); [reflexivity|reflexivity|exact H2].
Qed.

(** X18: a name that [sanitize_filename] has returned is returned
    unchanged when it is sanitized again. *)
Theorem sanitize_filename_idempotent (filename : str) :
  exists r,
    sanitize_filename filename = Ok r /\ sanitize_filename r = Ok r.
Proof.
  rewrite sanitize_filename_direct. eexists. split; [reflexivity|].
  destruct (sanitized_shape filename) as (H1 & H2 & H3).
  set (r := strip_chars (lit "_")
              (squash is_underscore 95%N (swap unsafe 95%N filename))) in *.
  rewrite sanitize_filename_direct. f_equal.
  assert (Hswap : swap unsafe 95%N r = r).
  { unfold swap. rewrite <- (List.map_id r) at 2. apply List.map_ext_in.
    intros c Hc. rewrite (H1 c Hc). reflexivity. }
  rewrite Hswap.
  rewrite squash_sparse; [|exact H2|].
  - rewrite strip_underscores. apply strip_by_bare. exact H3.
  - intros c _ Hc. apply N.eqb_eq in Hc. exact Hc.
Qed.

End SanitizeFacts.

(* ================================================================== *)
(** * Cleaning of titles and Markdown (core/base_converter.py,
      utils/format_utils.py) *)
(* ================================================================== *)

Section SubstitutionReturns.
Import Py Re.

(** A substitution returns as soon as its pattern and its template are
    accepted. *)
Lemma sub_returns (fl : flags) (pattern repl : str) :
  (exists r, compile pattern = Ok r) ->
  (exists t, parse_template (S (length repl)) repl = Ok t) ->
  forall s, exists s', sub fl pattern repl s = Ok s'.
Proof.
  intros [r Hr] [t Ht] s. unfold sub. rewrite Hr, Ht. eauto.
Qed.

End SubstitutionReturns.

Section BlankLineFacts.
Import Py Re Props MatchNotions.

Lemma glen_ext (f : char -> bool) (lo : nat) (kl kl' : str -> option nat) :
  (forall v, kl v = kl' v) ->
  forall u cnt, glen f lo kl cnt u = glen f lo kl' cnt u.
Proof.
  intros H. induction u as [|c r IH]; intros cnt; simpl.
  - rewrite H. reflexivity.
  - rewrite IH, H. reflexivity.
Qed.

Lemma after_nl_ext (kl kl' : str -> option nat) :
  (forall v, kl v = kl' v) -> forall u, after_nl kl u = after_nl kl' u.
Proof.
  intros H [|c r]; simpl; [reflexivity|]. rewrite H. reflexivity.
Qed.

Lemma gsub_ext (ml ml' : str -> option nat) (repl : str) :
  (forall v, ml v = ml' v) ->
  forall s k, gsub ml repl k s = gsub ml' repl k s.
Proof.
  intros H. induction s as [|c s IH]; intros k; [reflexivity|].
  simpl. destruct k as [|k]; [|apply IH].
  rewrite H. destruct (ml' (c :: s)); rewrite IH; reflexivity.
Qed.

Lemma spaces_newline_some (r : str) (cnt : nat) :
  glen isspace 0 (after_nl no_more) cnt r = None ->
  match r with d :: _ => (d =? NL)%N = false | [] => True end.
Proof.
  destruct r as [|d r']; [intros _; exact I|].
  cbn [glen]. destruct (d =? NL)%N eqn:E; [|reflexivity].
  rewrite (nl_is_space d E).
  destruct (glen isspace 0 (after_nl no_more) (S cnt) r'); [discriminate|].
  cbn [Nat.leb after_nl]. rewrite E. discriminate.
Qed.

Lemma newlines_from_one (r : str) :
  match r with d :: _ => (d =? NL)%N = false | [] => True end ->
  glen is_nl 1 no_more 1 r = Some 0.
Proof.
  destruct r as [|d r']; [reflexivity|]. intros H.
  cbn [glen]. unfold is_nl. rewrite H. reflexivity.
Qed.

(** [\s*\n+] and [\s*\n] match the same stretch: both end at the last
    newline of the white space. *)
Lemma spaces_newlines_same (u : str) : forall cnt,
  glen isspace 0 (glen is_nl 1 no_more 0) cnt u
  = glen isspace 0 (after_nl no_more) cnt u.
Proof.
  induction u as [|c r IH]; intros cnt; [reflexivity|].
  cbn [glen]. rewrite IH.
  destruct (isspace c) eqn:Es.
  - destruct (glen isspace 0 (after_nl no_more) (S cnt) r) eqn:E;
      [reflexivity|].
    apply spaces_newline_some in E.
    cbn [Nat.leb after_nl]. unfold is_nl at 1.
    destruct (c =? NL)%N; [|reflexivity].
    rewrite (newlines_from_one r E). reflexivity.
  - cbn [Nat.leb after_nl]. unfold is_nl.
    rewrite (space_not_nl c Es). reflexivity.
Qed.

Lemma blank_lines3_same (s : str) : blank_lines3_len s = blank_lines_len s.
Proof.
  unfold blank_lines3_len, blank_lines_len.
  apply after_nl_ext. intros v. apply glen_ext. intros w.
  apply after_nl_ext. intros x. symmetry. apply spaces_newlines_same.
Qed.

Lemma blank_lines3_len_bounds s n :
  blank_lines3_len s = Some n -> 1 <= n <= length s.
Proof. rewrite blank_lines3_same. apply blank_lines_len_bounds. Qed.

Lemma blank_lines3_compiled :
  compile (lit "\n\s*\n\s*\n")
  = Ok (Seq (Lit 10%N)
          (Seq (Repeat 0 None (InSet false [SCat false CatSpace]))
             (Seq (Lit 10%N)
                (Seq (Repeat 0 None (InSet false [SCat false CatSpace]))
                   (Lit 10%N))))).
Proof. vm_compute. reflexivity. Qed.

Lemma mt_blank_lines3 (st : mstate) :
  mt NOFLAGS
    (Seq (Lit 10%N)
       (Seq (Repeat 0 None (InSet false [SCat false CatSpace]))
          (Seq (Lit 10%N)
             (Seq (Repeat 0 None (InSet false [SCat false CatSpace]))
                (Lit 10%N))))) st Some
  = option_map (fun n => adv n st) (blank_lines3_len (rest st)).
Proof.
  assert (Hws : forall st' k',
             mt NOFLAGS (InSet false [SCat false CatSpace]) st' k'
             = step isspace st' k').
  { intros st' k'. simpl. apply step_ext. exact space_set_mem. }
  unfold blank_lines3_len.
  change (mt NOFLAGS (Seq (Lit 10%N) ?r) st Some)
    with (step (fun x => (x =? 10)%N) st (fun st1 => mt NOFLAGS r st1 Some)).
  apply mt_newline_then. intros st1.
  change (mt NOFLAGS (Seq (Repeat 0 None ?a) ?r) st1 Some)
    with (mt NOFLAGS (Repeat 0 None a) st1 (fun st2 => mt NOFLAGS r st2 Some)).
  apply (mt_repeat_chars NOFLAGS _ isspace 0 _ _ Hws). intros st2.
  change (mt NOFLAGS (Seq (Lit 10%N) ?r) st2 Some)
    with (step (fun x => (x =? 10)%N) st2 (fun st3 => mt NOFLAGS r st3 Some)).
  apply mt_newline_then. intros st3.
  change (mt NOFLAGS (Seq (Repeat 0 None ?a) ?r) st3 Some)
    with (mt NOFLAGS (Repeat 0 None a) st3 (fun st4 => mt NOFLAGS r st4 Some)).
  apply (mt_repeat_chars NOFLAGS _ isspace 0 _ _ Hws). intros st4.
  change (mt NOFLAGS (Lit 10%N) st4 Some)
    with (step (fun x => (x =? 10)%N) st4 Some).
  apply mt_newline_then. exact some_is_no_more.
Qed.

End BlankLineFacts.

Section CleaningFacts.
Import Py Re Props Base FormatUtils Formatting MatchNotions.

(** What [_clean_markdown] computes without Korean support, on lists. *)
Lemma clean_markdown_direct (markdown : str) :
  _clean_markdown false markdown
  = Ok (match markdown with
        | [] => []
        | _ => strip (squeeze_blank_lines markdown)
        end).
Proof.
  unfold _clean_markdown. destruct markdown as [|c md]; [reflexivity|].
  rewrite (sub_by_lengths _ blank_lines3_len mt_blank_lines3
             blank_lines3_len_bounds (lit "\n\s*\n\s*\n") [NL; NL] [NL; NL] _
             blank_lines3_compiled eq_refl).
  unfold squeeze_blank_lines.
  rewrite (gsub_ext blank_lines3_len blank_lines_len [NL; NL]
             blank_lines3_same).
  reflexivity.
Qed.

Lemma stripped_squeeze_shape (x : str) :
  let t := strip (squeeze_blank_lines x) in
  calm t /\ trimmed t.
Proof.
  cbv zeta.
  destruct (strip_part (squeeze_blank_lines x)) as (pre & post & Hparts).
  split; [|apply trimmed_strip].
  pose proof (calm_squeeze x) as H.
  rewrite Hparts in H. apply calm_suffix in H. apply calm_prefix in H.
  exact H.
Qed.

Lemma no_three_newlines_nil : ~ infix [NL; NL; NL] [].
Proof. intros (pre & post & H). destruct pre; discriminate. Qed.

(** X19: without Korean support [_clean_markdown] returns for every
    text; what it returns has no white space at its ends and no three
    newlines in a row, and cleaning it again returns it unchanged. *)
Theorem clean_markdown_idempotent (markdown : str) :
  exists t,
    _clean_markdown false markdown = Ok t
    /\ _clean_markdown false t = Ok t
    /\ ~ infix [NL; NL; NL] t
    /\ trimmed t.
Proof.
  rewrite clean_markdown_direct.
  destruct markdown as [|c md].
  - exists []. split; [reflexivity|]. split; [reflexivity|].
    split; [exact no_three_newlines_nil|exact trimmed_nil].
  - destruct (stripped_squeeze_shape (c :: md)) as [Hcalm Htrim].
    set (t := strip (squeeze_blank_lines (c :: md))) in *.
    exists t. split; [reflexivity|]. split; [|split].
    + rewrite clean_markdown_direct. f_equal.
      destruct t as [|d t'] eqn:Et; [reflexivity|]. rewrite <- Et in *.
      rewrite (squeeze_calm _ Hcalm). apply strip_trimmed. exact Htrim.
    + apply calm_no_three_newlines. exact Hcalm.
    + exact Htrim.
Qed.

Lemma korean_spacing_compiles :
  (exists r, compile (lit "(\S)\s+(\S)") = Ok r)
  /\ (exists t, parse_template (S (length (lit "\1 \2"))) (lit "\1 \2") = Ok t).
Proof. split; vm_compute; eauto. Qed.

Lemma normalize_korean_returns (ks : bool) (text : str) :
  exists t, _normalize_korean_text ks text = Ok t.
Proof.
  unfold _normalize_korean_text.
  destruct (negb ks || match text with [] => true | _ => false end);
    [eauto|].
  destruct korean_spacing_compiles as [Hc Ht].
  destruct (sub_returns NOFLAGS _ _ Hc Ht text) as [s' ->]. eauto.
Qed.

(** X20: [_format_title] returns for every title, with or without
    Korean support, and what it returns is never longer than 100
    characters; without Korean support a title whose stripped text has
    at most 100 characters is returned stripped and otherwise
    unchanged. *)
Theorem format_title_bounded (ks : bool) (title : str) :
  exists t,
    _format_title ks title = Ok t
    /\ length t <= 100
    /\ (ks = false -> length (strip title) <= 100 -> t = strip title).
Proof.
  unfold _format_title. destruct title as [|c title].
  - exists []. split; [reflexivity|]. split; [simpl; lia|].
    intros _ _. reflexivity.
  - set (x := strip (c :: title)).
    assert (Hn : exists y,
               (if ks then _normalize_korean_text ks x else Ok x) = Ok y
               /\ (ks = false -> y = x)).
    { destruct ks.
      - destruct (normalize_korean_returns true x) as [y Hy].
        exists y. split; [exact Hy|discriminate].
      - exists x. split; reflexivity. }
    destruct Hn as (y & -> & Hy).
    destruct (Nat.ltb_spec 100 (length y)) as [Hlt|Hle].
    + eexists. split; [reflexivity|]. split.
      * rewrite length_app, length_firstn.
        change (length (lit "...")) with 3. lia.
      * intros Hks Hlen. rewrite (Hy Hks) in Hlt. lia.
    + exists y. split; [reflexivity|]. split; [exact Hle|].
      intros Hks _. exact (Hy Hks).
Qed.

(** [normalize_whitespace] returns, and the shape of what it returns. *)
Lemma normalize_whitespace_shape (text : str) :
  exists t,
    normalize_whitespace text = Ok t
    /\ ~ infix [NL; NL; NL] t /\ trimmed t.
Proof.
  rewrite normalize_whitespace_direct. destruct text as [|c text].
  - exists []. split; [reflexivity|].
    split; [exact no_three_newlines_nil|exact trimmed_nil].
  - destruct (stripped_squeeze_shape (collapse_blanks (c :: text)))
      as [Hcalm Htrim].
    eexists. split; [reflexivity|].
    split; [apply calm_no_three_newlines; exact Hcalm|exact Htrim].
Qed.

Lemma extract_text_patterns :
  Forall (fun p => exists r, compile p = Ok r)
    [ lit "```[^`]*```"; lit "`[^`]*`"; lit "\[([^\]]*)\]\([^\)]*\)";
      lit "!\[([^\]]*)\]\([^\)]*\)"; lit "^#+\s*"; lit "\*\*([^\*]*)\*\*";
      lit "\*([^\*]*)\*"; lit "__([^_]*)__"; lit "_([^_]*)_";
      lit "^\s*[*+-]\s*"; lit "^\s*\d+\.\s*"; lit "^\s*>\s*" ]
  /\ (exists t, parse_template (S (length (lit "\1"))) (lit "\1") = Ok t)
  /\ (exists t, parse_template (S (length (@nil char))) [] = Ok t).
Proof.
  split; [|split; vm_compute; eauto].
  repeat (constructor; [vm_compute; eauto|]). constructor.
Qed.

(** X21: [extract_text_from_markdown] returns for every text: none of
    its twelve patterns is rejected; and what it returns has no white
    space at its ends and no three newlines in a row. *)
Theorem extract_text_from_markdown_returns (markdown : str) :
  exists t,
    extract_text_from_markdown markdown = Ok t
    /\ ~ infix [NL; NL; NL] t /\ trimmed t.
Proof.
  unfold extract_text_from_markdown. destruct markdown as [|c md].
  - exists []. split; [reflexivity|].
    split; [exact no_three_newlines_nil|exact trimmed_nil].
  - destruct extract_text_patterns as (Hp & Ht1 & Ht0).
    repeat match type of Hp with
           | Forall _ (_ :: _) =>
               let H := fresh "C" in
               apply List.Forall_cons_iff in Hp as [H Hp]
           end.
    destruct (sub_returns NOFLAGS _ _ C Ht0 (c :: md)) as [m1 ->].
    destruct (sub_returns NOFLAGS _ _ C0 Ht0 m1) as [m2 ->].
    destruct (sub_returns NOFLAGS _ _ C1 Ht1 m2) as [m3 ->].
    destruct (sub_returns NOFLAGS _ _ C2 Ht1 m3) as [m4 ->].
    destruct (sub_returns MULTILINE _ _ C3 Ht0 m4) as [m5 ->].
    destruct (sub_returns NOFLAGS _ _ C4 Ht1 m5) as [m6 ->].
    destruct (sub_returns NOFLAGS _ _ C5 Ht1 m6) as [m7 ->].
    destruct (sub_returns NOFLAGS _ _ C6 Ht1 m7) as [m8 ->].
    destruct (sub_returns NOFLAGS _ _ C7 Ht1 m8) as [m9 ->].
    destruct (sub_returns MULTILINE _ _ C8 Ht0 m9) as [m10 ->].
    destruct (sub_returns MULTILINE _ _ C9 Ht0 m10) as [m11 ->].
    destruct (sub_returns MULTILINE _ _ C10 Ht0 m11) as [m12 ->].
    apply normalize_whitespace_shape.
Qed.

End CleaningFacts.

(* ================================================================== *)
(** * The language probe (utils/format_utils.py, core/markitdown.py) *)
(* ================================================================== *)

Section CountingFacts.
Import Py Re Props FormatUtils MatchNotions.

Lemma find_first_char (f : char -> bool) (s : str) :
  match find_first (char_len f) s with
  | Some (d, n) =>
      n = 1 /\ d + 1 <= length s
      /\ count_if f s = S (count_if f (skipn (d + 1) s))
  | None => count_if f s = 0
  end.
Proof.
  unfold count_if. induction s as [|c s IH]; [reflexivity|].
  cbn [find_first char_len List.filter].
  destruct (f c) eqn:E.
  - split; [reflexivity|]. split; [simpl; lia|]. reflexivity.
  - destruct (find_first (char_len f) s) as [[d n]|].
    + destruct IH as (Hn & Hd & Hc). split; [exact Hn|].
      split; [simpl; lia|]. exact Hc.
    + exact IH.
Qed.

Lemma scan_char_count (r : regex) (f : char -> bool) :
  (forall st,
      mt NOFLAGS r st Some
      = option_map (fun n => adv n st) (char_len f (rest st))) ->
  forall fuel p pv s,
    length s < fuel ->
    length (scan fuel NOFLAGS r false p pv s) = count_if f s.
Proof.
  intros Hm. induction fuel as [|fuel IH]; intros p pv s Hf; [lia|].
  cbn [scan].
  rewrite (search_from_first r (char_len f) Hm (char_len_bounds f)).
  pose proof (find_first_char f s) as H.
  destruct (find_first (char_len f) s) as [[d n]|]; [|symmetry; exact H].
  destruct H as (-> & Hd & ->).
  cbn [length m_end m_start]. f_equal.
  replace (p + d + 1 =? p + d) with false
    by (symmetry; apply Nat.eqb_neq; lia).
  replace (p + d + 1 - p) with (d + 1) by lia.
  apply IH. rewrite List.length_skipn. lia.
Qed.

Lemma count_matches_set (pattern : str) (items : list set_item)
  (f : char -> bool) (text : str) :
  compile pattern = Ok (InSet false items) ->
  (forall c, set_mem false items c = f c) ->
  count_matches pattern text = Ok (count_if f text).
Proof.
  intros Hc Hf. unfold count_matches, finditer_str. rewrite Hc.
  f_equal. unfold finditer.
  apply (scan_char_count (InSet false items) f); [|lia].
  apply (mt_char NOFLAGS _ f). intros st k. cbn [mt].
  apply step_ext. exact Hf.
Qed.

Lemma count_if_disjoint (f g : char -> bool) (s : str) :
  (forall c, f c = true -> g c = false) ->
  count_if (fun c => f c || g c) s = count_if f s + count_if g s.
Proof.
  intros H. unfold count_if. induction s as [|c s IH]; [reflexivity|].
  cbn [List.filter]. destruct (f c) eqn:Ef.
  - rewrite (H c Ef). cbn [orb length]. rewrite IH. reflexivity.
  - destruct (g c); cbn [orb length]; rewrite IH; lia.
Qed.

Lemma hangul_not_latin (c : char) : hangul c = true -> latin c = false.
Proof.
  unfold hangul, latin, in_range. intros H.
  apply andb_true_iff in H as [H1 _]. apply N.leb_le in H1.
  apply orb_false_iff. split; apply andb_false_iff; right;
    apply N.leb_gt; lia.
Qed.

Lemma count_hangul (text : str) :
  count_matches hangul_class text = Ok (count_if hangul text).
Proof.
  apply (count_matches_set _ [SRange 44032%N 55203%N]).
  - vm_compute. reflexivity.
  - intros c. cbn. apply orb_false_r.
Qed.

Lemma count_hangul_latin (text : str) :
  count_matches hangul_latin_class text
  = Ok (count_if hangul text + count_if latin text).
Proof.
  rewrite <- (count_if_disjoint hangul latin text hangul_not_latin).
  apply (count_matches_set _
           [SRange 44032%N 55203%N; SRange 97%N 122%N; SRange 65%N 90%N]).
  - vm_compute. reflexivity.
  - intros c. cbn. unfold hangul, latin. rewrite orb_false_r. reflexivity.
Qed.

Lemma count_latin (text : str) :
  count_matches (lit "[a-zA-Z]") text = Ok (count_if latin text).
Proof.
  apply (count_matches_set _ [SRange 97%N 122%N; SRange 65%N 90%N]).
  - vm_compute. reflexivity.
  - intros c. cbn. unfold latin. rewrite orb_false_r. reflexivity.
Qed.

Lemma count_latin_hangul (text : str) :
  count_matches latin_hangul_class text
  = Ok (count_if hangul text + count_if latin text).
Proof.
  rewrite <- (count_if_disjoint hangul latin text hangul_not_latin).
  transitivity (Ok (A := nat) (count_if (fun c => latin c || hangul c) text)).
  - apply (count_matches_set _
             [SRange 97%N 122%N; SRange 65%N 90%N; SRange 44032%N 55203%N]).
    + vm_compute. reflexivity.
    + intros c. cbn. unfold hangul, latin. rewrite orb_false_r.
      rewrite orb_assoc. reflexivity.
  - f_equal. unfold count_if. f_equal. apply List.filter_ext.
    intros c. apply orb_comm.
Qed.

Lemma is_korean_text_counts (text : str) :
  is_korean_text text
  = Ok (let k := count_if hangul text in
        let l := count_if latin text in
        negb (k + l =? 0) && (3 * (k + l) <=? 10 * k)).
Proof.
  unfold is_korean_text. destruct text as [|c text]; [reflexivity|].
  rewrite count_hangul, count_hangul_latin. cbv zeta.
  destruct (count_if hangul (c :: text) + count_if latin (c :: text)) as [|t];
    reflexivity.
Qed.

End CountingFacts.

Section LanguageFacts.
Import Py Re Props FormatUtils Engine MatchNotions.

(** X22: [_detect_language] returns for every text, and its answer is
    decided by two counts, the Hangul syllables and the Latin letters of
    the text: [unknown] when there is neither, [korean] when the Hangul
    syllables are at least three tenths of the two together, and
    [english] otherwise.  (The quotients are compared exactly.) *)
Theorem detect_language_by_counts (text : str) :
  _detect_language text
  = Ok (let k := count_if hangul text in
        let l := count_if latin text in
        if k + l =? 0 then "unknown"%string
        else if 3 * (k + l) <=? 10 * k then "korean"%string
        else "english"%string).
Proof.
  unfold _detect_language.
  rewrite is_korean_text_counts, count_latin, count_latin_hangul. cbv zeta.
  set (k := count_if hangul text). set (l := count_if latin text).
  destruct (Nat.eqb_spec (k + l) 0) as [H0|H0]; cbn [negb andb].
  - rewrite H0. reflexivity.
  - destruct (Nat.leb_spec (3 * (k + l)) (10 * k)) as [Hk|Hk]; [reflexivity|].
    replace (0 <? k + l) with true by (symmetry; apply Nat.ltb_lt; lia).
    replace (7 * (k + l) <? 10 * l) with true
      by (symmetry; apply Nat.ltb_lt; lia).
    reflexivity.
Qed.

End LanguageFacts.

(* ================================================================== *)
(** * The Markdown probe of the text converter
      (converters/text_converter.py) *)
(* ================================================================== *)

Section ProbeFacts.
Import Py Re Props Text MatchNotions.

Lemma glen_total_from (f : char -> bool) (lo : nat) (kl : str -> option nat) :
  (forall v, kl v <> None) ->
  forall s cnt, lo <= cnt -> glen f lo kl cnt s <> None.
Proof.
  intros Hk. induction s as [|c r IH]; intros cnt Hle; cbn [glen].
  - destruct (Nat.leb_spec lo cnt); [apply Hk|lia].
  - destruct (f c).
    + destruct (glen f lo kl (S cnt) r) eqn:E; [discriminate|].
      exfalso. apply (IH (S cnt)); [lia|exact E].
    + destruct (Nat.leb_spec lo cnt); [apply Hk|lia].
Qed.

Lemma glen_head (f : char -> bool) (kl : str -> option nat) (s : str) cnt :
  kl s <> None -> glen f 0 kl cnt s <> None.
Proof.
  intros Hk. destruct s as [|c r]; cbn [glen Nat.leb]; [exact Hk|].
  destruct (f c); [|exact Hk].
  destruct (glen f 0 kl (S cnt) r); [discriminate|exact Hk].
Qed.

(** The fourth pattern matches wherever a character other than an
    asterisk stands. *)
Lemma bold_len_some (c : char) (post : str) :
  not_star c = true -> bold_len (c :: post) <> None.
Proof.
  intros Hc. unfold bold_len. apply glen_head. apply glen_head.
  cbn [glen]. rewrite Hc.
  destruct (glen not_star 1
              (glen is_backslash 0 (glen is_backslash 0 no_more 0) 0) 1 post)
    eqn:E; [discriminate|].
  exfalso. revert E. apply glen_total_from; [|lia].
  intros v. apply glen_total_from; [|lia].
  intros w. apply glen_total_from; [|lia]. discriminate.
Qed.

Lemma bold_compiled :
  compile (lit "\\*\\*[^*]+\\*\\*")
  = Ok (Seq (Repeat 0 None (Lit 92%N))
          (Seq (Repeat 0 None (Lit 92%N))
             (Seq (Repeat 1 None (InSet true [SLit 42%N]))
                (Seq (Repeat 0 None (Lit 92%N)) (Repeat 0 None (Lit 92%N)))))).
Proof. vm_compute. reflexivity. Qed.

Lemma mt_bold (fl : flags) (st : mstate) :
  mt fl
    (Seq (Repeat 0 None (Lit 92%N))
       (Seq (Repeat 0 None (Lit 92%N))
          (Seq (Repeat 1 None (InSet true [SLit 42%N]))
             (Seq (Repeat 0 None (Lit 92%N)) (Repeat 0 None (Lit 92%N))))))
    st Some
  = option_map (fun n => adv n st) (bold_len (rest st)).
Proof.
  assert (Hb : forall st' k',
             mt fl (Lit 92%N) st' k' = step is_backslash st' k')
    by (intros; reflexivity).
  assert (Hs : forall st' k',
             mt fl (InSet true [SLit 42%N]) st' k' = step not_star st' k').
  { intros st' k'. cbn [mt]. apply step_ext. intros c.
    unfold set_mem, not_star. cbn. rewrite orb_false_r. reflexivity. }
  unfold bold_len.
  change (mt fl (Seq (Repeat 0 None ?a) ?r) st Some)
    with (mt fl (Repeat 0 None a) st (fun st1 => mt fl r st1 Some)).
  apply (mt_repeat_chars fl _ is_backslash 0 _ _ Hb). intros st1.
  change (mt fl (Seq (Repeat 0 None ?a) ?r) st1 Some)
    with (mt fl (Repeat 0 None a) st1 (fun st2 => mt fl r st2 Some)).
  apply (mt_repeat_chars fl _ is_backslash 0 _ _ Hb). intros st2.
  change (mt fl (Seq (Repeat 1 None ?a) ?r) st2 Some)
    with (mt fl (Repeat 1 None a) st2 (fun st3 => mt fl r st3 Some)).
  apply (mt_repeat_chars fl _ not_star 1 _ _ Hs). intros st3.
  change (mt fl (Seq (Repeat 0 None ?a) ?r) st3 Some)
    with (mt fl (Repeat 0 None a) st3 (fun st4 => mt fl r st4 Some)).
  apply (mt_repeat_chars fl _ is_backslash 0 _ _ Hb). intros st4.
  apply (mt_repeat_chars fl _ is_backslash 0 no_more Some Hb).
  exact some_is_no_more.
Qed.

(** A search finds a match as soon as the pattern matches at some
    character of the subject. *)
Lemma search_from_finds (fl : flags) (r : regex) (f : char -> bool) :
  (forall p pv c post,
      f c = true ->
      match_at fl r false {| pos := p; prev := pv; rest := c :: post;
                             caps := [] |} <> None) ->
  forall s p pv,
    existsb f s = true -> search_from fl r false p pv s <> None.
Proof.
  intros Hm. induction s as [|c s IH]; intros p pv He; [discriminate|].
  cbn [search_from].
  destruct (match_at fl r false
              {| pos := p; prev := pv; rest := c :: s; caps := [] |}) eqn:E;
    [discriminate|].
  apply IH. cbn [existsb] in He. apply orb_true_iff in He as [Hc|Hs];
    [|exact Hs].
  exfalso. exact (Hm p pv c s Hc E).
Qed.

Lemma search_bold_finds (text : str) :
  existsb not_star text = true ->
  search MULTILINE
    (Seq (Repeat 0 None (Lit 92%N))
       (Seq (Repeat 0 None (Lit 92%N))
          (Seq (Repeat 1 None (InSet true [SLit 42%N]))
             (Seq (Repeat 0 None (Lit 92%N)) (Repeat 0 None (Lit 92%N))))))
    text <> None.
Proof.
  apply (search_from_finds MULTILINE _ not_star).
  intros p pv c post Hc. unfold match_at. cbn [andb].
  change (fun st' : mstate => Some st') with (@Some mstate).
  rewrite mt_bold. cbn [clear_caps rest].
  destruct (bold_len (c :: post)) eqn:E; [discriminate|].
  exfalso. exact (bold_len_some c post Hc E).
Qed.

(** A search over a subject finds nothing when the pattern matches at
    none of its suffixes. *)
Lemma search_from_nothing (fl : flags) (r : regex) (P : char -> Prop) :
  (forall must p pv s,
      Forall P s ->
      match_at fl r must {| pos := p; prev := pv; rest := s; caps := [] |}
      = None) ->
  forall s must p pv,
    Forall P s -> search_from fl r must p pv s = None.
Proof.
  intros Hm. induction s as [|c s IH]; intros must p pv Hs;
    cbn [search_from]; rewrite (Hm _ _ _ _ Hs); [reflexivity|].
  apply IH. inversion Hs. assumption.
Qed.

Lemma markdown_patterns_compiled :
  List.map compile markdown_patterns
  = [ Ok (Seq Bol
            (Seq (Repeat 1 None (Lit 35%N)) (Seq (Lit 92%N) (Lit 115%N))));
      Ok (Seq Bol
            (Seq (Repeat 0 None (Lit 92%N)) (Seq (Lit 92%N) (Lit 115%N))));
      Ok (Seq Bol
            (Seq (Lit 92%N)
               (Seq (Repeat 1 None (Lit 100%N))
                  (Seq (Lit 92%N)
                     (Seq AnyChar (Seq (Lit 92%N) (Lit 115%N)))))));
      Ok (Seq (Repeat 0 None (Lit 92%N))
            (Seq (Repeat 0 None (Lit 92%N))
               (Seq (Repeat 1 None (InSet true [SLit 42%N]))
                  (Seq (Repeat 0 None (Lit 92%N))
                     (Repeat 0 None (Lit 92%N))))));
      Ok (Seq (Repeat 0 None (Lit 92%N))
            (Seq (Repeat 1 None (InSet true [SLit 42%N]))
               (Repeat 0 None (Lit 92%N))));
      Ok (Seq (Lit 92%N)
            (Seq (InSet false [SLit 91%N; SLit 94%N; SLit 92%N])
               (Seq (Repeat 1 None (Lit 93%N))
                  (Seq (Lit 92%N)
                     (Seq (Lit 93%N)
                        (Seq (Lit 92%N)
                           (Group (Some 1)
                              (Seq (Repeat 1 None
                                      (InSet true [SLit 92%N; SLit 41%N]))
                                 (Lit 92%N)))))))));
      Ok (Seq (Lit 96%N) (Seq (Lit 96%N) (Lit 96%N))) ].
Proof. vm_compute. reflexivity. Qed.

(** None of the seven patterns matches in a text of asterisks. *)
Lemma no_match_in_asterisks (r : regex) :
  In (Ok r) (List.map compile markdown_patterns) ->
  forall must p pv s,
    Forall (fun c => c = 42%N) s ->
    match_at MULTILINE r must
      {| pos := p; prev := pv; rest := s; caps := [] |} = None.
Proof.
  rewrite markdown_patterns_compiled. intros Hr must p pv s Hs.
  assert (Hshape : s = [] \/ exists s', s = 42%N :: s').
  { destruct Hs as [|c s' -> _]; [left; reflexivity|right; eauto]. }
  cbn [In] in Hr.
  repeat (destruct Hr as [Hr|Hr];
          [ injection Hr as <-;
            destruct Hshape as [->|[s' ->]];
            destruct pv as [pc|]; unfold match_at; cbn;
            try reflexivity;
            try (match goal with
                 | |- context [if ?b then _ else _] => destruct b
                 end; reflexivity) | ]).
  destruct Hr.
Qed.

Lemma not_star_none (s : str) :
  existsb not_star s = false -> Forall (fun c => c = 42%N) s.
Proof.
  induction s as [|c s IH]; [constructor|]. cbn [existsb]. intros H.
  apply orb_false_iff in H as [Hc Hs]. constructor; [|apply IH; exact Hs].
  unfold not_star in Hc. apply negb_false_iff, N.eqb_eq in Hc. exact Hc.
Qed.

Lemma looks_like_markdown_true (text : str) :
  existsb not_star text = true -> _looks_like_markdown text = Ok true.
Proof.
  intros E. unfold _looks_like_markdown.
  pose proof markdown_patterns_compiled as Hc.
  pose proof (search_bold_finds text E) as Hb.
  pose proof (f_equal (fun l => nth 0 l (Ok Empty)) Hc) as C1.
  pose proof (f_equal (fun l => nth 1 l (Ok Empty)) Hc) as C2.
  pose proof (f_equal (fun l => nth 2 l (Ok Empty)) Hc) as C3.
  pose proof (f_equal (fun l => nth 3 l (Ok Empty)) Hc) as C4.
  unfold markdown_patterns in *. cbn [List.map nth] in C1, C2, C3, C4.
  cbn [any_pattern]. unfold search_str.
  rewrite C1.
  match goal with
  | |- context [search MULTILINE ?r text] =>
      destruct (search MULTILINE r text); [reflexivity|]
  end.
  rewrite C2.
  match goal with
  | |- context [search MULTILINE ?r text] =>
      destruct (search MULTILINE r text); [reflexivity|]
  end.
  rewrite C3.
  match goal with
  | |- context [search MULTILINE ?r text] =>
      destruct (search MULTILINE r text); [reflexivity|]
  end.
  rewrite C4.
  match goal with
  | |- context [search MULTILINE ?r text] =>
      destruct (search MULTILINE r text); [reflexivity|]
  end.
  congruence.
Qed.

Lemma looks_like_markdown_false (text : str) :
  Forall (fun c => c = 42%N) text -> _looks_like_markdown text = Ok false.
Proof.
  intros E. unfold _looks_like_markdown.
  pose proof markdown_patterns_compiled as Hc.
  assert (Hn : forall r,
             In (Ok r) (List.map compile markdown_patterns) ->
             search MULTILINE r text = None).
  { intros r Hr. unfold search.
    apply (search_from_nothing MULTILINE r (fun c => c = 42%N));
      [|exact E].
    apply no_match_in_asterisks. exact Hr. }
  pose proof (f_equal (fun l => nth 0 l (Ok Empty)) Hc) as C1.
  pose proof (f_equal (fun l => nth 1 l (Ok Empty)) Hc) as C2.
  pose proof (f_equal (fun l => nth 2 l (Ok Empty)) Hc) as C3.
  pose proof (f_equal (fun l => nth 3 l (Ok Empty)) Hc) as C4.
  pose proof (f_equal (fun l => nth 4 l (Ok Empty)) Hc) as C5.
  pose proof (f_equal (fun l => nth 5 l (Ok Empty)) Hc) as C6.
  pose proof (f_equal (fun l => nth 6 l (Ok Empty)) Hc) as C7.
  unfold markdown_patterns in *.
  cbn [List.map nth] in C1, C2, C3, C4, C5, C6, C7, Hn.
  cbn [any_pattern]. unfold search_str.
  rewrite C1, (Hn _ (or_introl C1)).
  rewrite C2, (Hn _ (or_intror (or_introl C2))).
  rewrite C3, (Hn _ (or_intror (or_intror (or_introl C3)))).
  rewrite C4, (Hn _ (or_intror (or_intror (or_intror (or_introl C4))))).
  rewrite C5,
    (Hn _ (or_intror (or_intror (or_intror (or_intror (or_introl C5)))))).
  rewrite C6,
    (Hn _ (or_intror (or_intror (or_intror (or_intror
             (or_intror (or_introl C6))))))).
  rewrite C7,
    (Hn _ (or_intror (or_intror (or_intror (or_intror
             (or_intror (or_intror (or_introl C7)))))))).
  reflexivity.
Qed.

(** X23: [_looks_like_markdown] returns for every text, and it answers
    [True] exactly for the texts that hold a character other than an
    asterisk: with its doubled backslashes the fourth pattern asks for
    no more than one such character. *)
Theorem looks_like_markdown_unless_asterisks (text : str) :
  _looks_like_markdown text = Ok (existsb not_star text).
Proof.
  destruct (existsb not_star text) eqn:E.
  - apply looks_like_markdown_true. exact E.
  - apply looks_like_markdown_false. apply not_star_none. exact E.
Qed.

End ProbeFacts.

(* ================================================================== *)
(** * The text converter never raises
      (converters/text_converter.py) *)
(* ================================================================== *)

Section TextConvertFacts.
Import Py Re Exn Stream Base Text Props FormatUtils StreamUtils MatchNotions.

Lemma title_patterns_compile :
  (exists r, compile (lit "^#+\s*") = Ok r)
  /\ (exists r, compile title_junk_pattern = Ok r)
  /\ (exists t, parse_template (S (length (@nil char))) [] = Ok t).
Proof. repeat split; vm_compute; eauto. Qed.

Lemma first_title_returns (n : nat) (lines : list str) :
  exists o, first_title n lines = Ok o.
Proof.
  destruct title_patterns_compile as (H1 & H2 & H0).
  induction lines as [|line lines IH]; cbn [first_title]; [eauto|].
  destruct (strip line) as [|c l]; [exact IH|].
  destruct (length (c :: l) <=? n); [|exact IH].
  destruct (sub_returns NOFLAGS _ _ H1 H0 (c :: l)) as [l1 ->].
  destruct (sub_returns NOFLAGS _ _ H2 H0 l1) as [l2 ->].
  destruct l2; [exact IH|eauto].
Qed.

Lemma extract_title_returns (content : str) :
  exists o, extract_title_from_content content = Ok o.
Proof.
  unfold extract_title_from_content. destruct content; [eauto|].
  apply first_title_returns.
Qed.

Lemma split_without_separator (s : str) : forall acc,
  Forall (fun c => c = 42%N) s ->
  split_aux (lit "\n") 0 acc s = [rev acc ++ s].
Proof.
  induction s as [|c s IH]; intros acc H.
  - cbn. rewrite app_nil_r. reflexivity.
  - inversion H as [|? ? Hc Hs]; subst.
    cbn [split_aux].
    change (startswith (lit "\n") (42%N :: s)) with false. cbv iota.
    rewrite IH by exact Hs. cbn [rev]. rewrite <- app_assoc. reflexivity.
Qed.

Lemma asterisks_part (s pre t post : str) :
  Forall (fun c => c = 42%N) s -> s = pre ++ t ++ post ->
  Forall (fun c => c = 42%N) t.
Proof.
  intros H ->. apply List.Forall_app in H as [_ H].
  apply List.Forall_app in H as [H _]. exact H.
Qed.

Lemma plain_text_of_asterisks (text : str) :
  Forall (fun c => c = 42%N) text ->
  exists m, _plain_text_to_markdown text = Ok m.
Proof.
  intros H. unfold _plain_text_to_markdown, split.
  rewrite (split_without_separator text [] H). cbn [rev app convert_lines].
  destruct (strip_part text) as (pre & post & Hp).
  pose proof (asterisks_part _ _ _ _ H Hp) as Hl.
  destruct (strip text) as [|c l]; [eauto|].
  apply List.Forall_inv in Hl. subst c.
  change (_looks_like_list_item (42%N :: l)) with (Ok (A := bool) true).
  match goal with
  | |- context [if ?b then _ else _] => destruct b
  end; cbv beta iota; eexists; reflexivity.
Qed.

Lemma text_to_markdown_returns (text : str) (title : option str) :
  exists m, _text_to_markdown text title = Ok m.
Proof.
  unfold _text_to_markdown.
  destruct (existsb not_star text) eqn:E.
  - rewrite (looks_like_markdown_true text E). eauto.
  - apply not_star_none in E.
    rewrite (looks_like_markdown_false text E).
    destruct (plain_text_of_asterisks text E) as [m ->]. eauto.
Qed.

Lemma clean_markdown_returns (ks : bool) (markdown : str) :
  exists t, _clean_markdown ks markdown = Ok t.
Proof.
  unfold _clean_markdown. destruct markdown as [|c md]; [eauto|].
  assert (Hc : exists r, compile (lit "\n\s*\n\s*\n") = Ok r)
    by (rewrite blank_lines3_compiled; eauto).
  assert (Ht : exists t, parse_template (S (length [NL; NL])) [NL; NL] = Ok t)
    by (vm_compute; eauto).
  destruct (sub_returns NOFLAGS _ _ Hc Ht (c :: md)) as [m ->].
  destruct ks; [apply normalize_korean_returns|eauto].
Qed.

Lemma format_title_returns (ks : bool) (title : str) :
  exists t, _format_title ks title = Ok t.
Proof.
  unfold _format_title. destruct title as [|c title]; [eauto|].
  destruct ks.
  - destruct (normalize_korean_returns true (strip (c :: title))) as [y ->].
    destruct (100 <? length y); eauto.
  - destruct (100 <? length (strip (c :: title))); eauto.
Qed.

(** X24: without the [chardet] package [TextConverter.convert] returns
    a result for every open stream and every descriptor, when the codecs
    that it asks raise nothing but [UnicodeDecodeError]: the codec of the
    charset of the descriptor, if it names one, and the two Korean
    codecs.  No pattern that it reaches is rejected, and the pattern of
    [_looks_like_list_item], which is rejected, is never reached. *)
Theorem text_convert_returns
  (self : TextConverter) (e : env) (stream : bstream) (si : StreamInfo) :
  closed stream = false ->
  chardet e = None ->
  match charset si with
  | Some (x :: enc) => decodes_or_fails e (x :: enc) (data stream)
  | _ => True
  end ->
  korean_codecs e ->
  (exists r, convert self e stream si = Return r)
  /\ compile (lit "^\\d+\\)\\s") = Err (ReError "unbalanced parenthesis").
Proof.
  intros Hc Hd Hp Hk. split; [|vm_compute; reflexivity].
  assert (Hread : exists s,
             read_stream_with_encoding e stream (charset si) = Return s).
  { unfold read_stream_with_encoding. rewrite Hc, Hd.
    destruct (try_fallbacks_default e (data stream) Hk)
      as (enc0 & s0 & _ & _ & Hret).
    destruct (charset si) as [[|c enc]|].
    - eauto.
    - destruct (decode e (c :: enc) (data stream)) as [s| |err] eqn:E.
      + eexists. reflexivity.
      + eauto.
      + destruct (Hp err E).
    - eauto. }
  destruct Hread as [s0 Hread].
  unfold convert, convert_body. rewrite Hread.
  rewrite normalize_whitespace_direct. cbn [of_res].
  set (text := match s0 with
               | [] => []
               | _ => strip (squeeze_blank_lines (collapse_blanks s0))
               end).
  destruct (extract_title_returns text) as [t0 ->]. cbn [of_res].
  set (title := match t0 with
                | Some (_ :: _) => t0
                | _ => _extract_title_from_filename (filename si)
                end).
  destruct (text_to_markdown_returns text title) as [md ->]. cbn [of_res].
  destruct (clean_markdown_returns (korean_support self) md) as [cleaned ->].
  cbn [of_res].
  destruct title as [[|c t]|].
  - eauto.
  - destruct (format_title_returns (korean_support self) (c :: t)) as [ft ->].
    cbn [of_res]. eauto.
  - eauto.
Qed.

Lemma text_convert_returns_witness :
  exists r,
    convert {| korean_support := true |} strict_env binary_stream
      Stream.empty_info = Return r.
Proof.
  exact (proj1 (text_convert_returns {| korean_support := true |} strict_env
                  binary_stream Stream.empty_info eq_refl eq_refl I
                  strict_env_korean_codecs)).
Defined.

End TextConvertFacts.

(* ================================================================== *)
(** * Headings in the structural report (core/markitdown.py) *)
(* ================================================================== *)

Section HeadingFacts.
Import Py Re Props Engine MatchNotions.

(** A repetition fails when what follows it fails wherever the
    repetition may stop. *)
Lemma rep_loop_fails (Q : mstate -> Prop)
  (body : mstate -> (mstate -> option mstate) -> option mstate)
  (lo : nat) (hi : option nat) (k : mstate -> option mstate) :
  (forall st k', Q st -> (forall st', Q st' -> k' st' = None) ->
                 body st k' = None) ->
  (forall st, Q st -> k st = None) ->
  forall fuel cnt last st,
    Q st -> rep_loop body lo hi k fuel cnt last st = None.
Proof.
  intros Hbody Hk. induction fuel as [|fuel IH]; intros cnt last st HQ;
    [reflexivity|].
  cbn [rep_loop]. destruct (cnt <? lo).
  - apply Hbody; [exact HQ|]. intros st' HQ'. apply IH. exact HQ'.
  - destruct (below cnt hi && negb (same_pos last st)).
    + rewrite Hbody; [|exact HQ|intros st' HQ'; apply IH; exact HQ'].
      cbn [orelse]. apply Hk. exact HQ.
    + cbn [orelse]. apply Hk. exact HQ.
Qed.

Lemma step_fails (Q : mstate -> Prop) (f : char -> bool) st k :
  (forall c s' st0, rest st0 = c :: s' -> Q st0 -> Q (advance c s' st0)) ->
  Q st -> (forall st', Q st' -> k st' = None) -> step f st k = None.
Proof.
  intros Hadv HQ Hk. unfold step.
  destruct (rest st) as [|c s'] eqn:E; [reflexivity|].
  destruct (f c); [|reflexivity]. apply Hk. eapply Hadv; eauto.
Qed.

Lemma headings_compiled :
  compile (lit "^(#{1,6})\\s+(.+)$")
  = Ok (Seq Bol
          (Seq (Group (Some 1) (Repeat 1 (Some 6) (Lit 35%N)))
             (Seq (Lit 92%N)
                (Seq (Repeat 1 None (Lit 115%N))
                   (Seq (Group (Some 2) (Repeat 1 None AnyChar)) Eol))))).
Proof. vm_compute. reflexivity. Qed.

(** The heading pattern matches nowhere in a text without a
    backslash. *)
Lemma heading_no_match (must : bool) (p : nat) (pv : option char) (s : str) :
  Forall (fun c => c <> 92%N) s ->
  match_at MULTILINE
    (Seq Bol
       (Seq (Group (Some 1) (Repeat 1 (Some 6) (Lit 35%N)))
          (Seq (Lit 92%N)
             (Seq (Repeat 1 None (Lit 115%N))
                (Seq (Group (Some 2) (Repeat 1 None AnyChar)) Eol)))))
    must {| pos := p; prev := pv; rest := s; caps := [] |} = None.
Proof.
  intros Hs. unfold match_at.
  set (st0 := clear_caps {| pos := p; prev := pv; rest := s; caps := [] |}).
  set (Q := fun st : mstate => Forall (fun c => c <> 92%N) (rest st)).
  assert (Hadv : forall c s' st, rest st = c :: s' -> Q st ->
                                 Q (advance c s' st)).
  { intros c s' st E HQ. unfold Q in *. cbn [advance rest]. rewrite E in HQ.
    inversion HQ. assumption. }
  match goal with
  | |- match ?m with _ => _ end = None => assert (Hm : m = None)
  end.
  { cbn [mt]. destruct (at_bol MULTILINE st0); [|reflexivity].
    apply (rep_loop_fails Q); [| |exact Hs].
    - intros st k' HQ Hk'. cbn [mt]. apply (step_fails Q); assumption.
    - intros st HQ. unfold step. cbn [set_cap rest].
      unfold Q in HQ. destruct (rest st) as [|c s']; [reflexivity|].
      inversion HQ as [|? ? Hc _]; subst.
      destruct (N.eqb_spec c 92); [contradiction|reflexivity]. }
  rewrite Hm. reflexivity.
Qed.

Lemma no_backslash (s : str) :
  existsb is_backslash s = false -> Forall (fun c => c <> 92%N) s.
Proof.
  induction s as [|c s IH]; [constructor|]. cbn [existsb]. intros H.
  apply orb_false_iff in H as [Hc Hs]. constructor; [|apply IH; exact Hs].
  unfold is_backslash in Hc. apply N.eqb_neq in Hc. exact Hc.
Qed.

(** X25: in a text without a backslash [_extract_headings] finds no
    heading at all, whatever the text holds: with its doubled
    backslashes the pattern asks for a backslash and the letter s after
    the number signs. *)
Theorem extract_headings_needs_backslash (markdown : str) :
  existsb is_backslash markdown = false ->
  _extract_headings markdown = Ok [].
Proof.
  intros H. apply no_backslash in H.
  unfold _extract_headings, finditer_str. rewrite headings_compiled.
  unfold finditer.
  assert (Hscan : forall fuel,
             scan fuel MULTILINE
               (Seq Bol
                  (Seq (Group (Some 1) (Repeat 1 (Some 6) (Lit 35%N)))
                     (Seq (Lit 92%N)
                        (Seq (Repeat 1 None (Lit 115%N))
                           (Seq (Group (Some 2) (Repeat 1 None AnyChar))
                              Eol)))))
               false 0 None markdown = []).
  { intros [|fuel]; [reflexivity|]. cbn [scan].
    rewrite (search_from_nothing MULTILINE _ (fun c => c <> 92%N));
      [reflexivity| |exact H].
    intros must p pv s Hs. apply heading_no_match. exact Hs. }
  rewrite Hscan. reflexivity.
Qed.

Lemma extract_headings_needs_backslash_witness :
  existsb is_backslash Examples.sample_markdown = false
  /\ _extract_headings Examples.sample_markdown = Ok [].
Proof.
  split; [reflexivity|].
  apply (extract_headings_needs_backslash Examples.sample_markdown eq_refl).
Defined.

End HeadingFacts.

(* ================================================================== *)
(** * URIs *)
(* ================================================================== *)

Section UriFacts.
Import Py Exn Stream Uri.
Variable b64decode : str -> outcome (list N).
Variable unquote_encode : str -> outcome (list N).

Lemma break_at_first (sep : N) (a b : list N) :
  ~ In sep a -> break_at sep (a ++ sep :: b) = Some (a, b).
Proof.
  induction a as [|c a IH]; intros Hn; simpl.
  - rewrite N.eqb_refl. reflexivity.
  - destruct (N.eqb_spec c sep) as [->|_].
    + exfalso. apply Hn. left. reflexivity.
    + rewrite IH; [reflexivity|]. intros Hin. apply Hn. right. exact Hin.
Qed.

Lemma break_at_none (sep : N) (s : list N) :
  ~ In sep s -> break_at sep s = None.
Proof.
  induction s as [|c s IH]; intros Hn; simpl.
  - reflexivity.
  - destruct (N.eqb_spec c sep) as [->|_].
    + exfalso. apply Hn. left. reflexivity.
    + rewrite IH; [reflexivity|]. intros Hin. apply Hn. right. exact Hin.
Qed.

(** A URI that starts with [data:] goes to [_convert_data_uri], which
    splits what follows the scheme at its first comma. *)
Lemma convert_uri_data (rest : str) :
  convert_uri b64decode unquote_encode (lit "data:" ++ rest)
  = match break_at 44%N rest with
    | None =>
        Raise (ValueError "not enough values to unpack (expected 2, got 1)")
    | Some (header, data) =>
        let '(media_type, is_base64) :=
          match break_at 59%N header with
          | Some (media_type, encoding) =>
              (media_type, contains (lit "base64") encoding)
          | None => (header, false)
          end in
        do binary_data <- (if is_base64 then b64decode data
                           else unquote_encode data) in
        Return (FromStream binary_data
                  (make (Some media_type) None None None None None))
    end.
Proof. reflexivity. Qed.

(** X26: a data URI is read as its writer meant it when the media type
    holds neither a comma nor a semicolon and the parameters hold no
    comma: the descriptor handed to [convert_stream] has the media type
    as its MIME type and nothing else, and the data, which may hold
    commas, are decoded as base64 exactly when the parameters hold the
    letters [base64] somewhere, and as percent-encoded text otherwise.
    Without a comma after the scheme the call raises [ValueError]. *)
Theorem data_uri_parts (media_type params data : str) :
  ~ In 44%N media_type -> ~ In 59%N media_type -> ~ In 44%N params ->
  let info := {| mimetype := Some media_type; extension := None;
                 charset := None; filename := None; local_path := None;
                 url := None |} in
  convert_uri b64decode unquote_encode
    (lit "data:" ++ media_type ++ lit ";" ++ params ++ lit "," ++ data)
  = (do binary_data <- (if contains (lit "base64") params
                        then b64decode data else unquote_encode data) in
     Return (FromStream binary_data info))
  /\ convert_uri b64decode unquote_encode
       (lit "data:" ++ media_type ++ lit "," ++ data)
     = (do binary_data <- unquote_encode data in
        Return (FromStream binary_data info))
  /\ convert_uri b64decode unquote_encode (lit "data:" ++ media_type)
     = Raise (ValueError "not enough values to unpack (expected 2, got 1)").
Proof.
  intros Hc Hs Hp info.
  assert (Hh : ~ In 44%N (media_type ++ 59%N :: params)).
  { intros Hin. apply in_app_or in Hin as [Hin|[Hin|Hin]].
    - exact (Hc Hin).
    - discriminate Hin.
    - exact (Hp Hin). }
  pose proof (break_at_first 44%N _ data Hh) as E1.
  pose proof (break_at_first 59%N media_type params Hs) as E2.
  pose proof (break_at_first 44%N media_type data Hc) as E3.
  pose proof (break_at_none 59%N media_type Hs) as E4.
  pose proof (break_at_none 44%N media_type Hc) as E5.
  rewrite <- app_assoc in E1. cbn [app] in E1.
  rewrite !convert_uri_data.
  change (lit ";" ++ params ++ lit "," ++ data)
    with (59%N :: params ++ 44%N :: data).
  change (lit "," ++ data) with (44%N :: data).
  unfold char in *.
  rewrite E1, E3, E5. cbv beta iota. rewrite E2, E4.
  repeat split.
Qed.

End UriFacts.

Section UriWitness.
Import Py Exn Stream Uri.

(** The theorem on [data:text/plain;charset=utf-8;base64,aGk=]. *)
Lemma data_uri_parts_witness :
  convert_uri as_bytes as_bytes
    (lit "data:text/plain;charset=utf-8;base64,aGk=")
  = Return (FromStream (lit "aGk=")
              {| mimetype := Some (lit "text/plain"); extension := None;
                 charset := None; filename := None; local_path := None;
                 url := None |}).
Proof.
  apply (proj1 (data_uri_parts as_bytes as_bytes (lit "text/plain")
                  (lit "charset=utf-8;base64") (lit "aGk=")
                  ltac:(vm_compute; intuition discriminate)
                  ltac:(vm_compute; intuition discriminate)
                  ltac:(vm_compute; intuition discriminate))).
Defined.

End UriWitness.

(* ================================================================== *)
(** * The first success of the attempt loop *)
(* ================================================================== *)

Section FirstSuccess.
Import Py Exn Stream Base Engine Props.
Context {S : Type}.
Variable nks : str -> attempt str.
Variable repr_strs : list str -> str.
Variable repr_failures : list failure -> str.
Variables eks ko : bool.

Implicit Types (regs : list (ConverterRegistration (Converter S)))
  (gs : list StreamInfo) (s : S) (fa : list failure).

Lemma try_one_success (c : Converter S) si s s' r :
  try_one nks eks ko c si s = (s', Done (Some r)) ->
  exists s1 r0,
    accepts c s si = (s1, Done true)
    /\ convert c s1 si = (s', Done r0)
    /\ (if ko then _apply_korean_optimization nks eks r0 else Done r0)
       = Done r.
Proof.
  unfold try_one.
  destruct (accepts c s si) as [s1 [[|]|err]] eqn:Ea; try discriminate.
  destruct (convert c s1 si) as [s2 [r0|err]] eqn:Ec; try discriminate.
  intros H. exists s1, r0. split; [reflexivity|].
  destruct ko.
  - destruct (_apply_korean_optimization nks eks r0) as [x|err];
      [|discriminate].
    injection H as <- <-. split; [exact Ec|reflexivity].
  - injection H as <- <-. split; [exact Ec|reflexivity].
Qed.

Lemma run_combinations_success
  (l : list (StreamInfo * ConverterRegistration (Converter S)))
  s fa s' fa' r :
  run_combinations nks eks ko l s fa = (s', fa', Some r) ->
  exists before si reg after s1,
    l = before ++ (si, reg) :: after
    /\ run_combinations nks eks ko before s fa = (s1, fa', None)
    /\ try_one nks eks ko (converter reg) si s1 = (s', Done (Some r)).
Proof.
  revert s fa. induction l as [|[si reg] l IH]; intros s fa H; simpl in H.
  - discriminate.
  - destruct (try_one nks eks ko (converter reg) si s)
      as [s1 [[x|]|err]] eqn:E.
    + injection H as <- <- <-.
      exists [], si, reg, l, s. repeat split. exact E.
    + apply IH in H as (before & si' & reg' & after & s2 & -> & Hb & Ht).
      exists ((si, reg) :: before), si', reg', after, s2.
      repeat split; [|exact Ht]. simpl. rewrite E. exact Hb.
    + apply IH in H as (before & si' & reg' & after & s2 & -> & Hb & Ht).
      exists ((si, reg) :: before), si', reg', after, s2.
      repeat split; [|exact Ht]. simpl. rewrite E. exact Hb.
Qed.

Lemma run_combinations_none_length
  (l : list (StreamInfo * ConverterRegistration (Converter S)))
  s fa s' fa' :
  run_combinations nks eks ko l s fa = (s', fa', None) ->
  length fa' <= length fa + length l.
Proof.
  revert s fa. induction l as [|[si reg] l IH]; intros s fa H; simpl in H.
  - injection H as _ <-. simpl. lia.
  - destruct (try_one nks eks ko (converter reg) si s)
      as [s1 [[x|]|err]] eqn:E.
    + discriminate.
    + apply IH in H. simpl. lia.
    + apply IH in H. rewrite length_app in H. simpl in *. lia.
Qed.

Lemma loop_as_combinations regs gs s fa :
  try_guesses nks eks ko regs gs s fa
  = run_combinations nks eks ko (combinations regs gs) s fa.
Proof.
  revert s fa. induction gs as [|si gs IH]; intros s fa.
  - reflexivity.
  - change (combinations regs (si :: gs))
      with (List.map (fun reg => (si, reg)) regs ++ combinations regs gs).
    assert (Hin : forall (l : list (ConverterRegistration (Converter S))) s0 fa0,
               try_converters nks eks ko l si s0 fa0
               = run_combinations nks eks ko
                   (List.map (fun reg => (si, reg)) l) s0 fa0).
    { induction l as [|reg l IHl]; intros s0 fa0; simpl.
      - reflexivity.
      - destruct (try_one nks eks ko (converter reg) si s0)
          as [s1 [[x|]|err]]; try reflexivity; apply IHl. }
    assert (Happ : forall l1 l2 s0 fa0,
               run_combinations nks eks ko (l1 ++ l2) s0 fa0
               = match run_combinations nks eks ko l1 s0 fa0 with
                 | (s1, fa1, Some r) => (s1, fa1, Some r)
                 | (s1, fa1, None) => run_combinations nks eks ko l2 s1 fa1
                 end).
    { induction l1 as [|[si1 reg1] l1 IHl]; intros l2 s0 fa0; simpl.
      - reflexivity.
      - destruct (try_one nks eks ko (converter reg1) si1 s0)
          as [s1 [[x|]|err]]; try reflexivity; apply IHl. }
    simpl try_guesses. rewrite Happ, <- Hin.
    destruct (try_converters nks eks ko regs si s fa) as [[s1 fa1] [r|]].
    + reflexivity.
    + apply IH.
Qed.

(** X27: a result that [_convert_with_guesses] returns comes from the
    first combination of a guess and a converter, in the order of the two
    loops, for which [accepts] answered [True] and [convert] and the
    Korean optimisation returned: every combination before it declined or
    raised, none after it is called, so the stream is left as that
    [convert] left it, and the result is that of [convert], passed through
    the optimisation when it is switched on. *)
Theorem first_success_wins regs gs s s' r :
  _convert_with_guesses nks repr_strs repr_failures eks ko regs gs s
  = (s', Return r) ->
  exists before si reg after s1 s2 fa r0,
    combinations regs gs = before ++ (si, reg) :: after
    /\ run_combinations nks eks ko before s [] = (s1, fa, None)
    /\ length fa <= length before
    /\ accepts (converter reg) s1 si = (s2, Done true)
    /\ convert (converter reg) s2 si = (s', Done r0)
    /\ (if ko then _apply_korean_optimization nks eks r0 else Done r0)
       = Done r.
Proof.
  unfold _convert_with_guesses. rewrite loop_as_combinations.
  destruct (run_combinations nks eks ko (combinations regs gs) s [])
    as [[s1 fa] [x|]] eqn:E; [|discriminate].
  intros H. injection H as <- <-.
  apply run_combinations_success in E
    as (before & si & reg & after & s0 & Hsplit & Hb & Ht).
  apply try_one_success in Ht as (s2 & r0 & Ha & Hc & Hr).
  exists before, si, reg, after, s0, s2, fa, r0.
  split; [exact Hsplit|]. split; [exact Hb|].
  split; [apply run_combinations_none_length in Hb; simpl in Hb; exact Hb|].
  split; [exact Ha|]. split; [exact Hc|exact Hr].
Qed.

End FirstSuccess.

Section FirstSuccessWitness.
Import Py Exn Stream Base Engine Props Examples LoopExamples.

(** The theorem on three converters of which the first declines and the
    other two accept: the second one gives the result and the third is
    never called. *)
Lemma first_success_wins_witness :
  _convert_with_guesses no_spacing plain_strs plain_failures true false
    registry [txt_info] []
  = (["pdf.accepts"; "text.accepts"; "text.convert"]%string,
     Return {| markdown := lit "hello"; title := None;
               result_metadata := None |})
  /\ exists before si reg after s1 s2 fa r0,
       combinations registry [txt_info] = before ++ (si, reg) :: after
       /\ run_combinations no_spacing true false before [] []
          = (s1, fa, None)
       /\ length fa <= length before
       /\ accepts (converter reg) s1 si = (s2, Done true)
       /\ convert (converter reg) s2 si
          = (["pdf.accepts"; "text.accepts"; "text.convert"]%string, Done r0)
       /\ (if false then _apply_korean_optimization no_spacing true r0
           else Done r0)
          = Done {| markdown := lit "hello"; title := None;
                    result_metadata := None |}.
Proof.
  split; [reflexivity|].
  apply (first_success_wins no_spacing plain_strs plain_failures true false
           registry [txt_info] []).
  reflexivity.
Defined.

End FirstSuccessWitness.

(* ================================================================== *)
(** * The title of an audio document *)
(* ================================================================== *)

Section AudioTitleFacts.
Import Py Re Stream Base AudioTitle.

Lemma format_title_length (ks : bool) (title : str) :
  exists t, _format_title ks title = Ok t /\ length t <= 100.
Proof.
  unfold _format_title. destruct title as [|c title].
  - exists []. split; [reflexivity|simpl; lia].
  - set (x := strip (c :: title)).
    assert (Hn : exists y,
               (if ks then _normalize_korean_text ks x else Ok x) = Ok y).
    { destruct ks; [apply normalize_korean_returns|eauto]. }
    destruct Hn as (y & ->).
    destruct (Nat.ltb_spec 100 (length y)) as [Hlt|Hle].
    + eexists. split; [reflexivity|].
      rewrite length_app, length_firstn.
      change (length (lit "...")) with 3. lia.
    + exists y. split; [reflexivity|exact Hle].
Qed.

(** X28: [_extract_audio_title] returns for every transcription and
    every descriptor, with or without Korean support; a title it gives
    is never longer than 100 characters; it gives no title only when the
    descriptor has no file name; and for a transcription that starts with
    a period the title is the empty string, whatever the file name. *)
Theorem audio_title_bounded (ks : bool) (transcription : str)
  (stream_info : StreamInfo) :
  exists o,
    _extract_audio_title ks transcription stream_info = Ok o
    /\ (forall t, o = Some t -> length t <= 100)
    /\ (o = None -> truthy (filename stream_info) = false)
    /\ (forall rest, transcription = 46%N :: rest -> o = Some []).
Proof.
  assert (Hf : forall title,
             exists t,
               (try t <- _format_title ks title in Ok (Some t))
               = Ok (Some t) /\ length t <= 100).
  { intros title. destruct (format_title_length ks title) as (t & -> & Ht).
    exists t. split; [reflexivity|exact Ht]. }
  assert (Hfallback :
            exists o,
              match filename stream_info with
              | Some ((_ :: _) as title) =>
                  try t <- _format_title ks
                             (replace (lit "-") (lit " ")
                                (replace (lit "_") (lit " ")
                                   (if existsb (N.eqb 46%N) title
                                    then Text.rsplit_dot title else title))) in
                  Ok (Some t)
              | _ => Ok None
              end = Ok o
              /\ (forall t, o = Some t -> length t <= 100)
              /\ (o = None -> truthy (filename stream_info) = false)).
  { destruct (filename stream_info) as [[|c f]|].
    - exists None. split; [reflexivity|]. split; [discriminate|reflexivity].
    - match goal with
      | |- context [_format_title ks ?x] =>
          destruct (Hf x) as (t & -> & Ht)
      end.
      exists (Some t). split; [reflexivity|]. split; [|discriminate].
      intros t' [= <-]. exact Ht.
    - exists None. split; [reflexivity|]. split; [discriminate|reflexivity]. }
  destruct Hfallback as (o & Ho & Hlen & Hnone).
  unfold _extract_audio_title. cbv zeta. rewrite Ho.
  destruct transcription as [|c rest].
  - exists o. split; [reflexivity|]. split; [exact Hlen|].
    split; [exact Hnone|discriminate].
  - destruct (N.eqb_spec c 46%N) as [->|Hc].
    + exists (Some []). split; [reflexivity|].
      split; [intros t [= <-]; simpl; lia|].
      split; [discriminate|reflexivity].
    + destruct (split (lit ".") (c :: rest)) as [|sentence l].
      * exists o. split; [reflexivity|]. split; [exact Hlen|].
        split; [exact Hnone|]. intros rest' [= -> _]. congruence.
      * destruct (length (strip sentence) <? 100).
        -- destruct (Hf (strip sentence)) as (t & -> & Ht).
           exists (Some t). split; [reflexivity|].
           split; [intros t' [= <-]; exact Ht|].
           split; [discriminate|]. intros rest' [= -> _]. congruence.
        -- exists o. split; [reflexivity|]. split; [exact Hlen|].
           split; [exact Hnone|]. intros rest' [= -> _]. congruence.
Qed.

End AudioTitleFacts.
